(** * NetMonitor: a shallow embedding of the capture / enrichment /
      aggregation / persistence pipeline.

    Each module below embeds one Python source file.  Python [int]s are [Z],
    [str]s are [string] (byte strings: host names, IP literals and process
    names are ASCII), clock readings ([time.time()]) and the rates derived
    from them are rationals [Q], a [dict] whose iteration order is observed is
    an association list in insertion order, and the set of confirmed-local
    IPs is a [gset string].  Calls into the operating system (the clock, the
    connection table, [lsof], reverse DNS, SQLite writes) are parameters of
    the functions that make them. *)

From Stdlib Require Import ZArith QArith Ascii String List Bool Lia.
From Stdlib Require Import Sorted Permutation Lqa DecimalNat DecimalString.
From stdpp Require Import base decidable option list gmap strings.

Local Open Scope Z_scope.
Local Open Scope list_scope.

(** ** Python primitives used by the sources *)

Module Py.

(** [s.startswith(p)] *)
Definition startswith (s p : string) : bool := String.prefix p s.

(** [k in s] on strings: [k] occurs at some offset of [s]. *)
Fixpoint contains (s k : string) : bool :=
  String.prefix k s ||
  match s with
  | EmptyString => false
  | String _ s' => contains s' k
  end.

(** [str.lower()] on ASCII text: only 'A'..'Z' change. *)
Definition lower_ascii (c : ascii) : ascii :=
  let n := nat_of_ascii c in
  if (65 <=? n)%nat && (n <=? 90)%nat then ascii_of_nat (n + 32) else c.

Fixpoint lower (s : string) : string :=
  match s with
  | EmptyString => EmptyString
  | String c s' => String (lower_ascii c) (lower s')
  end.

(** Truthiness of an optional string: [None] and [''] are falsy. *)
Definition truthy_str (s : option string) : bool :=
  match s with
  | Some (String _ _) => true
  | _ => false
  end.

(** Truthiness of an optional int: [None] and [0] are falsy. *)
Definition truthy_int (z : option Z) : bool :=
  match z with
  | Some z => negb (z =? 0)
  | None => false
  end.

(** [l[k:]] for a non-negative [k], and [l[-k:]] for a positive [k]. *)
Definition slice_from {A} (k : Z) (l : list A) : list A :=
  if 0 <=? k then drop (Z.to_nat k) l
  else drop (length l - Z.to_nat (- k)) l.

(** [l[:k]]: the first [k] items, or all but the last [-k] when [k < 0]. *)
Definition slice_to {A} (k : Z) (l : list A) : list A :=
  if 0 <=? k then take (Z.to_nat k) l
  else take (length l - Z.to_nat (- k)) l.

(** The last [n] items of a list, in order. *)
Definition lastn {A} (n : nat) (l : list A) : list A :=
  drop (length l - n) l.

(** A [defaultdict(int)] in insertion order. *)
Definition counter := list (string * Z).

(** [d[k] += v] on a [defaultdict(int)]: an existing key keeps its place, a
    new key is appended with [0 + v]. *)
Fixpoint dict_add (d : counter) (k : string) (v : Z) : counter :=
  match d with
  | [] => [(k, 0 + v)]
  | (k', x) :: d' =>
      if String.eqb k' k then (k', x + v) :: d'
      else (k', x) :: dict_add d' k v
  end.

(** [d.get(k, 0)] *)
Fixpoint dict_get (d : counter) (k : string) : Z :=
  match d with
  | [] => 0
  | (k', x) :: d' => if String.eqb k' k then x else dict_get d' k
  end.

Definition sum_values (d : counter) : Z :=
  fold_right (fun kv acc => snd kv + acc) 0 d.

(** [collections.deque(maxlen=n).append] *)
Definition deque_append {A} (maxlen : nat) (q : list A) (x : A) : list A :=
  match maxlen with
  | O => []
  | _ => if (length q <? maxlen)%nat then q ++ [x] else tail q ++ [x]
  end.

(** [sorted(items, key=lambda x: x[1], reverse=True)]: a stable sort by
    decreasing value. *)
Fixpoint insert_desc (x : string * Z) (l : list (string * Z)) : list (string * Z) :=
  match l with
  | [] => [x]
  | y :: l' => if snd x <? snd y then y :: insert_desc x l' else x :: y :: l'
  end.

Definition sorted_desc (l : list (string * Z)) : list (string * Z) :=
  fold_right insert_desc [] l.

(** Outcome of a call that may raise. *)
Inductive result (E A : Type) : Type :=
| Return (a : A)
| Raise (e : E).
Arguments Return {E A} a.
Arguments Raise {E A} e.

End Py.

(** ** config.py *)

Module Config.

Definition MAX_RECENT_PACKETS : nat := 100.
Definition MAX_CACHED_DNS : nat := 1000.
Definition SNIFFER_QUEUE_SIZE : Z := 1000.
Definition BATCH_INSERT_SIZE : nat := 10.
Definition DNS_TIMEOUT : Z := 2.

Definition CATEGORY_KEYWORDS : list (string * list string) :=
  [ ("Streaming",
      ["youtube"; "youtu.be"; "netflix"; "hulu"; "spotify"; "twitch";
       "vimeo"; "dailymotion"; "soundcloud"; "tidal"; "pandora";
       "disneyplus"; "hbomax"; "primevideo"; "appletv"]);
    ("Social Media",
      ["facebook"; "fb.com"; "instagram"; "twitter"; "tiktok";
       "linkedin"; "reddit"; "snapchat"; "pinterest"; "whatsapp";
       "telegram"; "discord"; "slack"]);
    ("Development",
      ["github"; "gitlab"; "bitbucket"; "stackoverflow"; "stackexchange";
       "npmjs"; "pypi"; "docker"; "kubernetes"; "jenkins"]);
    ("Cloud Services",
      ["amazonaws"; "aws"; "azure"; "googlecloud"; "gcp";
       "cloudflare"; "digitalocean"; "heroku"; "vercel"]);
    ("Shopping",
      ["amazon"; "ebay"; "shopify"; "etsy"; "walmart";
       "alibaba"; "aliexpress"; "target"]);
    ("Communication",
      ["zoom"; "teams"; "meet.google"; "webex"; "skype";
       "gotomeeting"; "bluejeans"]);
    ("Gaming",
      ["steam"; "epicgames"; "origin"; "battle.net"; "playstation";
       "xbox"; "nintendo"; "twitch"]);
    ("News",
      ["nytimes"; "cnn"; "bbc"; "reuters"; "bloomberg";
       "theguardian"; "wsj"; "washingtonpost"]);
    ("Apple Services",
      ["apple.com"; "icloud"; "itunes"; "appstore"; "apple-dns"]) ]%string.

End Config.

(** ** The packet dictionary

    The sniffer builds a dict with seven keys and the orchestrator copies it
    and adds four more.  A field is an [option] where a reader uses
    [dict.get] (the key may be absent) or where the value may be [None]. *)

Record packet : Type := mkPacket {
  timestamp : Q;
  source_ip : option string;
  dest_ip : option string;
  protocol : option string;
  source_port : option Z;
  dest_port : option Z;
  packet_size : option Z;
  app_name : option string;
  pid : option Z;
  dest_hostname : option string;
  category : option string
}.

(** ** packet_sniffer.py *)

Module PacketSniffer.

(** What the handler reads from a scapy frame. *)
Inductive transport : Type :=
| TCP (sport dport : Z)
| UDP (sport dport : Z)
| OtherTransport.

Record frame : Type := mkFrame {
  ip_layer : option (string * string);   (* src, dst when an IP layer exists *)
  l4 : transport;
  frame_len : Z
}.

Record sniffer : Type := mkSniffer {
  has_callback : bool;
  callback_calls : list packet;          (* arguments passed to the callback *)
  maxsize : Z;
  packet_queue : list packet
}.

Section Queue.
Context {A : Type}.
Variable maxsize : Z.

(** [queue.Queue.put_nowait]: [None] is [queue.Full].  A [maxsize <= 0]
    queue is unbounded. *)
Definition put_nowait (q : list A) (x : A) : option (list A) :=
  if (0 <? maxsize) && (maxsize <=? Z.of_nat (length q)) then None
  else Some (q ++ [x]).

(** [queue.Queue.get_nowait]: [None] is [queue.Empty]. *)
Definition get_nowait (q : list A) : option (A * list A) :=
  match q with
  | [] => None
  | x :: q' => Some (x, q')
  end.

(** Lines 88-96 of [_packet_handler]: the enqueue path. *)
Definition enqueue (q : list A) (x : A) : list A :=
  match put_nowait q x with
  | Some q' => q'
  | None =>
      match get_nowait q with
      | Some (_, q1) =>
          match put_nowait q1 x with
          | Some q2 => q2
          | None => q1     (* Full again: swallowed by the outer handler *)
          end
      | None => q          (* except queue.Empty: pass *)
      end
  end.

Definition push_all (q : list A) (xs : list A) : list A :=
  fold_left enqueue xs q.
End Queue.

(** [_packet_handler]: [now] is the reading of [time.time()]. *)
Definition _packet_handler (s : sniffer) (f : frame) (now : Q) : sniffer :=
  match ip_layer f with
  | None => s
  | Some (src, dst) =>
      let build proto sport dport :=
        {| timestamp := now; source_ip := Some src; dest_ip := Some dst;
           protocol := Some proto; source_port := Some sport;
           dest_port := Some dport; packet_size := Some (frame_len f);
           app_name := None; pid := None; dest_hostname := None;
           category := None |} in
      let deliver p :=
        if has_callback s
        then {| has_callback := true;
                callback_calls := callback_calls s ++ [p];
                maxsize := maxsize s;
                packet_queue := packet_queue s |}
        else {| has_callback := false;
                callback_calls := callback_calls s;
                maxsize := maxsize s;
                packet_queue := enqueue (maxsize s) (packet_queue s) p |} in
      match l4 f with
      | TCP sport dport => deliver (build "TCP"%string sport dport)
      | UDP sport dport => deliver (build "UDP"%string sport dport)
      | OtherTransport => s
      end
  end.

(** [get_packet_nowait] *)
Definition get_packet_nowait (s : sniffer) : option packet * sniffer :=
  match get_nowait (packet_queue s) with
  | Some (p, q') =>
      (Some p, {| has_callback := has_callback s;
                  callback_calls := callback_calls s;
                  maxsize := maxsize s;
                  packet_queue := q' |})
  | None => (None, s)
  end.

End PacketSniffer.

(** ** data_aggregator.py *)

Module DataAggregator.

(** One point of the bandwidth graph. *)
Record sample : Type := mkSample {
  sample_timestamp : Q;
  rate : Q;
  upload_rate : Q;
  download_rate : Q
}.

Record aggregator : Type := mkAggregator {
  recent_packets : list packet;
  app_bandwidth : Py.counter;
  app_packet_count : Py.counter;
  category_bandwidth : Py.counter;
  bandwidth_history : list sample;
  last_rate_calc : Q;
  bytes_since_last_calc : Z;
  current_rate : Q;
  total_upload : Z;
  total_download : Z;
  total_packets : Z;
  start_time : Q;
  local_ips : gset string
}.

Inductive exn : Type := ZeroDivisionError | OverflowError.

(** [current_time - self.last_rate_calc >= 1.0] on binary64 readings: the
    difference is rounded to the nearest double, ties to even, and the
    doubles next to 1.0 from below are 1 - 2^-53 and 1.0; so the rounded
    difference is at least 1.0 exactly when the exact difference is at
    least their midpoint 1 - 2^-54 (the tie goes to 1.0, whose significand
    is even). *)
Definition rate_threshold : Q := (1 - (1 # 18014398509481984))%Q.

(** The conversion of an [int] to a [float] made by [int / float]: it raises
    [OverflowError] when the integer rounds to 2^1024 or beyond, that is
    from 2^1024 - 2^970 on in absolute value. *)
Definition float_limit : Z := 2 ^ 1024 - 2 ^ 970.

Definition fits_float (n : Z) : bool := Z.abs n <? float_limit.

(** [__init__]: the two readings of the clock are [t_rate] and [t_start]. *)
Definition init (t_rate t_start : Q) : aggregator :=
  {| recent_packets := [];
     app_bandwidth := [];
     app_packet_count := [];
     category_bandwidth := [];
     bandwidth_history := [];
     last_rate_calc := t_rate;
     bytes_since_last_calc := 0;
     current_rate := 0%Q;
     total_upload := 0;
     total_download := 0;
     total_packets := 0;
     start_time := t_start;
     local_ips := ∅ |}.

(** [_is_outgoing]: the answer and the (possibly grown) set of local IPs. *)
Definition _is_outgoing (ips : gset string) (ip : string) : bool * gset string :=
  if bool_decide (ip ∈ ips) then (true, ips)
  else if Py.startswith ip "192.168." || Py.startswith ip "10."
          || Py.startswith ip "172."
       then (true, {[ ip ]} ∪ ips)
       else (false, ips).

(** [add_packet]: [now] is the reading of [time.time()].  The state is
    returned together with the outcome because the counters are updated
    before the rate computation that may raise.  In that computation each
    [int / float] first converts the integer, then tests the divisor: the
    byte count overflows before the rate is stored, and within the dict
    literal the upload total is converted before the division by the
    uptime is attempted.  The quotients are kept exact; the code stores
    their roundings. *)
Definition add_packet (a : aggregator) (p : packet) (now : Q)
  : aggregator * Py.result exn unit :=
  let name := default "Unknown"%string (app_name p) in
  let size := default 0 (packet_size p) in
  let cat := default "Other"%string (category p) in
  let src := default ""%string (source_ip p) in
  let '(out, ips) := _is_outgoing (local_ips a) src in
  let up := if out then total_upload a + size else total_upload a in
  let down := if out then total_download a else total_download a + size in
  let bytes := bytes_since_last_calc a + size in
  let a1 :=
    {| recent_packets :=
         Py.deque_append Config.MAX_RECENT_PACKETS (recent_packets a) p;
       app_bandwidth := Py.dict_add (app_bandwidth a) name size;
       app_packet_count := Py.dict_add (app_packet_count a) name 1;
       category_bandwidth := Py.dict_add (category_bandwidth a) cat size;
       bandwidth_history := bandwidth_history a;
       last_rate_calc := last_rate_calc a;
       bytes_since_last_calc := bytes;
       current_rate := current_rate a;
       total_upload := up;
       total_download := down;
       total_packets := total_packets a + 1;
       start_time := start_time a;
       local_ips := ips |} in
  if Qle_bool rate_threshold (now - last_rate_calc a) then
    if negb (fits_float bytes) then (a1, Py.Raise OverflowError)
    else
      let time_diff := (now - last_rate_calc a)%Q in
      let r := (inject_Z bytes / time_diff)%Q in
      let with_rate hist b t :=
        {| recent_packets := recent_packets a1;
           app_bandwidth := app_bandwidth a1;
           app_packet_count := app_packet_count a1;
           category_bandwidth := category_bandwidth a1;
           bandwidth_history := hist;
           last_rate_calc := t;
           bytes_since_last_calc := b;
           current_rate := r;
           total_upload := up;
           total_download := down;
           total_packets := total_packets a1;
           start_time := start_time a1;
           local_ips := ips |} in
      let unsampled := with_rate (bandwidth_history a) bytes (last_rate_calc a) in
      if negb (fits_float up) then (unsampled, Py.Raise OverflowError)
      else if Qeq_bool (now - start_time a) 0 then
        (unsampled, Py.Raise ZeroDivisionError)
      else if negb (fits_float down) then (unsampled, Py.Raise OverflowError)
      else
        let s := {| sample_timestamp := now;
                    rate := r;
                    upload_rate := (inject_Z up / (now - start_time a))%Q;
                    download_rate :=
                      (inject_Z down / (now - start_time a))%Q |} in
        (with_rate (Py.deque_append 100 (bandwidth_history a) s) 0 now,
         Py.Return tt)
  else (a1, Py.Return tt).

(** A run of [add_packet] calls, each with its clock reading; a raised
    exception is the caller's to handle and leaves the state as it is. *)
Definition add_packets (a : aggregator) (ps : list (packet * Q)) : aggregator :=
  fold_left (fun a pt => fst (add_packet a (fst pt) (snd pt))) ps a.

(** [get_recent_packets] *)
Definition get_recent_packets (a : aggregator) (limit : Z) : list packet :=
  let packets := recent_packets a in
  if limit <? Z.of_nat (length packets) then Py.slice_from (- limit) packets
  else packets.

(** [get_top_apps] *)
Definition get_top_apps (a : aggregator) (limit : Z) : list (string * Z) :=
  Py.slice_to limit (Py.sorted_desc (app_bandwidth a)).

(** [get_bandwidth_by_category] *)
Definition get_bandwidth_by_category (a : aggregator) : list (string * Z) :=
  Py.sorted_desc (category_bandwidth a).

(** [get_bandwidth_history] *)
Definition get_bandwidth_history (a : aggregator) : list sample :=
  bandwidth_history a.

Record stats : Type := mkStats {
  stats_total_packets : Z;
  stats_total_bandwidth : Z;
  stats_total_upload : Z;
  stats_total_download : Z;
  stats_current_rate : Q;
  stats_active_apps : Z;
  stats_uptime : Q;
  stats_packets_per_second : Q
}.

(** [get_current_stats]: [now] is the reading of [time.time()]. *)
Definition get_current_stats (a : aggregator) (now : Q) : stats :=
  let uptime := (now - start_time a)%Q in
  {| stats_total_packets := total_packets a;
     stats_total_bandwidth := total_upload a + total_download a;
     stats_total_upload := total_upload a;
     stats_total_download := total_download a;
     stats_current_rate := current_rate a;
     stats_active_apps := Z.of_nat (length (app_bandwidth a));
     stats_uptime := uptime;
     stats_packets_per_second :=
       if Qlt_le_dec 0 uptime then (inject_Z (total_packets a) / uptime)%Q
       else 0%Q |}.

(** [get_app_details] *)
Definition get_app_details (a : aggregator) (name : string) : string * Z * Z :=
  (name, Py.dict_get (app_bandwidth a) name, Py.dict_get (app_packet_count a) name).

(** [reset_stats]: [now] is the reading of [time.time()]. *)
Definition reset_stats (a : aggregator) (now : Q) : aggregator :=
  {| recent_packets := [];
     app_bandwidth := [];
     app_packet_count := [];
     category_bandwidth := [];
     bandwidth_history := [];
     last_rate_calc := last_rate_calc a;
     bytes_since_last_calc := 0;
     current_rate := 0%Q;
     total_upload := 0;
     total_download := 0;
     total_packets := 0;
     start_time := now;
     local_ips := local_ips a |}.

End DataAggregator.

(** ** dns_resolver.py *)

Module DNSResolver.

(** What [socket.gethostbyaddr] may raise. *)
Inductive exn : Type :=
| herror
| gaierror
| timeout_error
| other_exception (name : string).

(** The answer of the operating system to one reverse lookup. *)
Definition lookup := Py.result exn string.

(** The table kept by [functools.lru_cache], least recently used first. *)
Definition lru := list (string * option string).

Record resolver : Type := mkResolver {
  category_keywords : list (string * list string);
  timeout : Z;
  lru_maxsize : nat;
  cache : lru;
  hits : nat;
  misses : nat
}.

(** [__init__], with the cache of the decorated method empty. *)
Definition init : resolver :=
  {| category_keywords := Config.CATEGORY_KEYWORDS;
     timeout := Config.DNS_TIMEOUT;
     lru_maxsize := Config.MAX_CACHED_DNS;
     cache := [];
     hits := 0;
     misses := 0 |}.

(** The body of [resolve_ip], under the decorator. *)
Definition resolve_ip_body (answer : lookup) : Py.result exn (option string) :=
  match answer with
  | Py.Return hostname => Py.Return (Some hostname)
  | Py.Raise herror | Py.Raise gaierror | Py.Raise timeout_error =>
      Py.Return None
  | Py.Raise (other_exception _) => Py.Return None
  end.

Fixpoint lru_find (c : lru) (ip : string) : option (option string) :=
  match c with
  | [] => None
  | (k, v) :: c' => if String.eqb k ip then Some v else lru_find c' ip
  end.

Fixpoint lru_remove (c : lru) (ip : string) : lru :=
  match c with
  | [] => []
  | (k, v) :: c' => if String.eqb k ip then c' else (k, v) :: lru_remove c' ip
  end.

(** [resolve_ip] with its [lru_cache] wrapper: a hit returns the stored
    result and makes the entry the most recent; a miss runs the body, and a
    returned result is stored, evicting the least recent entry of a full
    table.  With [maxsize = 0] nothing is stored. *)
Definition resolve_ip (r : resolver) (ip : string) (answer : lookup)
  : resolver * Py.result exn (option string) :=
  let upd c h m :=
    {| category_keywords := category_keywords r;
       timeout := timeout r;
       lru_maxsize := lru_maxsize r;
       cache := c; hits := h; misses := m |} in
  match lru_maxsize r with
  | O =>
      match resolve_ip_body answer with
      | Py.Return v => (upd (cache r) (hits r) (S (misses r)), Py.Return v)
      | Py.Raise e => (r, Py.Raise e)
      end
  | S _ =>
      match lru_find (cache r) ip with
      | Some v =>
          (upd (lru_remove (cache r) ip ++ [(ip, v)]) (S (hits r)) (misses r),
           Py.Return v)
      | None =>
          match resolve_ip_body answer with
          | Py.Return v =>
              let c := if (length (cache r) <? lru_maxsize r)%nat
                       then cache r else tail (cache r) in
              (upd (c ++ [(ip, v)]) (hits r) (S (misses r)), Py.Return v)
          | Py.Raise e => (r, Py.Raise e)
          end
      end
  end.

(** The inner loop of [categorize_domain]: some keyword occurs in the
    lowered host name. *)
Fixpoint any_keyword (hostname_lower : string) (keywords : list string) : bool :=
  match keywords with
  | [] => false
  | keyword :: rest =>
      if Py.contains hostname_lower keyword then true
      else any_keyword hostname_lower rest
  end.

(** The outer loop: the first category, in table order, with a match. *)
Fixpoint first_category (table : list (string * list string))
    (hostname_lower : string) : option string :=
  match table with
  | [] => None
  | (category, keywords) :: rest =>
      if any_keyword hostname_lower keywords then Some category
      else first_category rest hostname_lower
  end.

(** [categorize_domain] *)
Definition categorize_domain (r : resolver) (hostname : option string) : string :=
  if negb (Py.truthy_str hostname) then "Other"%string
  else
    let hostname_lower := Py.lower (default ""%string hostname) in
    default "Other"%string (first_category (category_keywords r) hostname_lower).

(** [resolve_and_categorize] *)
Definition resolve_and_categorize (r : resolver) (ip : string) (answer : lookup)
  : resolver * Py.result exn (option string * string) :=
  match resolve_ip r ip answer with
  | (r', Py.Return hostname) =>
      (r', Py.Return (hostname, categorize_domain r' hostname))
  | (r', Py.Raise e) => (r', Py.Raise e)
  end.

Definition local_prefixes : list string :=
  [ "127."; "10."; "192.168."; "172.16."; "172.17."; "172.18."; "172.19.";
    "172.20."; "172.21."; "172.22."; "172.23."; "172.24."; "172.25.";
    "172.26."; "172.27."; "172.28."; "172.29."; "172.30."; "172.31.";
    "169.254."; "fe80::"; "::1" ]%string.

(** [is_local_ip] *)
Definition is_local_ip (ip_address : string) : bool :=
  existsb (Py.startswith ip_address) local_prefixes.

End DNSResolver.

(** ** process_mapper.py *)

Module ProcessMapper.

(** *** Text handling used to read the output of [lsof] *)

(** [str.isspace] on one ASCII character. *)
Definition is_space (c : ascii) : bool :=
  let n := nat_of_ascii c in
  ((9 <=? n)%nat && (n <=? 13)%nat) || ((28 <=? n)%nat && (n <=? 32)%nat).

Fixpoint lstrip (s : string) : string :=
  match s with
  | String c s' => if is_space c then lstrip s' else s
  | EmptyString => EmptyString
  end.

Fixpoint rstrip (s : string) : string :=
  match s with
  | EmptyString => EmptyString
  | String c s' =>
      match rstrip s' with
      | EmptyString => if is_space c then EmptyString else String c EmptyString
      | t => String c t
      end
  end.

(** [s.strip()] *)
Definition strip (s : string) : string := rstrip (lstrip s).

(** [s.split('\n')]: never empty; [cur] is the line being read, closed at
    each newline. *)
Fixpoint split_lines_from (cur : string) (s : string) : list string :=
  match s with
  | EmptyString => [cur]
  | String c s' =>
      if Ascii.eqb c "010"%char then cur :: split_lines_from EmptyString s'
      else split_lines_from (cur +:+ String c EmptyString) s'
  end.

Definition split_lines (s : string) : list string :=
  split_lines_from EmptyString s.

(** [line[1:]] *)
Definition drop_first (s : string) : string :=
  match s with
  | EmptyString => EmptyString
  | String _ s' => s'
  end.

Definition digit_value (c : ascii) : option Z :=
  let n := nat_of_ascii c in
  if (48 <=? n)%nat && (n <=? 57)%nat then Some (Z.of_nat (n - 48)) else None.

(** Decimal digits, with single underscores allowed between digits. *)
Fixpoint parse_digits (s : string) (acc : Z) (after_digit : bool) : option Z :=
  match s with
  | EmptyString => if after_digit then Some acc else None
  | String c s' =>
      match digit_value c with
      | Some d => parse_digits s' (10 * acc + d) true
      | None =>
          if Ascii.eqb c "_"%char && after_digit then parse_digits s' acc false
          else None
      end
  end.

(** [int(s)] in base ten: [None] is [ValueError]. *)
Definition int_of_string (s : string) : option Z :=
  match strip s with
  | String "-"%char t => option_map Z.opp (parse_digits t 0 false)
  | String "+"%char t => parse_digits t 0 false
  | t => parse_digits t 0 false
  end.

(** *** The connection table *)

(** One entry of [psutil.net_connections]: local and remote address (absent
    when the tuple is empty) and owning pid. *)
Record conn : Type := mkConn {
  laddr : option (string * Z);
  raddr : option (string * Z);
  conn_pid : option Z
}.

(** [psutil.Process(pid).name()] *)
Inductive process_lookup : Type :=
| ProcessName (name : string)
| NoSuchProcess
| AccessDenied
| ProcessError.        (* any other exception *)

(** What the operating system answers during one refresh: the connection
    table ([None] when [psutil.net_connections] raises) and the process
    names. *)
Record os_view : Type := mkOsView {
  net_connections : option (list conn);
  process_name_of : Z -> process_lookup
}.

Definition key : Type := Z * string * Z.
Definition connection_table : Type := list (key * (Z * string)).

Definition key_eqb (a b : key) : bool :=
  let '(lp, rip, rp) := a in
  let '(lp', rip', rp') := b in
  (lp =? lp') && String.eqb rip rip' && (rp =? rp').

(** [connections[key] = value] *)
Fixpoint table_set (t : connection_table) (k : key) (v : Z * string)
  : connection_table :=
  match t with
  | [] => [(k, v)]
  | (k', v') :: t' =>
      if key_eqb k' k then (k', v) :: t' else (k', v') :: table_set t' k v
  end.

(** [connections[key]] guarded by [key in connections] *)
Fixpoint table_get (t : connection_table) (k : key) : option (Z * string) :=
  match t with
  | [] => None
  | (k', v) :: t' => if key_eqb k' k then Some v else table_get t' k
  end.

(** The loop of [_refresh_connections]; an exception other than
    [NoSuchProcess] and [AccessDenied] leaves the loop with what was
    collected so far. *)
Fixpoint refresh_loop (name_of : Z -> process_lookup) (conns : list conn)
    (connections : connection_table) : connection_table :=
  match conns with
  | [] => connections
  | c :: rest =>
      match raddr c with
      | None => refresh_loop name_of rest connections
      | Some (remote_ip, remote_port) =>
          let local_port := option_map snd (laddr c) in
          if Py.truthy_int local_port && Py.truthy_str (Some remote_ip)
             && Py.truthy_int (conn_pid c)
          then
            let p := default 0 (conn_pid c) in
            match name_of p with
            | ProcessName process_name =>
                refresh_loop name_of rest
                  (table_set connections
                     (default 0 local_port, remote_ip, remote_port)
                     (p, process_name))
            | NoSuchProcess | AccessDenied =>
                refresh_loop name_of rest connections
            | ProcessError => connections
            end
          else refresh_loop name_of rest connections
      end
  end.

(** [_refresh_connections] *)
Definition _refresh_connections (os : os_view) : connection_table :=
  match net_connections os with
  | None => []
  | Some conns => refresh_loop (process_name_of os) conns []
  end.

(** *** The [lsof] fallback *)

(** Outcome of [subprocess.run(cmd, capture_output=True, text=True,
    timeout=2)]. *)
Inductive run_outcome : Type :=
| Completed (returncode : Z) (stdout : string)
| TimeoutExpired
| SubprocessError
| OSError (name : string).   (* the program could not be started *)

Inductive exn : Type :=
| ValueError
| RunTimeoutExpired
| RunSubprocessError
| RunOSError (name : string).

(** The [for line in lines] loop: the pid and the command name read so far. *)
Fixpoint parse_lsof (lines : list string) (pid : option Z)
  : Py.result exn (option Z * option string) :=
  match lines with
  | [] => Py.Return (pid, None)
  | line :: rest =>
      if Py.startswith line "p" then
        match int_of_string (drop_first line) with
        | Some n => parse_lsof rest (Some n)
        | None => Py.Raise ValueError
        end
      else if Py.startswith line "c" then Py.Return (pid, Some (drop_first line))
      else parse_lsof rest pid
  end.

(** The [try] block of [_find_process_with_lsof]; [None] means the block
    fell through to the final [return None, None]. *)
Definition lsof_try (run : run_outcome)
  : Py.result exn (option (Z * string)) :=
  match run with
  | Completed returncode stdout =>
      if (returncode =? 0) && Py.truthy_str (Some stdout) then
        match parse_lsof (split_lines (strip stdout)) None with
        | Py.Return (pid, process_name) =>
            if Py.truthy_int pid && Py.truthy_str process_name
            then Py.Return (Some (default 0 pid, default ""%string process_name))
            else Py.Return None
        | Py.Raise e => Py.Raise e
        end
      else Py.Return None
  | TimeoutExpired => Py.Raise RunTimeoutExpired
  | SubprocessError => Py.Raise RunSubprocessError
  | OSError name => Py.Raise (RunOSError name)
  end.

(** [_find_process_with_lsof]: the [except] clause names [TimeoutExpired],
    [SubprocessError] and [ValueError]. *)
Definition _find_process_with_lsof (run : run_outcome)
  : Py.result exn (option Z * option string) :=
  match lsof_try run with
  | Py.Return (Some (pid, process_name)) =>
      Py.Return (Some pid, Some process_name)
  | Py.Return None => Py.Return (None, None)
  | Py.Raise ValueError | Py.Raise RunTimeoutExpired
  | Py.Raise RunSubprocessError => Py.Return (None, None)
  | Py.Raise (RunOSError name) => Py.Raise (RunOSError name)
  end.

(** *** The resolver *)

Record mapper : Type := mkMapper {
  connection_cache : connection_table;
  _refresh_counter : Z;
  _refresh_interval : Z
}.

Definition init : mapper :=
  {| connection_cache := []; _refresh_counter := 0; _refresh_interval := 10 |}.

(** The fallback scan: the first entry, in table order, with this local
    port. *)
Fixpoint scan_local_port (t : connection_table) (local_port : Z)
  : option (Z * string) :=
  match t with
  | [] => None
  | ((l_port, _, _), v) :: t' =>
      if l_port =? local_port then Some v else scan_local_port t' local_port
  end.

Definition is_empty {A} (l : list A) : bool :=
  match l with [] => true | _ => false end.

(** The cache and counter after the two refresh steps of
    [find_process_by_port]; [os1] answers the periodic refresh and [os2] the
    refresh of an empty cache. *)
Definition refreshed (m : mapper) (os1 os2 : os_view) : mapper :=
  let counter := _refresh_counter m + 1 in
  let m1 :=
    if _refresh_interval m <=? counter
    then {| connection_cache := _refresh_connections os1;
            _refresh_counter := 0;
            _refresh_interval := _refresh_interval m |}
    else {| connection_cache := connection_cache m;
            _refresh_counter := counter;
            _refresh_interval := _refresh_interval m |} in
  if is_empty (connection_cache m1)
  then {| connection_cache := _refresh_connections os2;
          _refresh_counter := _refresh_counter m1;
          _refresh_interval := _refresh_interval m1 |}
  else m1.

(** [find_process_by_port]; [run] is the outcome of the [lsof] call, made
    only when both cache lookups fail. *)
Definition find_process_by_port (m : mapper) (os1 os2 : os_view)
    (run : run_outcome)
    (local_port : Z) (remote_ip : option string) (remote_port : option Z)
  : mapper * Py.result exn (option Z * option string) :=
  let m' := refreshed m os1 os2 in
  let found v := Py.Return (Some (fst v), Some (snd v)) in
  let by_port :=
    match scan_local_port (connection_cache m') local_port with
    | Some v => found v
    | None => _find_process_with_lsof run
    end in
  (m',
   if Py.truthy_str remote_ip && Py.truthy_int remote_port then
     match table_get (connection_cache m')
             (local_port, default ""%string remote_ip, default 0 remote_port) with
     | Some v => found v
     | None => by_port
     end
   else by_port).

End ProcessMapper.

(** ** database.py *)

Module NetworkDatabase.

(** One row of the [connections] table.  The columns declared [NOT NULL]
    are not optional. *)
Record row : Type := mkRow {
  row_id : Z;
  row_timestamp : Q;
  row_app_name : option string;
  row_pid : option Z;
  row_source_ip : string;
  row_dest_ip : string;
  row_dest_hostname : option string;
  row_category : option string;
  row_protocol : string;
  row_source_port : option Z;
  row_dest_port : option Z;
  row_packet_size : Z
}.

(** The table in insertion order and the next [AUTOINCREMENT] id. *)
Record database : Type := mkDatabase {
  connections : list row;
  next_id : Z
}.

Definition empty : database := {| connections := []; next_id := 1 |}.

Inductive exn : Type :=
| IntegrityError       (* a NOT NULL column received None *)
| OperationalError.    (* the file is locked, the disk is full, ... *)

(** The tuple built from one dict, and its insertion under id [i]; [None]
    when a [NOT NULL] column would receive [None].  The orchestrator always
    sets ['dest_hostname'], to a name or to [None]: the default [''] of an
    absent key does not arise for the records it stores.  Nor do integers
    beyond SQLite's 64-bit [INTEGER], which [sqlite3] refuses with an
    [OverflowError]: sizes, ports and pids are those of captured frames and
    of running processes. *)
Definition to_row (i : Z) (data : packet) : option row :=
  match source_ip data, dest_ip data, protocol data with
  | Some src, Some dst, Some proto =>
      Some {| row_id := i;
              row_timestamp := timestamp data;
              row_app_name := Some (default "Unknown"%string (app_name data));
              row_pid := pid data;
              row_source_ip := src;
              row_dest_ip := dst;
              row_dest_hostname := dest_hostname data;
              row_category := Some (default "Other"%string (category data));
              row_protocol := proto;
              row_source_port := source_port data;
              row_dest_port := dest_port data;
              row_packet_size := default 0 (packet_size data) |}
  | _, _, _ => None
  end.

Fixpoint to_rows (i : Z) (data_list : list packet) : option (list row) :=
  match data_list with
  | [] => Some []
  | data :: rest =>
      match to_row i data, to_rows (i + 1) rest with
      | Some r, Some rs => Some (r :: rs)
      | _, _ => None
      end
  end.

(** [insert_batch]: one transaction; [io_ok] tells whether SQLite could
    write.  A failure raises and leaves the table as it was. *)
Definition insert_batch (db : database) (data_list : list packet) (io_ok : bool)
  : Py.result exn database :=
  match data_list with
  | [] => Py.Return db
  | _ =>
      if io_ok then
        match to_rows (next_id db) data_list with
        | Some rs =>
            Py.Return {| connections := connections db ++ rs;
                         next_id := next_id db + Z.of_nat (length rs) |}
        | None => Py.Raise IntegrityError
        end
      else Py.Raise OperationalError
  end.

(** [WHERE app_name IS NOT NULL AND app_name != 'Unknown'], keeping the two
    selected columns. *)
Fixpoint known_apps (rows : list row) : list (string * Z) :=
  match rows with
  | [] => []
  | r :: rest =>
      match row_app_name r with
      | Some name =>
          if String.eqb name "Unknown" then known_apps rest
          else (name, row_packet_size r) :: known_apps rest
      | None => known_apps rest
      end
  end.

(** [GROUP BY name] with [SUM(packet_size)]: one pair per name. *)
Definition group_sum (cols : list (string * Z)) : Py.counter :=
  fold_left (fun acc kv => Py.dict_add acc (fst kv) (snd kv)) cols [].

(** [LIMIT n]: a negative [n] is no limit. *)
Definition sql_limit {A} (n : Z) (l : list A) : list A :=
  if n <? 0 then l else take (Z.to_nat n) l.

(** [get_top_apps_by_bandwidth].  SQL leaves the order of equal totals
    open; here they keep the order of first insertion. *)
Definition get_top_apps_by_bandwidth (db : database) (limit : Z)
  : list (string * Z) :=
  sql_limit limit (Py.sorted_desc (group_sum (known_apps (connections db)))).

(** [get_connection_count] *)
Definition get_connection_count (db : database) : Z :=
  Z.of_nat (length (connections db)).

(** [get_total_bandwidth] *)
Definition get_total_bandwidth (db : database) : Z :=
  fold_right (fun r acc => row_packet_size r + acc) 0 (connections db).

End NetworkDatabase.

(** ** monitor.py *)

Module NetworkMonitor.

Record monitor : Type := mkMonitor {
  is_running : bool;
  aggregator : DataAggregator.aggregator;
  db : NetworkDatabase.database;
  batch_buffer : list packet
}.

(** What one pass of the worker's loop meets: an empty queue after the
    one second wait, or a packet, with the outcome of [_enrich_packet]
    ([None] when it raised), the clock reading used by the aggregator, and
    whether SQLite can write should the batch be flushed in this pass. *)
Inductive loop_event : Type :=
| QueueEmpty
| Packet (enriched_data : option packet) (now : Q) (io_ok : bool).

Definition with_buffer (m : monitor) (a : DataAggregator.aggregator)
    (d : NetworkDatabase.database) (b : list packet) : monitor :=
  {| is_running := is_running m; aggregator := a; db := d; batch_buffer := b |}.

(** The body of the [while self.is_running] loop.  An exception raised
    anywhere in the body is caught at the bottom of the loop. *)
Definition loop_body (m : monitor) (ev : loop_event) : monitor :=
  match ev with
  | QueueEmpty => m
  | Packet None _ _ => m
  | Packet (Some enriched_data) now io_ok =>
      match DataAggregator.add_packet (aggregator m) enriched_data now with
      | (a, Py.Raise _) => with_buffer m a (db m) (batch_buffer m)
      | (a, Py.Return _) =>
          let buffer := batch_buffer m ++ [enriched_data] in
          if (Config.BATCH_INSERT_SIZE <=? length buffer)%nat then
            match NetworkDatabase.insert_batch (db m) buffer io_ok with
            | Py.Return d => with_buffer m a d []
            | Py.Raise _ => with_buffer m a (db m) buffer
            end
          else with_buffer m a (db m) buffer
      end
  end.

(** The flush after the loop; a failed write ends the thread with the
    buffer as it was. *)
Definition flush (m : monitor) (io_ok : bool) : monitor :=
  match batch_buffer m with
  | [] => m
  | _ =>
      match NetworkDatabase.insert_batch (db m) (batch_buffer m) io_ok with
      | Py.Return d => with_buffer m (aggregator m) d []
      | Py.Raise _ => m
      end
  end.

(** [packet_processor_worker]: the passes made while the flag was seen
    set, then the flush. *)
Definition packet_processor_worker (m : monitor) (events : list loop_event)
    (io_ok : bool) : monitor :=
  flush (fold_left loop_body events m) io_ok.

(** How [processor_thread.join(timeout=5)] ends: the worker finished its
    pass in flight (if any), left the loop and flushed; or five seconds
    went by with the worker still inside a pass. *)
Inductive join_outcome : Type :=
| Joined (in_flight : list loop_event) (io_ok : bool)
| JoinTimedOut.

(** [stop] *)
Definition stop (m : monitor) (j : join_outcome) : monitor :=
  if negb (is_running m) then m
  else
    let m1 := {| is_running := false; aggregator := aggregator m;
                 db := db m; batch_buffer := batch_buffer m |} in
    match j with
    | Joined in_flight io_ok => packet_processor_worker m1 in_flight io_ok
    | JoinTimedOut => m1
    end.

End NetworkMonitor.

(** ** process_mapper.py: application names *)

Module AppNames.
Import ProcessMapper.

Definition name_mappings : list (string * string) :=
  [ ("Google Chrome", "Chrome"); ("Google Chrome Helper", "Chrome");
    ("Safari", "Safari"); ("Safari Networking", "Safari");
    ("firefox", "Firefox");
    ("Spotify", "Spotify"); ("Spotify Helper", "Spotify");
    ("Code", "VS Code"); ("Code Helper", "VS Code");
    ("Python", "Python"); ("python3", "Python");
    ("node", "Node.js");
    ("Slack", "Slack"); ("Slack Helper", "Slack");
    ("Discord", "Discord"); ("Discord Helper", "Discord");
    ("Zoom", "Zoom"); ("zoom.us", "Zoom");
    ("Microsoft Teams", "Teams");
    ("Dropbox", "Dropbox");
    ("OneDrive", "OneDrive") ]%string.

(** [name_mappings[process_name]] guarded by [process_name in name_mappings] *)
Fixpoint mapping_get (t : list (string * string)) (k : string) : option string :=
  match t with
  | [] => None
  | (key, value) :: rest =>
      if String.eqb key k then Some value else mapping_get rest k
  end.

(** The loop over [name_mappings.items()]: the value of the first key whose
    lowercase occurs in the lowered process name. *)
Fixpoint partial_match (t : list (string * string)) (lowered : string)
  : option string :=
  match t with
  | [] => None
  | (key, value) :: rest =>
      if Py.contains lowered (Py.lower key) then Some value
      else partial_match rest lowered
  end.

(** The alternation [(Helper|Renderer|GPU|Network)] *)
Definition helper_words : list string :=
  [ "Helper"; "Renderer"; "GPU"; "Network" ]%string.

(** Length of the first alternative that starts [s]. *)
Fixpoint first_word (words : list string) (s : string) : option nat :=
  match words with
  | [] => None
  | w :: rest =>
      if String.prefix w s then Some (String.length w) else first_word rest s
  end.

(** Number of leading whitespace characters. *)
Fixpoint count_space (s : string) : nat :=
  match s with
  | String c s' => if is_space c then S (count_space s') else O
  | EmptyString => O
  end.

(** Length of the match of [\s+(Helper|Renderer|GPU|Network)] at the start
    of [s].  The whitespace run is taken whole: after a shorter run the next
    character is whitespace and starts none of the four words. *)
Definition match_len (s : string) : option nat :=
  match count_space s with
  | O => None
  | n => option_map (Nat.add n) (first_word helper_words (lstrip s))
  end.

(** [re.sub(pattern, '', s)]: matches are found from left to right and
    removed; [skip] counts the characters of the current match still to be
    dropped. *)
Fixpoint re_sub (s : string) (skip : nat) : string :=
  match s with
  | EmptyString => EmptyString
  | String c s' =>
      match skip with
      | S k => re_sub s' k
      | O =>
          match match_len s with
          | Some (S n) => re_sub s' n
          | _ => String c (re_sub s' 0)
          end
      end
  end.

(** [get_app_name_from_process_name] *)
Definition get_app_name_from_process_name (process_name : option string)
  : string :=
  if negb (Py.truthy_str process_name) then "Unknown"%string
  else
    let name := default ""%string process_name in
    match mapping_get name_mappings name with
    | Some value => value
    | None =>
        match partial_match name_mappings (Py.lower name) with
        | Some value => value
        | None =>
            match strip (re_sub name 0) with
            | EmptyString => name
            | cleaned => cleaned
            end
        end
    end.

End AppNames.

(** ** dns_resolver.py: cache statistics *)

Module ResolverCache.
Import DNSResolver.

(** [get_cache_info]: hits, misses, size, maxsize *)
Definition get_cache_info (r : resolver) : nat * nat * nat * nat :=
  (hits r, misses r, length (cache r), lru_maxsize r).

End ResolverCache.

(** ** database.py: the other statements *)

Module StoreQueries.
Import NetworkDatabase.

(** [insert_connection]: one row, one transaction. *)
Definition insert_connection (d : database) (data : packet) (io_ok : bool)
  : Py.result exn database :=
  if io_ok then
    match to_row (next_id d) data with
    | Some r =>
        Py.Return {| connections := connections d ++ [r];
                     next_id := next_id d + 1 |}
    | None => Py.Raise IntegrityError
    end
  else Py.Raise OperationalError.

(** [ORDER BY timestamp DESC]; rows of equal timestamp keep their order of
    insertion, which SQL leaves open. *)
Fixpoint insert_by_time (r : row) (l : list row) : list row :=
  match l with
  | [] => [r]
  | y :: l' =>
      if Qle_bool (row_timestamp y) (row_timestamp r) then r :: y :: l'
      else y :: insert_by_time r l'
  end.

Definition newest_first (l : list row) : list row :=
  fold_right insert_by_time [] l.

(** [get_recent_connections] *)
Definition get_recent_connections (d : database) (limit : Z) : list row :=
  sql_limit limit (newest_first (connections d)).

(** [timestamp BETWEEN start AND end] *)
Definition in_range (start_time end_time : Q) (r : row) : bool :=
  Qle_bool start_time (row_timestamp r) && Qle_bool (row_timestamp r) end_time.

(** [get_connections_by_timerange] *)
Definition get_connections_by_timerange (d : database) (start_time end_time : Q)
  : list row :=
  newest_first (List.filter (in_range start_time end_time) (connections d)).

Definition opt_eqb (a b : option string) : bool :=
  match a, b with
  | Some x, Some y => String.eqb x y
  | None, None => true
  | _, _ => false
  end.

(** [GROUP BY category]: the rows without category form one group. *)
Fixpoint group_add (g : list (option string * Z)) (k : option string) (v : Z)
  : list (option string * Z) :=
  match g with
  | [] => [(k, v)]
  | (k', x) :: g' =>
      if opt_eqb k' k then (k', x + v) :: g' else (k', x) :: group_add g' k v
  end.

Fixpoint insert_total (x : option string * Z) (l : list (option string * Z))
  : list (option string * Z) :=
  match l with
  | [] => [x]
  | y :: l' => if snd x <? snd y then y :: insert_total x l' else x :: y :: l'
  end.

(** [get_bandwidth_by_category] *)
Definition get_bandwidth_by_category (d : database) : list (option string * Z) :=
  fold_right insert_total []
    (fold_left (fun g r => group_add g (row_category r) (row_packet_size r))
       (connections d) []).

(** [timestamp < cutoff] *)
Definition older_than (cutoff : Q) (r : row) : bool :=
  negb (Qle_bool cutoff (row_timestamp r)).

(** [cleanup_old_data]: [now] is the reading of [datetime.now()]; the
    table after the deletion and the count of deleted rows. *)
Definition cleanup_old_data (d : database) (days : Z) (now : Q)
  : database * Z :=
  let cutoff_time := (now - inject_Z (days * 24 * 60 * 60))%Q in
  ({| connections :=
        List.filter (fun r => negb (older_than cutoff_time r)) (connections d);
      next_id := next_id d |},
   Z.of_nat (length (List.filter (older_than cutoff_time) (connections d)))).

End StoreQueries.

(** ** monitor.py: enrichment and one pass of the worker *)

Module Enrichment.

Inductive exn : Type :=
| MapperError (e : ProcessMapper.exn)
| ResolverError (e : DNSResolver.exn).

(** The two collaborators whose caches [_enrich_packet] updates. *)
Record components : Type := mkComponents {
  mapper : ProcessMapper.mapper;
  resolver : DNSResolver.resolver
}.

(** What the operating system answers while one packet is enriched. *)
Record world : Type := mkWorld {
  os1 : ProcessMapper.os_view;
  os2 : ProcessMapper.os_view;
  run : ProcessMapper.run_outcome;
  answer : DNSResolver.lookup
}.

Definition set_process (p : packet) (name : option string) (i : option Z)
  : packet :=
  {| timestamp := timestamp p; source_ip := source_ip p; dest_ip := dest_ip p;
     protocol := protocol p; source_port := source_port p;
     dest_port := dest_port p; packet_size := packet_size p;
     app_name := name; pid := i;
     dest_hostname := dest_hostname p; category := category p |}.

Definition set_destination (p : packet) (hostname : option string)
    (cat : string) : packet :=
  {| timestamp := timestamp p; source_ip := source_ip p; dest_ip := dest_ip p;
     protocol := protocol p; source_port := source_port p;
     dest_port := dest_port p; packet_size := packet_size p;
     app_name := app_name p; pid := pid p;
     dest_hostname := hostname; category := Some cat |}.

(** The second half of [_enrich_packet]: the destination. *)
Definition enrich_destination (r : DNSResolver.resolver) (enriched : packet)
    (look : DNSResolver.lookup)
  : DNSResolver.resolver * Py.result exn packet :=
  if Py.truthy_str (dest_ip enriched)
     && negb (DNSResolver.is_local_ip (default ""%string (dest_ip enriched)))
  then
    match DNSResolver.resolve_and_categorize r
            (default ""%string (dest_ip enriched)) look with
    | (r', Py.Return (hostname, cat)) =>
        (r', Py.Return (set_destination enriched hostname cat))
    | (r', Py.Raise e) => (r', Py.Raise (ResolverError e))
    end
  else
    (r, Py.Return (set_destination enriched (Some "Local Network"%string)
                     "Local"%string)).

(** [_enrich_packet] *)
Definition _enrich_packet (c : components) (packet_data : packet) (w : world)
  : components * Py.result exn packet :=
  let local_port := source_port packet_data in
  let destination m enriched :=
    let '(r', res) := enrich_destination (resolver c) enriched (answer w) in
    ({| mapper := m; resolver := r' |}, res) in
  if Py.truthy_int local_port then
    match ProcessMapper.find_process_by_port (mapper c) (os1 w) (os2 w) (run w)
            (default 0 local_port) (dest_ip packet_data)
            (dest_port packet_data) with
    | (m', Py.Raise e) =>
        ({| mapper := m'; resolver := resolver c |}, Py.Raise (MapperError e))
    | (m', Py.Return (process_pid, process_name)) =>
        if Py.truthy_str process_name then
          destination m'
            (set_process packet_data
               (Some (AppNames.get_app_name_from_process_name process_name))
               process_pid)
        else
          destination m'
            (set_process packet_data (Some "Unknown"%string) None)
    end
  else destination (mapper c) packet_data.

(** One pass of the worker's loop on what [get_packet] returned: the event
    met by the loop body is the outcome of the enrichment. *)
Definition worker_pass (st : NetworkMonitor.monitor * components)
    (packet_data : option packet) (w : world) (now : Q) (io_ok : bool)
  : NetworkMonitor.monitor * components :=
  match packet_data with
  | None => (NetworkMonitor.loop_body (fst st) NetworkMonitor.QueueEmpty, snd st)
  | Some p =>
      match _enrich_packet (snd st) p w with
      | (c', Py.Return enriched_data) =>
          (NetworkMonitor.loop_body (fst st)
             (NetworkMonitor.Packet (Some enriched_data) now io_ok), c')
      | (c', Py.Raise _) =>
          (NetworkMonitor.loop_body (fst st)
             (NetworkMonitor.Packet None now io_ok), c')
      end
  end.

End Enrichment.

(** * Properties *)

(** ** Facts about the Python primitives *)

Module PyFacts.

Lemma lastn_length {A} (n : nat) (l : list A) :
  length (Py.lastn n l) = Nat.min n (length l).
Proof. unfold Py.lastn. rewrite length_drop. lia. Qed.

Lemma lastn_all {A} (n : nat) (l : list A) :
  (length l <= n)%nat -> Py.lastn n l = l.
Proof.
  intros H. unfold Py.lastn.
  replace (length l - n)%nat with 0%nat by lia. reflexivity.
Qed.

Lemma lastn_app_lastn {A} (n : nat) (l xs : list A) :
  Py.lastn n (Py.lastn n l ++ xs) = Py.lastn n (l ++ xs).
Proof.
  destruct (Nat.le_gt_cases (length l) n) as [Hle | Hgt].
  - rewrite (lastn_all n l Hle). reflexivity.
  - unfold Py.lastn.
    rewrite !length_app, length_drop, !drop_app, length_drop, drop_drop.
    f_equal; f_equal; lia.
Qed.

Lemma lastn_app_ge {A} (n : nat) (l xs : list A) :
  (n <= length xs)%nat -> Py.lastn n (l ++ xs) = Py.lastn n xs.
Proof.
  intros H. unfold Py.lastn. rewrite length_app, drop_app_ge by lia.
  f_equal. lia.
Qed.

Lemma lastn_snoc_full {A} (n : nat) (l : list A) (x : A) :
  (0 < n)%nat -> length l = n -> Py.lastn n (l ++ [x]) = tail l ++ [x].
Proof.
  intros Hn Hl. unfold Py.lastn. rewrite length_app. simpl.
  replace (length l + 1 - n)%nat with 1%nat by lia.
  destruct l as [| y l]; [simpl in Hl; lia | reflexivity].
Qed.

End PyFacts.

(** ** The capture queue *)

Module CaptureQueue.
Import PacketSniffer.

Section Bounded.
Context {A : Type}.
Variable C : nat.
Hypothesis C_pos : (0 < C)%nat.

Lemma enqueue_room (q : list A) (x : A) :
  (length q < C)%nat -> enqueue (Z.of_nat C) q x = q ++ [x].
Proof.
  intros H. unfold enqueue, put_nowait.
  destruct (Z.leb_spec (Z.of_nat C) (Z.of_nat (length q))); [lia |].
  rewrite andb_false_r. reflexivity.
Qed.

Lemma enqueue_full (q : list A) (x : A) :
  length q = C -> enqueue (Z.of_nat C) q x = tail q ++ [x].
Proof.
  intros H. unfold enqueue, put_nowait at 1.
  destruct (Z.ltb_spec 0 (Z.of_nat C)); [| lia].
  destruct (Z.leb_spec (Z.of_nat C) (Z.of_nat (length q))); [| lia].
  simpl. destruct q as [| old q]; [simpl in H; lia |].
  simpl. unfold put_nowait.
  destruct (Z.leb_spec (Z.of_nat C) (Z.of_nat (length q)));
    [simpl in H; lia |].
  rewrite andb_false_r. reflexivity.
Qed.

Lemma enqueue_lastn (q : list A) (x : A) :
  (length q <= C)%nat -> enqueue (Z.of_nat C) q x = Py.lastn C (q ++ [x]).
Proof.
  intros H. destruct (Nat.eq_dec (length q) C) as [Heq | Hne].
  - rewrite enqueue_full by assumption.
    symmetry. apply PyFacts.lastn_snoc_full; assumption.
  - rewrite enqueue_room by lia.
    symmetry. apply PyFacts.lastn_all. rewrite length_app. simpl. lia.
Qed.

Lemma push_all_lastn (xs q : list A) :
  (length q <= C)%nat ->
  push_all (Z.of_nat C) q xs = Py.lastn C (q ++ xs).
Proof.
  revert q. induction xs as [| x xs IH]; intros q Hq.
  - simpl. rewrite app_nil_r. symmetry. apply PyFacts.lastn_all, Hq.
  - unfold push_all in *. simpl.
    rewrite IH.
    + rewrite enqueue_lastn by assumption.
      rewrite PyFacts.lastn_app_lastn, <- app_assoc. reflexivity.
    + rewrite enqueue_lastn by assumption.
      rewrite PyFacts.lastn_length. lia.
Qed.
End Bounded.

(** The handler of a sniffer without callback pushes the packet it builds
    from a TCP frame. *)
Lemma handler_enqueues (s : sniffer) src dst sport dport len now :
  has_callback s = false ->
  exists p,
    packet_queue
      (_packet_handler s
         {| ip_layer := Some (src, dst); l4 := TCP sport dport;
            frame_len := len |} now)
    = enqueue (maxsize s) (packet_queue s) p
    /\ packet_size p = Some len /\ source_ip p = Some src.
Proof.
  intros H. eexists. unfold _packet_handler. simpl. rewrite H. simpl.
  split; [reflexivity | split; reflexivity].
Qed.

(** The packets that a run of frames makes the handler build: frames
    without an IP layer or with another transport are skipped. *)
Fixpoint built (frames : list (frame * Q)) : list packet :=
  match frames with
  | [] => []
  | (f, now) :: rest =>
      match ip_layer f, l4 f with
      | Some (src, dst), TCP sport dport =>
          {| timestamp := now; source_ip := Some src; dest_ip := Some dst;
             protocol := Some "TCP"%string; source_port := Some sport;
             dest_port := Some dport; packet_size := Some (frame_len f);
             app_name := None; pid := None; dest_hostname := None;
             category := None |} :: built rest
      | Some (src, dst), UDP sport dport =>
          {| timestamp := now; source_ip := Some src; dest_ip := Some dst;
             protocol := Some "UDP"%string; source_port := Some sport;
             dest_port := Some dport; packet_size := Some (frame_len f);
             app_name := None; pid := None; dest_hostname := None;
             category := None |} :: built rest
      | _, _ => built rest
      end
  end.

(** A sniffer without callback pushes exactly the packets it builds. *)
Lemma handler_run_pushes (frames : list (frame * Q)) :
  forall s : sniffer,
    has_callback s = false ->
    let s' := fold_left (fun s fn => _packet_handler s (fst fn) (snd fn))
                frames s in
    packet_queue s' = push_all (maxsize s) (packet_queue s) (built frames)
    /\ maxsize s' = maxsize s.
Proof.
  induction frames as [| [f now] frames IH]; intros s Hs; cbv zeta.
  - split; reflexivity.
  - cbn [fold_left fst snd built].
    assert (Hstep :
      has_callback (_packet_handler s f now) = false
      /\ maxsize (_packet_handler s f now) = maxsize s
      /\ push_all (maxsize s) (packet_queue (_packet_handler s f now))
           (built frames)
         = push_all (maxsize s) (packet_queue s) (built ((f, now) :: frames))).
    { unfold _packet_handler. cbn [built].
      destruct (ip_layer f) as [[src dst] |]; [| auto].
      destruct (l4 f); rewrite ?Hs; cbn; auto. }
    destruct Hstep as (Hc & Hm & Hq).
    destruct (IH _ Hc) as [H1 H2]. cbv zeta in H1, H2.
    rewrite H1, H2, Hm. split; [exact Hq | reflexivity].
Qed.

(** C1.  A sniffer without callback whose queue has capacity [C] and holds
    at most [C] events handles any run of frames: the queue never holds more
    than [C] events; a push on a full queue removes the oldest event only
    and appends the new one; and once at least [C] events were pushed the
    queue is exactly the last [C] of them, in arrival order. *)
Theorem capture_queue_drop_oldest
    (C : nat) (s : sniffer) (frames : list (frame * Q)) :
  (0 < C)%nat ->
  has_callback s = false ->
  maxsize s = Z.of_nat C ->
  (length (packet_queue s) <= C)%nat ->
  let s' := fold_left (fun s fn => _packet_handler s (fst fn) (snd fn))
              frames s in
  (length (packet_queue s') <= C)%nat
  /\ packet_queue s' = Py.lastn C (packet_queue s ++ built frames)
  /\ (forall (old : packet) (q : list packet) (x : packet),
        length (old :: q) = C ->
        enqueue (Z.of_nat C) (old :: q) x = q ++ [x])
  /\ ((C <= length (built frames))%nat ->
        packet_queue s' = Py.lastn C (built frames)
        /\ length (packet_queue s') = C).
Proof.
  intros HC Hcb Hmax Hlen. cbv zeta.
  destruct (handler_run_pushes frames s Hcb) as [Hq _]. cbv zeta in Hq.
  rewrite Hq, Hmax, (push_all_lastn C HC (built frames) (packet_queue s) Hlen).
  split; [| split; [| split]].
  - rewrite PyFacts.lastn_length. lia.
  - reflexivity.
  - intros old q x Hfull.
    rewrite (enqueue_full C HC (old :: q) x Hfull). reflexivity.
  - intros Hmany. split.
    + apply PyFacts.lastn_app_ge, Hmany.
    + rewrite PyFacts.lastn_length, length_app. lia.
Qed.

Definition tcp_frame (sport : Z) : frame * Q :=
  ({| ip_layer := Some ("192.168.1.20"%string, "93.184.216.34"%string);
      l4 := TCP sport 443; frame_len := 60 |}, 0%Q).

Definition arp_frame : frame * Q :=
  ({| ip_layer := None; l4 := OtherTransport; frame_len := 42 |}, 0%Q).

Definition fresh (C : Z) : sniffer :=
  {| has_callback := false; callback_calls := []; maxsize := C;
     packet_queue := [] |}.

Lemma capture_queue_drop_oldest_witness :
  (0 < 2)%nat
  /\ map source_port
       (packet_queue
          (fold_left (fun s fn => _packet_handler s (fst fn) (snd fn))
             [tcp_frame 1001; arp_frame; tcp_frame 1002; tcp_frame 1003]
             (fresh 2)))
     = [Some 1002; Some 1003].
Proof.
  assert (H2 : (0 < 2)%nat) by lia.
  destruct (capture_queue_drop_oldest 2 (fresh 2)
              [tcp_frame 1001; arp_frame; tcp_frame 1002; tcp_frame 1003]
              H2 eq_refl eq_refl (Nat.le_0_l 2))
    as (_ & _ & _ & Hlast).
  split; [exact H2 |].
  rewrite (proj1 (Hlast ltac:(simpl; lia))). reflexivity.
Defined.

End CaptureQueue.

(** ** The aggregator *)

Module AggregatorFacts.
Import DataAggregator.

Definition size_of (p : packet) : Z := default 0 (packet_size p).

Definition total_size (ps : list (packet * Q)) : Z :=
  fold_right (fun pt acc => size_of (fst pt) + acc) 0 ps.

Lemma sum_values_dict_add (d : Py.counter) (k : string) (v : Z) :
  Py.sum_values (Py.dict_add d k v) = Py.sum_values d + v.
Proof.
  induction d as [| [k' x] d IH]; simpl.
  - unfold Py.sum_values. simpl. lia.
  - destruct (String.eqb k' k); unfold Py.sum_values in *; simpl in *; lia.
Qed.

(** What one call does to the byte counters, whether or not it raises. *)
Lemma add_packet_counters (a : aggregator) (p : packet) (now : Q) :
  let a' := fst (add_packet a p now) in
  let out := fst (_is_outgoing (local_ips a)
                    (default ""%string (source_ip p))) in
  total_upload a' = (if out then total_upload a + size_of p else total_upload a)
  /\ total_download a'
     = (if out then total_download a else total_download a + size_of p)
  /\ app_bandwidth a'
     = Py.dict_add (app_bandwidth a)
         (default "Unknown"%string (app_name p)) (size_of p)
  /\ category_bandwidth a'
     = Py.dict_add (category_bandwidth a)
         (default "Other"%string (category p)) (size_of p)
  /\ total_packets a' = total_packets a + 1
  /\ local_ips a'
     = snd (_is_outgoing (local_ips a) (default ""%string (source_ip p))).
Proof.
  unfold add_packet, size_of.
  destruct (_is_outgoing (local_ips a) (default ""%string (source_ip p)))
    as [out ips].
  destruct (Qle_bool rate_threshold (now - last_rate_calc a));
    [destruct (fits_float _); cbn [negb];
     [destruct (fits_float _); cbn [negb];
      [destruct (Qeq_bool (now - start_time a) 0);
       [| destruct (fits_float _); cbn [negb]] |] |] |];
    repeat split; reflexivity.
Qed.

Lemma add_packet_totals (a : aggregator) (p : packet) (now : Q) :
  let a' := fst (add_packet a p now) in
  total_upload a' + total_download a'
    = total_upload a + total_download a + size_of p
  /\ Py.sum_values (app_bandwidth a')
     = Py.sum_values (app_bandwidth a) + size_of p
  /\ Py.sum_values (category_bandwidth a')
     = Py.sum_values (category_bandwidth a) + size_of p.
Proof.
  destruct (add_packet_counters a p now) as (Hu & Hd & Ha & Hc & _).
  cbv zeta in *. rewrite Hu, Hd, Ha, Hc, !sum_values_dict_add.
  destruct (fst (_is_outgoing _ _)); lia.
Qed.

Lemma add_packets_totals (ps : list (packet * Q)) (a : aggregator) :
  let a' := add_packets a ps in
  total_upload a' + total_download a'
    = total_upload a + total_download a + total_size ps
  /\ Py.sum_values (app_bandwidth a')
     = Py.sum_values (app_bandwidth a) + total_size ps
  /\ total_packets a' = total_packets a + Z.of_nat (length ps).
Proof.
  revert a. induction ps as [| [p t] ps IH]; intros a.
  - simpl. lia.
  - destruct (IH (fst (add_packet a p t))) as (H1 & H2 & H3).
    destruct (add_packet_totals a p t) as (H4 & H5 & _).
    destruct (add_packet_counters a p t) as (_ & _ & _ & _ & H6 & _).
    cbv zeta in *. unfold add_packets in *.
    cbn [fold_left fst snd total_size fold_right length].
    rewrite H1, H2, H3, H4, H5, H6. fold (total_size ps). lia.
Qed.

(** C2.  After any run of [add_packet] calls on a fresh aggregator, with
    packet sizes summing to [S], [get_current_stats] reports a total
    bandwidth of [S], which is upload plus download, and the per-application
    byte counters sum to [S]. *)
Theorem aggregator_totals_equal_sum
    (t_rate t_start now : Q) (ps : list (packet * Q)) :
  let a := add_packets (init t_rate t_start) ps in
  let st := get_current_stats a now in
  stats_total_bandwidth st = total_size ps
  /\ stats_total_upload st + stats_total_download st = total_size ps
  /\ Py.sum_values (app_bandwidth a) = total_size ps
  /\ stats_total_packets st = Z.of_nat (length ps).
Proof.
  cbv zeta.
  destruct (add_packets_totals ps (init t_rate t_start)) as (H1 & H2 & H3).
  cbv zeta in *.
  change (Py.sum_values (app_bandwidth (init t_rate t_start))) with 0 in H2.
  change (total_upload (init t_rate t_start)) with 0 in H1.
  change (total_download (init t_rate t_start)) with 0 in H1.
  change (total_packets (init t_rate t_start)) with 0 in H3.
  unfold get_current_stats. cbn [stats_total_bandwidth stats_total_upload
    stats_total_download stats_total_packets].
  repeat split; lia.
Qed.

(** The test made by [_is_outgoing], spelled out. *)
Lemma is_outgoing_spec (ips : gset string) (ip : string) :
  fst (_is_outgoing ips ip) = true
  <-> ip ∈ ips \/ Py.startswith ip "192.168." = true
      \/ Py.startswith ip "10." = true \/ Py.startswith ip "172." = true.
Proof.
  unfold _is_outgoing. case_bool_decide as Hin; simpl.
  - split; [intros _; left; exact Hin | reflexivity].
  - destruct (Py.startswith ip "192.168."), (Py.startswith ip "10."),
      (Py.startswith ip "172."); simpl; split; intros H; try reflexivity;
      try discriminate; try (right; auto; fail).
    destruct H as [H | [H | [H | H]]]; [contradiction | discriminate ..].
Qed.

(** The set of local IPs only grows, and only by the IP just tested. *)
Lemma is_outgoing_grows (ips : gset string) (ip : string) :
  ips ⊆ snd (_is_outgoing ips ip)
  /\ snd (_is_outgoing ips ip) ⊆ {[ ip ]} ∪ ips.
Proof.
  unfold _is_outgoing. case_bool_decide; simpl; [set_solver |].
  destruct (_ || _); simpl; set_solver.
Qed.

Definition from_ip (ip : string) (size : Z) : packet :=
  {| timestamp := 0%Q; source_ip := Some ip; dest_ip := Some "192.168.1.20"%string;
     protocol := Some "TCP"%string; source_port := Some 443;
     dest_port := Some 51234; packet_size := Some size;
     app_name := Some "Chrome"%string; pid := Some 4242;
     dest_hostname := Some "Local Network"%string;
     category := Some "Local"%string |}.

(** C3.  A packet sent by 172.217.4.46, a public address outside
    172.16.0.0/12 that no earlier call has seen, is added to the upload
    counter: the test made by [_is_outgoing] is the prefix "172." where
    [is_local_ip] lists "172.16." to "172.31.". *)
Theorem public_172_source_counted_as_upload :
  let a := fst (add_packet (init 0 0) (from_ip "172.217.4.46" 1500) 0) in
  DNSResolver.is_local_ip "172.217.4.46" = false
  /\ fst (_is_outgoing ∅ "172.217.4.46") = true
  /\ total_upload a = 1500
  /\ total_download a = 0.
Proof. vm_compute. repeat split. Qed.

(** C8.  Whatever was recorded before, after [reset_stats] every read is
    zero or empty, and the uptime reported at a later clock reading [t] is
    counted from the reading [t0] taken by the reset. *)
Theorem reset_then_reads_are_empty
    (a : aggregator) (t0 t : Q) (limit : Z) (name : string) :
  let r := reset_stats a t0 in
  let st := get_current_stats r t in
  stats_total_packets st = 0
  /\ stats_total_bandwidth st = 0
  /\ stats_total_upload st = 0
  /\ stats_total_download st = 0
  /\ stats_current_rate st = 0%Q
  /\ stats_active_apps st = 0
  /\ (stats_packets_per_second st == 0)%Q
  /\ stats_uptime st = (t - t0)%Q
  /\ start_time r = t0
  /\ get_top_apps r limit = []
  /\ get_bandwidth_by_category r = []
  /\ get_bandwidth_history r = []
  /\ get_recent_packets r limit = []
  /\ get_app_details r name = (name, 0, 0).
Proof.
  cbv zeta. unfold get_current_stats, reset_stats. simpl.
  repeat split.
  - destruct (Qlt_le_dec 0 (t - t0)); [| reflexivity].
    unfold Qdiv. apply Qmult_0_l.
  - unfold get_top_apps, Py.slice_to. simpl.
    destruct (0 <=? limit); first [reflexivity | apply take_nil].
  - unfold get_recent_packets, Py.slice_from. simpl.
    destruct (limit <? Z.of_nat 0); [| reflexivity].
    destruct (0 <=? - limit); first [reflexivity | apply drop_nil].
Qed.

End AggregatorFacts.

(** ** The category classifier and the name resolver *)

Module ResolverFacts.
Import DNSResolver.

(** [k] occurs in [s]: the meaning of Python's [k in s]. *)
Definition occurs (k s : string) : Prop :=
  exists pre post, s = String.append pre (String.append k post).

Lemma append_cons (c : ascii) (k post : string) :
  String.append (String c k) post = String c (String.append k post).
Proof. reflexivity. Qed.

Lemma append_nil (post : string) : String.append EmptyString post = post.
Proof. reflexivity. Qed.

Lemma prefix_spec (k s : string) :
  String.prefix k s = true <-> exists post, s = String.append k post.
Proof.
  revert s. induction k as [| c k IH]; intros s.
  - destruct s; simpl; (split; [intros _; eexists; reflexivity | reflexivity]).
  - destruct s as [| d s]; simpl.
    + split; [discriminate | intros [post H]; discriminate].
    + destruct (Ascii.ascii_dec c d) as [-> | Hne].
      * rewrite IH. split; intros [post H]; exists post;
          rewrite append_cons in *; congruence.
      * split; [discriminate |].
        intros [post H]. rewrite append_cons in H. congruence.
Qed.

Lemma contains_nil (k : string) :
  Py.contains EmptyString k = String.prefix k EmptyString || false.
Proof. reflexivity. Qed.

Lemma contains_cons (c : ascii) (s k : string) :
  Py.contains (String c s) k = String.prefix k (String c s) || Py.contains s k.
Proof. reflexivity. Qed.

Lemma contains_spec (s k : string) :
  Py.contains s k = true <-> occurs k s.
Proof.
  induction s as [| c s IH].
  - rewrite contains_nil, orb_false_r, prefix_spec. split.
    + intros [post H]. exists EmptyString, post. exact H.
    + intros ([| d pre] & post & H).
      * exists post. exact H.
      * rewrite append_cons in H. discriminate.
  - rewrite contains_cons, orb_true_iff, IH, prefix_spec. split.
    + intros [[post H] | (pre & post & H)].
      * exists EmptyString, post. exact H.
      * exists (String c pre), post. rewrite append_cons. congruence.
    + intros ([| d pre] & post & H).
      * left. exists post. exact H.
      * right. exists pre, post. rewrite append_cons in H. congruence.
Qed.

Lemma any_keyword_spec (hl : string) (kws : list string) :
  any_keyword hl kws = true <-> exists k, In k kws /\ occurs k hl.
Proof.
  induction kws as [| k kws IH]; simpl.
  - split; [discriminate | intros (k & [] & _)].
  - destruct (Py.contains hl k) eqn:E.
    + split; [| reflexivity]. intros _. exists k. split; [left; reflexivity |].
      apply contains_spec, E.
    + rewrite IH. split.
      * intros (k' & Hin & Ho). exists k'. split; [right |]; assumption.
      * intros (k' & [-> | Hin] & Ho).
        -- apply contains_spec in Ho. congruence.
        -- exists k'. split; assumption.
Qed.

Lemma first_category_none (table : list (string * list string)) (hl : string) :
  first_category table hl = None
  <-> forall c kws, In (c, kws) table -> any_keyword hl kws = false.
Proof.
  induction table as [| [c kws] table IH]; simpl.
  - split; [intros _ ? ? [] | reflexivity].
  - destruct (any_keyword hl kws) eqn:E.
    + split; [discriminate |]. intros H.
      specialize (H c kws (or_introl eq_refl)). congruence.
    + rewrite IH. split.
      * intros H c' kws' [Heq | Hin]; [congruence | eauto].
      * intros H c' kws' Hin. apply (H c' kws'). right. exact Hin.
Qed.

Lemma first_category_app (before after : list (string * list string))
    (hl : string) :
  first_category before hl = None ->
  first_category (before ++ after) hl = first_category after hl.
Proof.
  induction before as [| [c kws] before IH]; simpl; [reflexivity |].
  destruct (any_keyword hl kws); [discriminate | exact IH].
Qed.

Lemma lower_empty (h : string) : Py.lower h = EmptyString <-> h = EmptyString.
Proof. destruct h; simpl; split; congruence. Qed.

Lemma truthy_lower (h1 h2 : string) :
  Py.lower h1 = Py.lower h2 ->
  Py.truthy_str (Some h1) = Py.truthy_str (Some h2).
Proof. destruct h1, h2; simpl; intros H; congruence. Qed.

(** No keyword of the rows [table] occurs in [hl]. *)
Definition no_keyword (table : list (string * list string)) (hl : string) : Prop :=
  forall c kws k, In (c, kws) table -> In k kws -> ~ occurs k hl.

Lemma no_keyword_none (table : list (string * list string)) (hl : string) :
  no_keyword table hl <-> first_category table hl = None.
Proof.
  rewrite first_category_none. split.
  - intros H c kws Hin. destruct (any_keyword hl kws) eqn:E; [| reflexivity].
    apply any_keyword_spec in E. destruct E as (k & Hk & Ho).
    exfalso. exact (H c kws k Hin Hk Ho).
  - intros H c kws k Hin Hk Ho.
    assert (E : any_keyword hl kws = true)
      by (apply any_keyword_spec; exists k; split; assumption).
    rewrite (H c kws Hin) in E. discriminate.
Qed.

(** The configured keywords are their own lowercase, so that matching them
    in the lowered host name ignores case on both sides. *)
Lemma configured_keywords_lowercase :
  forallb (fun row => forallb (fun k => String.eqb (Py.lower k) k) (snd row))
    Config.CATEGORY_KEYWORDS = true.
Proof. vm_compute. reflexivity. Qed.

(** C4.  [categorize_domain] is a function of the keyword table and the
    host name, and of the host name only up to letter case; the category
    it returns is the first one of the ordered table with a keyword that
    occurs in the lowered host name; a host name in which no keyword
    occurs, an empty host name and [None] all give "Other". *)
Theorem categorize_domain_first_match (r : resolver) :
  (forall h1 h2 : string,
      Py.lower h1 = Py.lower h2 ->
      categorize_domain r (Some h1) = categorize_domain r (Some h2))
  /\ (forall (h : string) before c kws after,
        h <> EmptyString ->
        category_keywords r = before ++ (c, kws) :: after ->
        no_keyword before (Py.lower h) ->
        (exists k, In k kws /\ occurs k (Py.lower h)) ->
        categorize_domain r (Some h) = c)
  /\ (forall h : string,
        no_keyword (category_keywords r) (Py.lower h) ->
        categorize_domain r (Some h) = "Other"%string)
  /\ categorize_domain r None = "Other"%string
  /\ categorize_domain r (Some EmptyString) = "Other"%string.
Proof.
  split; [| split; [| split; [| split]]].
  - intros h1 h2 H. unfold categorize_domain.
    rewrite (truthy_lower h1 h2 H). simpl. rewrite H. reflexivity.
  - intros h before c kws after Hne Htab Hbefore Hk.
    unfold categorize_domain. destruct h as [| a h]; [congruence |].
    change (negb (Py.truthy_str (Some (String a h)))) with false.
    change (default ""%string (Some (String a h))) with (String a h).
    cbv iota. rewrite Htab.
    rewrite first_category_app by (apply no_keyword_none, Hbefore).
    cbn [first_category].
    apply any_keyword_spec in Hk. rewrite Hk. reflexivity.
  - intros h H. unfold categorize_domain.
    apply no_keyword_none in H.
    destruct (negb (Py.truthy_str (Some h))); [reflexivity |].
    change (default ""%string (Some h)) with h.
    rewrite H. reflexivity.
  - reflexivity.
  - reflexivity.
Qed.

Lemma categorize_domain_first_match_witness :
  categorize_domain init (Some "CDN.Twitch.tv"%string)
    = categorize_domain init (Some "cdn.twitch.TV"%string)
  /\ categorize_domain init (Some "api.GitHub.com"%string) = "Development"%string
  /\ categorize_domain init (Some "example.org"%string) = "Other"%string.
Proof.
  destruct (categorize_domain_first_match init) as (Hcase & Hfirst & Hnone & _).
  split; [| split].
  - apply Hcase. reflexivity.
  - apply (Hfirst "api.GitHub.com"%string
             (firstn 2 Config.CATEGORY_KEYWORDS) "Development"%string
             ["github"; "gitlab"; "bitbucket"; "stackoverflow"; "stackexchange";
              "npmjs"; "pypi"; "docker"; "kubernetes"; "jenkins"]%string
             (skipn 3 Config.CATEGORY_KEYWORDS)).
    + discriminate.
    + reflexivity.
    + apply no_keyword_none. vm_compute. reflexivity.
    + exists "github"%string. split; [left; reflexivity |].
      exists "api."%string, ".com"%string. reflexivity.
  - apply Hnone. apply no_keyword_none. vm_compute. reflexivity.
Defined.

(** C6.  Whatever the operating system answers to the reverse lookup,
    [resolve_ip] returns: a cached entry on a hit; otherwise the host name
    when the lookup succeeds and [None] when it raises [herror],
    [gaierror], a timeout or any other exception.  No outcome is an
    exception passed to the caller. *)
Theorem resolve_ip_never_raises (r : resolver) (ip : string) (answer : lookup) :
  (exists v, snd (resolve_ip r ip answer) = Py.Return v)
  /\ (forall v, lru_maxsize r <> 0%nat -> lru_find (cache r) ip = Some v ->
        snd (resolve_ip r ip answer) = Py.Return v)
  /\ (forall hostname,
        lru_maxsize r = 0%nat \/ lru_find (cache r) ip = None ->
        answer = Py.Return hostname ->
        snd (resolve_ip r ip answer) = Py.Return (Some hostname))
  /\ (forall e,
        lru_maxsize r = 0%nat \/ lru_find (cache r) ip = None ->
        answer = Py.Raise e ->
        snd (resolve_ip r ip answer) = Py.Return None).
Proof.
  assert (Hbody : exists v, resolve_ip_body answer = Py.Return v).
  { destruct answer as [h | []]; simpl; eexists; reflexivity. }
  assert (Hmiss : lru_maxsize r = 0%nat \/ lru_find (cache r) ip = None ->
                  forall v, resolve_ip_body answer = Py.Return v ->
                  snd (resolve_ip r ip answer) = Py.Return v).
  { intros Hun v Hv. unfold resolve_ip.
    destruct (lru_maxsize r) as [| n].
    - rewrite Hv. reflexivity.
    - destruct Hun as [Hun | Hun]; [discriminate |].
      rewrite Hun, Hv. reflexivity. }
  split; [| split; [| split]].
  - unfold resolve_ip. destruct Hbody as [v Hv].
    destruct (lru_maxsize r) as [| n].
    + rewrite Hv. eexists. reflexivity.
    + destruct (lru_find (cache r) ip) as [w |].
      * eexists. reflexivity.
      * rewrite Hv. eexists. reflexivity.
  - intros v Hsize Hhit. unfold resolve_ip.
    destruct (lru_maxsize r) as [| n]; [congruence |].
    rewrite Hhit. reflexivity.
  - intros hostname Hun ->. apply Hmiss; [exact Hun | reflexivity].
  - intros e Hun ->. apply Hmiss; [exact Hun |].
    destruct e; reflexivity.
Qed.

Lemma resolve_ip_never_raises_witness :
  snd (resolve_ip init "203.0.113.9" (Py.Raise timeout_error)) = Py.Return None
  /\ snd (resolve_ip init "203.0.113.9"
            (Py.Raise (other_exception "UnicodeError"))) = Py.Return None
  /\ snd (resolve_ip init "142.250.72.14" (Py.Return "lax17s55-in-f14.1e100.net"%string))
     = Py.Return (Some "lax17s55-in-f14.1e100.net"%string).
Proof.
  split; [| split].
  - destruct (resolve_ip_never_raises init "203.0.113.9"
                (Py.Raise timeout_error)) as (_ & _ & _ & H).
    apply (H timeout_error); [right; reflexivity | reflexivity].
  - destruct (resolve_ip_never_raises init "203.0.113.9"
                (Py.Raise (other_exception "UnicodeError"))) as (_ & _ & _ & H).
    apply (H (other_exception "UnicodeError")); [right; reflexivity | reflexivity].
  - destruct (resolve_ip_never_raises init "142.250.72.14"
                (Py.Return "lax17s55-in-f14.1e100.net"%string)) as (_ & _ & H & _).
    apply H; [right; reflexivity | reflexivity].
Defined.

End ResolverFacts.

(** ** The connection resolver *)

Module MapperFacts.
Import ProcessMapper.

Definition local_port_of (e : key * (Z * string)) : Z := fst (fst (fst e)).

(** The scan returns the value of the first entry with the local port. *)
Lemma scan_first_match (t : connection_table) (lp : Z) (v : Z * string) :
  scan_local_port t lp = Some v
  <-> exists before k after,
        t = before ++ (k, v) :: after
        /\ fst (fst k) = lp
        /\ Forall (fun e => local_port_of e <> lp) before.
Proof.
  induction t as [| [[[l rip] rp] w] t IH]; simpl.
  - split; [discriminate |].
    intros (before & k & after & H & _). destruct before; discriminate.
  - destruct (Z.eqb_spec l lp) as [-> | Hne].
    + split.
      * intros [= ->]. exists [], (lp, rip, rp), t.
        repeat split. constructor.
      * intros (before & k & after & H & Hk & Hb).
        destruct before as [| e before].
        -- simpl in H. congruence.
        -- simpl in H. injection H as <- _.
           inversion Hb as [| ? ? Hhd _]. exfalso. apply Hhd. reflexivity.
    + rewrite IH. split.
      * intros (before & k & after & -> & Hk & Hb).
        exists ((l, rip, rp, w) :: before), k, after.
        repeat split; [exact Hk |]. constructor; [exact Hne | exact Hb].
      * intros (before & k & after & H & Hk & Hb).
        destruct before as [| e before].
        -- simpl in H. injection H as <- <-. simpl in Hk. contradiction.
        -- simpl in H. injection H as <- ->.
           inversion Hb. exists before, k, after. repeat split; assumption.
Qed.

(** A failed refresh leaves an empty table. *)
Lemma refresh_failure_empty (os : os_view) :
  net_connections os = None -> _refresh_connections os = [].
Proof. unfold _refresh_connections. intros ->. reflexivity. Qed.

(** The failures of the [lsof] call named in its [except] clause, and
    results that cannot be used, give [(None, None)]. *)
Lemma lsof_failure_unresolved (run : run_outcome) :
  run = TimeoutExpired \/ run = SubprocessError
  \/ (exists rc out, run = Completed rc out
        /\ (rc <> 0 \/ out = EmptyString
            \/ parse_lsof (split_lines (strip out)) None = Py.Raise ValueError)) ->
  _find_process_with_lsof run = Py.Return (None, None).
Proof.
  intros [-> | [-> | (rc & out & -> & H)]]; try reflexivity.
  unfold _find_process_with_lsof, lsof_try.
  destruct H as [H | [-> | H]].
  - destruct (Z.eqb_spec rc 0); [contradiction | reflexivity].
  - rewrite andb_false_r. reflexivity.
  - destruct ((rc =? 0) && Py.truthy_str (Some out)); [| reflexivity].
    rewrite H. reflexivity.
Qed.

(** When [lsof] could be started, the fallback returns. *)
Lemma lsof_returns (run : run_outcome) :
  (forall name, run <> OSError name) ->
  exists v, _find_process_with_lsof run = Py.Return v.
Proof.
  intros H. unfold _find_process_with_lsof.
  destruct (lsof_try run) as [[[p n] |] | []] eqn:E;
    try (eexists; reflexivity).
  exfalso. unfold lsof_try in E. destruct run as [rc out | | | nm].
  - destruct ((rc =? 0) && Py.truthy_str (Some out)); [| discriminate].
    assert (G : forall lines pid name0,
               parse_lsof lines pid <> Py.Raise (RunOSError name0)).
    { induction lines as [| l lines IH]; intros pid name0; simpl.
      - discriminate.
      - destruct (Py.startswith l "p").
        + destruct (int_of_string (drop_first l)); [apply IH | discriminate].
        + destruct (Py.startswith l "c"); [discriminate | apply IH]. }
    destruct (parse_lsof (split_lines (strip out)) None) as [[pd pn] | e] eqn:P.
    + destruct (Py.truthy_int pd && Py.truthy_str pn); discriminate.
    + injection E as ->. exact (G _ _ _ P).
  - discriminate.
  - discriminate.
  - exact (H nm eq_refl).
Qed.

Definition found (v : Z * string) : Py.result exn (option Z * option string) :=
  Py.Return (Some (fst v), Some (snd v)).

(** With the connection table out of reach, a refresh that is due, or the
    refresh of an empty cache, leaves the cache empty. *)
Lemma refreshed_failure_empty (m : mapper) (os1 os2 : os_view) :
  net_connections os1 = None -> net_connections os2 = None ->
  _refresh_interval m <= _refresh_counter m + 1 \/ connection_cache m = [] ->
  connection_cache (refreshed m os1 os2) = [].
Proof.
  intros H1 H2 Hdue. unfold refreshed.
  rewrite (refresh_failure_empty os1 H1), (refresh_failure_empty os2 H2).
  destruct (Z.leb_spec (_refresh_interval m) (_refresh_counter m + 1))
    as [Hle | Hgt]; cbn [connection_cache is_empty]; [reflexivity |].
  destruct Hdue as [Hdue | ->]; [lia | reflexivity].
Qed.

(** The fallback chain as the code has it.  After the refresh steps, the
    exact key is looked up only when the remote IP is non-empty and the
    remote port is non-zero; when that lookup is skipped or finds nothing,
    the first cache entry with the local port answers; when there is none,
    the answer is that of the [lsof] fallback, which is [(None, None)] on a
    timeout, a subprocess error, a non-zero exit, empty output or a
    malformed pid; a failed refresh leaves an empty table; and the call
    returns whenever [lsof] could be started. *)
Theorem find_process_by_port_fallback_chain
    (m : mapper) (os1 os2 : os_view) (run : run_outcome)
    (local_port : Z) (remote_ip : option string) (remote_port : option Z) :
  let m' := refreshed m os1 os2 in
  let res := snd (find_process_by_port m os1 os2 run
                    local_port remote_ip remote_port) in
  let exact :=
    if Py.truthy_str remote_ip && Py.truthy_int remote_port
    then table_get (connection_cache m')
           (local_port, default ""%string remote_ip, default 0 remote_port)
    else None in
  fst (find_process_by_port m os1 os2 run local_port remote_ip remote_port) = m'
  /\ (forall v, exact = Some v -> res = found v)
  /\ (forall before k v after,
        exact = None ->
        connection_cache m' = before ++ (k, v) :: after ->
        fst (fst k) = local_port ->
        Forall (fun e => local_port_of e <> local_port) before ->
        res = found v)
  /\ (exact = None ->
      scan_local_port (connection_cache m') local_port = None ->
      res = _find_process_with_lsof run)
  /\ (run = TimeoutExpired \/ run = SubprocessError
      \/ (exists rc out, run = Completed rc out
            /\ (rc <> 0 \/ out = EmptyString
                \/ parse_lsof (split_lines (strip out)) None
                   = Py.Raise ValueError)) ->
      _find_process_with_lsof run = Py.Return (None, None))
  /\ ((forall name, run <> OSError name) -> exists v, res = Py.Return v)
  /\ (net_connections os1 = None -> net_connections os2 = None ->
      _refresh_interval m <= _refresh_counter m + 1 \/ connection_cache m = [] ->
      connection_cache m' = []).
Proof.
  cbv zeta. unfold find_process_by_port. cbn [fst snd].
  set (m' := refreshed m os1 os2).
  set (by_port := match scan_local_port (connection_cache m') local_port with
                  | Some v => Py.Return (Some (fst v), Some (snd v))
                  | None => _find_process_with_lsof run
                  end).
  assert (Hscan : forall before k v after,
             connection_cache m' = before ++ (k, v) :: after ->
             fst (fst k) = local_port ->
             Forall (fun e => local_port_of e <> local_port) before ->
             by_port = found v).
  { intros before k v after Hc Hk Hb. unfold by_port.
    assert (E : scan_local_port (connection_cache m') local_port = Some v).
    { apply scan_first_match. exists before, k, after. auto. }
    rewrite E. reflexivity. }
  assert (Hret : (forall name, run <> OSError name) ->
                 exists v, by_port = Py.Return v).
  { intros H. unfold by_port.
    destruct (scan_local_port _ _); [eexists; reflexivity |].
    apply lsof_returns, H. }
  split; [reflexivity |].
  split; [| split; [| split; [| split; [| split]]]].
  - destruct (Py.truthy_str remote_ip && Py.truthy_int remote_port);
      [| discriminate].
    intros v ->. reflexivity.
  - intros before k v after Hex Hc Hk Hb.
    rewrite <- (Hscan before k v after Hc Hk Hb).
    destruct (Py.truthy_str remote_ip && Py.truthy_int remote_port);
      [rewrite Hex |]; reflexivity.
  - intros Hex Hnone.
    assert (E : by_port = _find_process_with_lsof run)
      by (unfold by_port; rewrite Hnone; reflexivity).
    rewrite <- E.
    destruct (Py.truthy_str remote_ip && Py.truthy_int remote_port);
      [rewrite Hex |]; reflexivity.
  - apply lsof_failure_unresolved.
  - intros H.
    destruct (Py.truthy_str remote_ip && Py.truthy_int remote_port);
      [| apply Hret, H].
    destruct (table_get _ _); [eexists; reflexivity | apply Hret, H].
  - apply refreshed_failure_empty.
Qed.

(** The connection table lists two sockets on local port 5353; the second
    one has remote port 0. *)
Definition two_sockets : os_view :=
  {| net_connections :=
       Some
         [ {| laddr := Some ("192.168.1.20"%string, 5353);
              raddr := Some ("224.0.0.251"%string, 5353);
              conn_pid := Some 311 |};
           {| laddr := Some ("192.168.1.20"%string, 5353);
              raddr := Some ("192.0.2.10"%string, 0);
              conn_pid := Some 4242 |} ];
     process_name_of :=
       fun p =>
         if p =? 311 then ProcessName "mDNSResponder"
         else if p =? 4242 then ProcessName "Google Chrome"
         else NoSuchProcess |}.

(** The mapper once it has read that table. *)
Definition shared_port : mapper :=
  {| connection_cache :=
       [ ((5353, "224.0.0.251"%string, 5353), (311, "mDNSResponder"%string));
         ((5353, "192.0.2.10"%string, 0), (4242, "Google Chrome"%string)) ];
     _refresh_counter := 1;
     _refresh_interval := 10 |}.

Example first_call_reads_table :
  refreshed init two_sockets two_sockets = shared_port.
Proof. reflexivity. Qed.

Definition no_access : os_view :=
  {| net_connections := None; process_name_of := fun _ => AccessDenied |}.

Definition nl : string := String "010"%char EmptyString.

(** What [lsof -F pcn] prints for one socket. *)
Definition lsof_output : string :=
  ("p77" +:+ nl +:+ "cnc" +:+ nl +:+ "n*:5353" +:+ nl)%string.

Example lsof_parsed :
  _find_process_with_lsof (Completed 0 lsof_output)
  = Py.Return (Some 77, Some "nc"%string).
Proof. reflexivity. Qed.

Example lsof_malformed_pid :
  _find_process_with_lsof (Completed 0 ("p7x" +:+ nl +:+ "cnc" +:+ nl)%string)
  = Py.Return (None, None).
Proof. reflexivity. Qed.

Example lsof_nothing_found :
  _find_process_with_lsof (Completed 1 EmptyString) = Py.Return (None, None).
Proof. reflexivity. Qed.

Lemma find_process_by_port_fallback_chain_witness :
  snd (find_process_by_port init no_access no_access TimeoutExpired
         51234 (Some "93.184.216.34"%string) (Some 443))
    = Py.Return (None, None)
  /\ snd (find_process_by_port shared_port no_access no_access
            (Completed 0 lsof_output)
            5353 (Some "192.0.2.10"%string) (Some 5353))
     = Py.Return (Some 311, Some "mDNSResponder"%string)
  /\ (exists v, snd (find_process_by_port init no_access no_access
                       SubprocessError 51234 None None) = Py.Return v).
Proof.
  split; [| split].
  - destruct (find_process_by_port_fallback_chain init no_access no_access
                TimeoutExpired 51234 (Some "93.184.216.34"%string) (Some 443))
      as (_ & _ & _ & Hlsof & Hfail & _).
    cbv zeta in Hlsof. rewrite Hlsof; [| reflexivity | reflexivity].
    apply Hfail. left. reflexivity.
  - destruct (find_process_by_port_fallback_chain shared_port no_access
                no_access (Completed 0 lsof_output)
                5353 (Some "192.0.2.10"%string) (Some 5353))
      as (_ & _ & Hscan & _).
    apply (Hscan [] (5353, "224.0.0.251"%string, 5353)
             (311, "mDNSResponder"%string)
             [((5353, "192.0.2.10"%string, 0), (4242, "Google Chrome"%string))]).
    + reflexivity.
    + reflexivity.
    + reflexivity.
    + constructor.
  - destruct (find_process_by_port_fallback_chain init no_access no_access
                SubprocessError 51234 None None)
      as (_ & _ & _ & _ & _ & Hret & _).
    apply Hret. intros name. discriminate.
Defined.

Example lsof_start_failure_propagates :
  snd (find_process_by_port init no_access no_access
         (OSError "FileNotFoundError") 51234 (Some "93.184.216.34"%string)
         (Some 443))
  = Py.Raise (RunOSError "FileNotFoundError").
Proof. reflexivity. Qed.

(** A key found by the exact lookup is also met by the scan. *)
Lemma exact_hit_is_scan_hit (t : connection_table) (lp : Z) (ip : string)
    (rp : Z) (v : Z * string) :
  table_get t (lp, ip, rp) = Some v -> scan_local_port t lp <> None.
Proof.
  induction t as [| [[[lp' ip'] rp'] v'] t IH]; simpl; [discriminate |].
  destruct (Z.eqb_spec lp' lp) as [-> | Hne]; [discriminate |].
  cbn [andb]. exact IH.
Qed.

(** C5.  The call does raise.  When no cache entry has the local port and
    [lsof] cannot be started ([subprocess.run] raises an [OSError]: the
    program is not on the path, may not be executed, or no process can be
    forked), the exception passes the [except] clause of
    [_find_process_with_lsof], which names [TimeoutExpired],
    [SubprocessError] and [ValueError] only, and reaches the caller of
    [find_process_by_port], whatever the remote address asked for; the
    cache has been refreshed by then. *)
Theorem lsof_start_failure_reaches_caller
    (m : mapper) (os1 os2 : os_view) (name : string)
    (local_port : Z) (remote_ip : option string) (remote_port : option Z) :
  scan_local_port (connection_cache (refreshed m os1 os2)) local_port = None ->
  _find_process_with_lsof (OSError name) = Py.Raise (RunOSError name)
  /\ find_process_by_port m os1 os2 (OSError name)
       local_port remote_ip remote_port
     = (refreshed m os1 os2, Py.Raise (RunOSError name)).
Proof.
  intros Hscan. split; [reflexivity |].
  unfold find_process_by_port. rewrite Hscan.
  destruct (Py.truthy_str remote_ip && Py.truthy_int remote_port);
    [| reflexivity].
  destruct (table_get _ _) as [v |] eqn:E; [| reflexivity].
  exfalso. exact (exact_hit_is_scan_hit _ _ _ _ _ E Hscan).
Qed.

Lemma lsof_start_failure_reaches_caller_witness :
  scan_local_port (connection_cache (refreshed init no_access no_access)) 51234
  = None
  /\ snd (find_process_by_port init no_access no_access
            (OSError "FileNotFoundError") 51234
            (Some "93.184.216.34"%string) (Some 443))
     = Py.Raise (RunOSError "FileNotFoundError").
Proof.
  assert (H : scan_local_port
                (connection_cache (refreshed init no_access no_access)) 51234
              = None) by reflexivity.
  split; [exact H |].
  rewrite (proj2 (lsof_start_failure_reaches_caller init no_access no_access
                    "FileNotFoundError" 51234
                    (Some "93.184.216.34"%string) (Some 443) H)).
  reflexivity.
Defined.

End MapperFacts.

(** ** The orchestrator's write batch *)

Module MonitorFacts.
Import NetworkDatabase NetworkMonitor.

(** The three [NOT NULL] text columns are present. *)
Definition storable (p : packet) : bool :=
  match source_ip p, dest_ip p, protocol p with
  | Some _, Some _, Some _ => true
  | _, _, _ => false
  end.

(** The records that the passes [events] append to the batch buffer,
    starting from aggregator [a]: those whose enrichment and aggregation
    both returned. *)
Fixpoint reached (a : DataAggregator.aggregator) (events : list loop_event)
  : list packet :=
  match events with
  | [] => []
  | QueueEmpty :: rest => reached a rest
  | Packet None _ _ :: rest => reached a rest
  | Packet (Some p) now _ :: rest =>
      match DataAggregator.add_packet a p now with
      | (a', Py.Return _) => p :: reached a' rest
      | (a', Py.Raise _) => reached a' rest
      end
  end.

Lemma to_rows_length (ps : list packet) :
  forall i rs, to_rows i ps = Some rs -> length rs = length ps.
Proof.
  induction ps as [| p ps IH]; intros i rs; simpl.
  - intros [= <-]. reflexivity.
  - destruct (to_row i p); [| discriminate].
    destruct (to_rows (i + 1) ps) as [rs' |] eqn:E; [| discriminate].
    intros [= <-]. simpl. f_equal. exact (IH _ _ E).
Qed.

Lemma to_rows_app (ps qs : list packet) :
  forall i rs rs',
    to_rows i ps = Some rs ->
    to_rows (i + Z.of_nat (length ps)) qs = Some rs' ->
    to_rows i (ps ++ qs) = Some (rs ++ rs').
Proof.
  induction ps as [| p ps IH]; intros i rs rs'; simpl.
  - intros [= <-]. rewrite Z.add_0_r. intros ->. reflexivity.
  - destruct (to_row i p); [| discriminate].
    destruct (to_rows (i + 1) ps) as [rs1 |] eqn:E; [| discriminate].
    intros [= <-] Hq.
    rewrite (IH (i + 1) rs1 rs' E); [reflexivity |].
    rewrite <- Hq. f_equal. lia.
Qed.

Lemma to_rows_storable (ps : list packet) :
  forall i, forallb storable ps = true -> exists rs, to_rows i ps = Some rs.
Proof.
  induction ps as [| p ps IH]; intros i; simpl.
  - intros _. eexists. reflexivity.
  - rewrite andb_true_iff. intros [Hp Hps].
    destruct (IH (i + 1) Hps) as [rs ->].
    unfold storable in Hp. unfold to_row.
    destruct (source_ip p), (dest_ip p), (protocol p); try discriminate.
    eexists. reflexivity.
Qed.

(** The records [all] seen so far are split between the rows written
    since [db0] and the batch buffer, in order. *)
Definition ledger (db0 : database) (all : list packet) (d : database)
    (buffer : list packet) : Prop :=
  exists flushed rs,
    all = flushed ++ buffer
    /\ to_rows (next_id db0) flushed = Some rs
    /\ connections d = connections db0 ++ rs
    /\ next_id d = next_id db0 + Z.of_nat (length flushed).

Lemma ledger_start (db0 : database) (buffer : list packet) :
  ledger db0 buffer db0 buffer.
Proof.
  exists [], []. simpl. rewrite app_nil_r, Z.add_0_r. auto.
Qed.

Lemma ledger_append db0 all d buffer (p : packet) :
  ledger db0 all d buffer -> ledger db0 (all ++ [p]) d (buffer ++ [p]).
Proof.
  intros (flushed & rs & -> & H1 & H2 & H3).
  exists flushed, rs. rewrite app_assoc. auto.
Qed.

Lemma ledger_insert db0 all d buffer io_ok d' :
  ledger db0 all d buffer ->
  insert_batch d buffer io_ok = Py.Return d' ->
  ledger db0 all d' [].
Proof.
  intros (flushed & rs & -> & H1 & H2 & H3). unfold insert_batch.
  destruct buffer as [| p buffer].
  - intros [= <-]. exists flushed, rs. auto.
  - destruct io_ok; [| discriminate].
    destruct (to_rows (next_id d) (p :: buffer)) as [rs' |] eqn:E;
      [| discriminate].
    intros [= <-]. exists (flushed ++ p :: buffer), (rs ++ rs').
    cbn [connections next_id].
    rewrite app_nil_r, H2, H3, length_app, <- app_assoc.
    rewrite (to_rows_length _ _ _ E).
    repeat split; [| lia].
    apply to_rows_app; [exact H1 |]. rewrite <- H3. exact E.
Qed.

Lemma loop_body_ledger db0 all (m : monitor) (ev : loop_event) :
  ledger db0 all (db m) (batch_buffer m) ->
  ledger db0 (all ++ reached (aggregator m) [ev])
    (db (loop_body m ev)) (batch_buffer (loop_body m ev))
  /\ forall rest,
       reached (aggregator m) (ev :: rest)
       = reached (aggregator m) [ev]
           ++ reached (aggregator (loop_body m ev)) rest.
Proof.
  intros L. destruct ev as [| [p |] now io_ok];
    unfold loop_body; cbn [reached].
  - rewrite app_nil_r. split; [exact L | reflexivity].
  - destruct (DataAggregator.add_packet (aggregator m) p now) as [a [[] | e]];
      cbv beta iota zeta.
    + pose proof (ledger_append _ _ _ _ p L) as L'.
      destruct (Config.BATCH_INSERT_SIZE <=? length (batch_buffer m ++ [p]))%nat.
      * destruct (insert_batch (db m) (batch_buffer m ++ [p]) io_ok)
          as [d |] eqn:E; cbn [with_buffer db batch_buffer aggregator].
        -- split; [exact (ledger_insert _ _ _ _ _ _ L' E) | reflexivity].
        -- split; [exact L' | reflexivity].
      * cbn [with_buffer db batch_buffer aggregator].
        split; [exact L' | reflexivity].
    + cbn [with_buffer db batch_buffer aggregator].
      rewrite app_nil_r. split; [exact L | reflexivity].
  - rewrite app_nil_r. split; [exact L | reflexivity].
Qed.

Lemma loop_ledger db0 (events : list loop_event) :
  forall all (m : monitor),
    ledger db0 all (db m) (batch_buffer m) ->
    let m' := fold_left loop_body events m in
    ledger db0 (all ++ reached (aggregator m) events)
      (db m') (batch_buffer m').
Proof.
  induction events as [| ev events IH]; intros all m L; cbv zeta.
  - simpl. rewrite app_nil_r. exact L.
  - destruct (loop_body_ledger db0 all m ev L) as [L' Hsplit].
    rewrite Hsplit, app_assoc. cbn [fold_left].
    apply IH. exact L'.
Qed.

Lemma loop_body_is_running (m : monitor) (ev : loop_event) :
  is_running (loop_body m ev) = is_running m.
Proof.
  destruct ev as [| [p |] now io_ok]; unfold loop_body; try reflexivity.
  destruct (DataAggregator.add_packet (aggregator m) p now) as [a [[] | e]];
    cbv beta iota zeta; [| reflexivity].
  destruct (Config.BATCH_INSERT_SIZE <=? length (batch_buffer m ++ [p]))%nat;
    [| reflexivity].
  destruct (insert_batch _ _ _); reflexivity.
Qed.

Lemma loop_is_running (events : list loop_event) (m : monitor) :
  is_running (fold_left loop_body events m) = is_running m.
Proof.
  revert m. induction events as [| ev events IH]; intros m; simpl.
  - reflexivity.
  - rewrite IH. apply loop_body_is_running.
Qed.

Lemma ledger_storable_buffer db0 all d buffer :
  ledger db0 all d buffer ->
  forallb storable all = true -> forallb storable buffer = true.
Proof.
  intros (flushed & rs & -> & _). rewrite forallb_app, andb_true_iff.
  intros [_ H]. exact H.
Qed.

(** The flush after the loop, when SQLite can write and the buffered
    records have their required columns. *)
Lemma flush_ledger db0 all (m : monitor) :
  ledger db0 all (db m) (batch_buffer m) ->
  forallb storable all = true ->
  is_running (flush m true) = is_running m
  /\ batch_buffer (flush m true) = []
  /\ exists rs,
       to_rows (next_id db0) all = Some rs
       /\ connections (db (flush m true)) = connections db0 ++ rs.
Proof.
  intros L Hst.
  pose proof (ledger_storable_buffer _ _ _ _ L Hst) as Hbuf.
  unfold flush. destruct (batch_buffer m) as [| p buffer] eqn:Eb.
  - split; [reflexivity |]. split; [exact Eb |].
    destruct L as (flushed & rs & Hall & H1 & H2 & _).
    exists rs. rewrite app_nil_r in Hall. subst flushed. auto.
  - destruct (to_rows_storable (p :: buffer) (next_id (db m)) Hbuf)
      as [rs' Hrs'].
    assert (E : insert_batch (db m) (p :: buffer) true
                = Py.Return {| connections := connections (db m) ++ rs';
                               next_id := next_id (db m)
                                          + Z.of_nat (length rs') |}).
    { unfold insert_batch. rewrite Hrs'. reflexivity. }
    rewrite E. cbn [is_running batch_buffer db with_buffer].
    split; [reflexivity |]. split; [reflexivity |].
    destruct (ledger_insert _ _ _ _ _ _ L E)
      as (flushed & rs & Hall & H1 & H2 & _).
    exists rs. rewrite app_nil_r in Hall. subst flushed. auto.
Qed.

(** C7, as the code has it.  When [stop] is called on a running monitor and
    the join returns because the worker left its loop, the worker has
    flushed the partially-filled batch: if that last write succeeds, the
    buffer is empty and the records that were buffered or reached the
    buffer in the pass in flight are rows of the database, in order. *)
Theorem stop_flushes_batch_when_joined
    (m : monitor) (in_flight : list loop_event) :
  is_running m = true ->
  let all := batch_buffer m ++ reached (aggregator m) in_flight in
  forallb storable all = true ->
  let m' := stop m (Joined in_flight true) in
  is_running m' = false
  /\ batch_buffer m' = []
  /\ exists rs,
       to_rows (next_id (db m)) all = Some rs
       /\ connections (db m') = connections (db m) ++ rs.
Proof.
  intros Hrun all Hst. cbv zeta. unfold stop. rewrite Hrun. cbn [negb].
  unfold packet_processor_worker.
  pose (m1 := {| is_running := false; aggregator := aggregator m;
                 db := db m; batch_buffer := batch_buffer m |}).
  fold m1.
  pose proof (loop_ledger (db m) in_flight (batch_buffer m) m1
                (ledger_start (db m) (batch_buffer m))) as L.
  cbv zeta in L. change (aggregator m1) with (aggregator m) in L.
  fold all in L.
  destruct (flush_ledger (db m) all _ L Hst) as (Hr & Hb & Hrows).
  rewrite loop_is_running in Hr.
  split; [exact Hr |]. split; [exact Hb | exact Hrows].
Qed.

Definition syn (n : Z) : packet :=
  {| timestamp := 0%Q; source_ip := Some "192.168.1.20"%string;
     dest_ip := Some "93.184.216.34"%string; protocol := Some "TCP"%string;
     source_port := Some 51234; dest_port := Some 443;
     packet_size := Some n; app_name := Some "curl"%string; pid := Some 900;
     dest_hostname := None; category := Some "Other"%string |}.

(** A running monitor with one record waiting in the batch buffer. *)
Definition one_buffered : monitor :=
  {| is_running := true;
     aggregator := fst (DataAggregator.add_packet
                          (DataAggregator.init 0 0) (syn 60) 0);
     db := NetworkDatabase.empty;
     batch_buffer := [syn 60] |}.

Lemma stop_flushes_batch_when_joined_witness :
  is_running one_buffered = true
  /\ batch_buffer (stop one_buffered (Joined [Packet (Some (syn 1500)) 0 true] true))
     = []
  /\ get_connection_count
       (db (stop one_buffered (Joined [Packet (Some (syn 1500)) 0 true] true)))
     = 2.
Proof.
  destruct (stop_flushes_batch_when_joined one_buffered
              [Packet (Some (syn 1500)) 0 true] eq_refl eq_refl)
    as (_ & Hbuf & rs & Hrs & Hdb).
  split; [reflexivity |]. split; [exact Hbuf |].
  unfold get_connection_count. rewrite Hdb, length_app.
  rewrite (to_rows_length _ _ _ Hrs). reflexivity.
Defined.

(** C7 as stated fails when the join times out: [stop] returns with the
    record still in the buffer and no row written. *)
Lemma stop_returns_unflushed_on_join_timeout :
  let m' := stop one_buffered JoinTimedOut in
  is_running m' = false
  /\ batch_buffer m' = [syn 60]
  /\ connections (db m') = [].
Proof. repeat split. Qed.

End MonitorFacts.

(** ** The store's top-applications query *)

Module DatabaseFacts.
Import NetworkDatabase.

Definition desc (x y : string * Z) : Prop := snd y <= snd x.

Definition keys (d : Py.counter) : list string := map fst d.

(** The bytes recorded under application [name]. *)
Definition bytes_of (name : string) (rows : list row) : Z :=
  fold_right
    (fun r acc =>
       match row_app_name r with
       | Some n => if String.eqb n name then row_packet_size r + acc else acc
       | None => acc
       end) 0 rows.

Definition sum_for (k : string) (cols : list (string * Z)) : Z :=
  fold_right
    (fun kv acc => if String.eqb (fst kv) k then snd kv + acc else acc) 0 cols.

Lemma In_insert_desc (x y : string * Z) (l : list (string * Z)) :
  In x (Py.insert_desc y l) <-> x = y \/ In x l.
Proof.
  induction l as [| z l IH]; simpl.
  - intuition.
  - destruct (snd y <? snd z); simpl; rewrite ?IH; intuition.
Qed.

Lemma In_sorted_desc (x : string * Z) (l : list (string * Z)) :
  In x (Py.sorted_desc l) <-> In x l.
Proof.
  induction l as [| y l IH]; simpl; [reflexivity |].
  rewrite In_insert_desc, IH. intuition.
Qed.

Lemma insert_desc_sorted (y : string * Z) (l : list (string * Z)) :
  StronglySorted desc l -> StronglySorted desc (Py.insert_desc y l).
Proof.
  induction l as [| z l IH]; intros Hs; simpl.
  - repeat constructor.
  - inversion Hs as [| ? ? Hl Hz]; subst.
    destruct (Z.ltb_spec (snd y) (snd z)).
    + constructor; [apply IH, Hl |].
      apply List.Forall_forall. intros x Hx. apply In_insert_desc in Hx.
      destruct Hx as [-> | Hx]; [unfold desc; lia |].
      rewrite List.Forall_forall in Hz. apply Hz, Hx.
    + constructor; [exact Hs |].
      constructor; [unfold desc; lia |].
      eapply List.Forall_impl; [| exact Hz].
      intros x Hx. unfold desc in *. lia.
Qed.

Lemma sorted_desc_sorted (l : list (string * Z)) :
  StronglySorted desc (Py.sorted_desc l).
Proof.
  induction l as [| y l IH]; simpl; [constructor |].
  apply insert_desc_sorted, IH.
Qed.

Lemma keys_insert_desc (y : string * Z) (l : list (string * Z)) :
  Permutation (Py.insert_desc y l) (y :: l).
Proof.
  induction l as [| z l IH]; simpl; [reflexivity |].
  destruct (snd y <? snd z); [| reflexivity].
  rewrite IH. apply perm_swap.
Qed.

Lemma sorted_desc_perm (l : list (string * Z)) :
  Permutation (Py.sorted_desc l) l.
Proof.
  induction l as [| y l IH]; simpl; [reflexivity |].
  rewrite keys_insert_desc, IH. reflexivity.
Qed.

Lemma take_sorted {A} (R : A -> A -> Prop) (n : nat) (l : list A) :
  StronglySorted R l -> StronglySorted R (take n l).
Proof.
  revert n. induction l as [| x l IH]; intros n Hs.
  - rewrite take_nil. constructor.
  - destruct n as [| n]; simpl; [constructor |].
    inversion Hs as [| ? ? Hl Hx]; subst.
    constructor; [apply IH, Hl |].
    apply Forall_take, Hx.
Qed.

Lemma In_take {A} (n : nat) (l : list A) (x : A) :
  In x (take n l) -> In x l.
Proof.
  revert n. induction l as [| y l IH]; intros [| n]; simpl; try tauto.
  intros [-> | H]; [left; reflexivity | right; exact (IH n H)].
Qed.

Lemma NoDup_take {A} (n : nat) (l : list A) : NoDup l -> NoDup (take n l).
Proof.
  revert n. induction l as [| y l IH]; intros [| n] H; simpl;
    try constructor.
  - inversion H as [| ? ? Hy Hl]; subst.
    intros Hin. apply Hy. apply list_elem_of_In.
    apply list_elem_of_In in Hin. exact (In_take n l y Hin).
  - inversion H; subst. apply IH. assumption.
Qed.

Lemma dict_get_add (d : Py.counter) (k k' : string) (v : Z) :
  Py.dict_get (Py.dict_add d k v) k'
  = if String.eqb k k' then Py.dict_get d k + v else Py.dict_get d k'.
Proof.
  induction d as [| [j x] d IH]; simpl.
  - destruct (String.eqb k k'); reflexivity.
  - destruct (String.eqb_spec j k) as [-> | Hjk]; simpl.
    + destruct (String.eqb k k'); reflexivity.
    + rewrite IH. destruct (String.eqb_spec k k') as [-> | Hkk'].
      * destruct (String.eqb_spec j k'); [contradiction | reflexivity].
      * reflexivity.
Qed.

Lemma keys_dict_add (d : Py.counter) (k k' : string) (v : Z) :
  In k' (keys (Py.dict_add d k v)) <-> k' = k \/ In k' (keys d).
Proof.
  induction d as [| [j x] d IH]; simpl.
  - intuition.
  - destruct (String.eqb_spec j k) as [-> | Hjk]; simpl.
    + intuition.
    + unfold keys in IH. rewrite IH. intuition.
Qed.

Lemma NoDup_dict_add (d : Py.counter) (k : string) (v : Z) :
  NoDup (keys d) -> NoDup (keys (Py.dict_add d k v)).
Proof.
  induction d as [| [j x] d IH]; simpl; intros H.
  - repeat constructor. intros Hin. inversion Hin.
  - inversion H as [| ? ? Hj Hd]; subst.
    destruct (String.eqb_spec j k) as [-> | Hjk]; simpl.
    + constructor; assumption.
    + constructor; [| apply IH, Hd].
      intros Hin. apply list_elem_of_In, keys_dict_add in Hin.
      destruct Hin as [-> | Hin]; [congruence |].
      apply Hj, list_elem_of_In, Hin.
Qed.

Lemma dict_get_In (d : Py.counter) (k : string) (v : Z) :
  NoDup (keys d) -> In (k, v) d -> Py.dict_get d k = v.
Proof.
  induction d as [| [j x] d IH]; simpl; intros H Hin; [contradiction |].
  inversion H as [| ? ? Hj Hd]; subst.
  destruct Hin as [[= -> ->] | Hin].
  - rewrite String.eqb_refl. reflexivity.
  - destruct (String.eqb_spec j k) as [-> | Hjk]; [| exact (IH Hd Hin)].
    exfalso. apply Hj, list_elem_of_In.
    change k with (fst (k, v)). apply in_map, Hin.
Qed.

(** The grouping loop, from any accumulator. *)
Lemma group_from (cols : list (string * Z)) :
  forall acc : Py.counter,
    let d := fold_left (fun a kv => Py.dict_add a (fst kv) (snd kv)) cols acc in
    (NoDup (keys acc) -> NoDup (keys d))
    /\ (forall k, Py.dict_get d k = Py.dict_get acc k + sum_for k cols)
    /\ (forall k, In k (keys d) -> In k (keys acc) \/ In k (keys cols)).
Proof.
  induction cols as [| [j x] cols IH]; intros acc; cbv zeta.
  - simpl. repeat split; auto. intros k. lia.
  - cbn [fold_left fst snd].
    destruct (IH (Py.dict_add acc j x)) as (H1 & H2 & H3). cbv zeta in *.
    split; [| split].
    + intros H. apply H1, NoDup_dict_add, H.
    + intros k. rewrite H2, dict_get_add. simpl.
      destruct (String.eqb_spec j k) as [-> | Hjk]; lia.
    + intros k Hk. destruct (H3 k Hk) as [Hin | Hin].
      * apply keys_dict_add in Hin. destruct Hin as [-> | Hin];
          [right; left; reflexivity | left; exact Hin].
      * right. right. exact Hin.
Qed.

Lemma known_apps_In (rows : list row) (name : string) (sz : Z) :
  In (name, sz) (known_apps rows) ->
  name <> "Unknown"%string
  /\ exists r, In r rows /\ row_app_name r = Some name.
Proof.
  induction rows as [| r rows IH]; simpl; [contradiction |].
  destruct (row_app_name r) as [n |] eqn:En.
  - destruct (String.eqb_spec n "Unknown") as [-> | Hn].
    + intros H. destruct (IH H) as (H1 & r' & H2 & H3).
      split; [exact H1 |]. exists r'. auto.
    + intros [[= -> _] | H].
      * split; [exact Hn |]. exists r. auto.
      * destruct (IH H) as (H1 & r' & H2 & H3).
        split; [exact H1 |]. exists r'. auto.
  - intros H. destruct (IH H) as (H1 & r' & H2 & H3).
    split; [exact H1 |]. exists r'. auto.
Qed.

Lemma known_apps_sum (rows : list row) (name : string) :
  name <> "Unknown"%string ->
  sum_for name (known_apps rows) = bytes_of name rows.
Proof.
  intros Hname. induction rows as [| r rows IH]; [reflexivity |].
  cbn [known_apps bytes_of fold_right]. fold (bytes_of name rows).
  destruct (row_app_name r) as [n |]; [| exact IH].
  destruct (String.eqb_spec n "Unknown") as [-> | Hn].
  - destruct (String.eqb_spec "Unknown" name); [congruence | exact IH].
  - cbn [sum_for fold_right fst snd]. fold (sum_for name (known_apps rows)).
    rewrite IH. reflexivity.
Qed.

(** C9.  Whatever the table holds, the rows returned by
    [get_top_apps_by_bandwidth] name applications that some stored row
    carries, never "Unknown" and never a null name, each once, with the sum
    of its packet sizes; they are in decreasing order of that sum; and for
    a limit [N >= 0] there are at most [N] of them. *)
Theorem top_apps_exclude_unknown (d : database) (limit : Z) :
  let res := get_top_apps_by_bandwidth d limit in
  (forall name total,
      In (name, total) res ->
      name <> "Unknown"%string
      /\ (exists r, In r (connections d) /\ row_app_name r = Some name)
      /\ total = bytes_of name (connections d))
  /\ StronglySorted desc res
  /\ NoDup (keys res)
  /\ (0 <= limit -> (length res <= Z.to_nat limit)%nat).
Proof.
  cbv zeta. unfold get_top_apps_by_bandwidth, group_sum.
  set (cols := known_apps (connections d)).
  destruct (group_from cols []) as (Hnd & Hget & Hkeys). cbv zeta in *.
  set (g := fold_left (fun a kv => Py.dict_add a (fst kv) (snd kv)) cols [])
    in *.
  assert (Hg : NoDup (keys g)) by (apply Hnd; constructor).
  assert (Hsub : forall x, In x (sql_limit limit (Py.sorted_desc g)) -> In x g).
  { intros x Hx. apply In_sorted_desc. unfold sql_limit in Hx.
    destruct (limit <? 0); [exact Hx | exact (In_take _ _ _ Hx)]. }
  split; [| split; [| split]].
  - intros name total Hin. apply Hsub in Hin.
    assert (Hk : In name (keys cols)).
    { destruct (Hkeys name) as [[] | Hk]; [| exact Hk].
      change name with (fst (name, total)). apply in_map, Hin. }
    unfold keys in Hk. apply in_map_iff in Hk.
    destruct Hk as ([n sz] & Hn & Hcol). simpl in Hn. subst n.
    destruct (known_apps_In _ _ _ Hcol) as [Hname Hrow].
    split; [exact Hname |]. split; [exact Hrow |].
    rewrite <- (dict_get_In g name total Hg Hin), Hget. simpl.
    apply known_apps_sum, Hname.
  - unfold sql_limit. destruct (limit <? 0).
    + apply sorted_desc_sorted.
    + apply take_sorted, sorted_desc_sorted.
  - assert (Hs : NoDup (keys (Py.sorted_desc g))).
    { unfold keys. rewrite (sorted_desc_perm g). exact Hg. }
    unfold sql_limit. destruct (limit <? 0); [exact Hs |].
    unfold keys in *. rewrite <- List.firstn_map. apply NoDup_take, Hs.
  - intros Hl. unfold sql_limit.
    destruct (Z.ltb_spec limit 0); [lia |].
    rewrite length_take. lia.
Qed.

Definition sent_by (name : option string) (size : Z) : packet :=
  {| timestamp := 0%Q; source_ip := Some "192.168.1.20"%string;
     dest_ip := Some "93.184.216.34"%string; protocol := Some "TCP"%string;
     source_port := Some 51234; dest_port := Some 443;
     packet_size := Some size; app_name := name; pid := None;
     dest_hostname := None; category := None |}.

(** Four stored records: two of Chrome, one of Spotify, and a larger one
    whose application was not resolved. *)
Definition four_rows : database :=
  match insert_batch empty
          [ sent_by (Some "Chrome"%string) 100; sent_by None 5000;
            sent_by (Some "Spotify"%string) 300;
            sent_by (Some "Chrome"%string) 250 ] true with
  | Py.Return d => d
  | Py.Raise _ => empty
  end.

Lemma top_apps_exclude_unknown_witness :
  0 <= 1
  /\ get_top_apps_by_bandwidth four_rows 1 = [("Chrome"%string, 350)]
  /\ get_top_apps_by_bandwidth four_rows 5
     = [("Chrome"%string, 350); ("Spotify"%string, 300)]
  /\ (length (get_top_apps_by_bandwidth four_rows 1) <= 1)%nat.
Proof.
  assert (H01 : 0 <= 1) by lia.
  destruct (top_apps_exclude_unknown four_rows 1) as (_ & _ & _ & Hlen).
  split; [exact H01 |]. split; [reflexivity |]. split; [reflexivity |].
  exact (Hlen H01).
Defined.

End DatabaseFacts.

(** * Further properties *)

(** ** The aggregator's rings, counters and rate sampling *)

Module AggregatorMore.
Import DataAggregator AggregatorFacts.

Lemma lastn_lastn {A} (n m : nat) (l : list A) :
  Py.lastn n (Py.lastn m l) = Py.lastn (Nat.min n m) l.
Proof.
  unfold Py.lastn. rewrite length_drop, drop_drop. f_equal. lia.
Qed.

Lemma deque_append_lastn {A} (n : nat) (q : list A) (x : A) :
  (length q <= n)%nat -> Py.deque_append n q x = Py.lastn n (q ++ [x]).
Proof.
  intros H. unfold Py.deque_append. destruct n as [| n].
  - unfold Py.lastn. rewrite drop_ge; [reflexivity | lia].
  - destruct (Nat.ltb_spec (length q) (S n)).
    + symmetry. apply PyFacts.lastn_all. rewrite length_app. simpl. lia.
    + symmetry. apply PyFacts.lastn_snoc_full; lia.
Qed.

Lemma deque_append_length {A} (n : nat) (q : list A) (x : A) :
  (length q <= n)%nat -> (length (Py.deque_append n q x) <= n)%nat.
Proof.
  intros H. rewrite deque_append_lastn by assumption.
  rewrite PyFacts.lastn_length. lia.
Qed.

(** The exception met by the rate computation of a call that leaves [a'],
    if any, in the order in which the conversions and the division are
    made. *)
Definition rate_error (a : aggregator) (p : packet) (now : Q) (a' : aggregator)
  : option exn :=
  if negb (fits_float (bytes_since_last_calc a + size_of p))
  then Some OverflowError
  else if negb (fits_float (total_upload a')) then Some OverflowError
  else if Qeq_bool (now - start_time a) 0 then Some ZeroDivisionError
  else if negb (fits_float (total_download a')) then Some OverflowError
  else None.

(** The ways a call can end, with what each leaves in the rate fields. *)
Inductive sampled (a : aggregator) (p : packet) (now : Q) (a' : aggregator)
  : Py.result exn unit -> Prop :=
| too_early :
    Qle_bool rate_threshold (now - last_rate_calc a) = false ->
    bandwidth_history a' = bandwidth_history a ->
    last_rate_calc a' = last_rate_calc a ->
    bytes_since_last_calc a' = bytes_since_last_calc a + size_of p ->
    sampled a p now a' (Py.Return tt)
| rate_failed (e : exn) :
    Qle_bool rate_threshold (now - last_rate_calc a) = true ->
    rate_error a p now a' = Some e ->
    bandwidth_history a' = bandwidth_history a ->
    last_rate_calc a' = last_rate_calc a ->
    bytes_since_last_calc a' = bytes_since_last_calc a + size_of p ->
    sampled a p now a' (Py.Raise e)
| new_sample (s : sample) :
    Qle_bool rate_threshold (now - last_rate_calc a) = true ->
    rate_error a p now a' = None ->
    sample_timestamp s = now ->
    bandwidth_history a' = Py.deque_append 100 (bandwidth_history a) s ->
    last_rate_calc a' = now ->
    bytes_since_last_calc a' = 0 ->
    sampled a p now a' (Py.Return tt).

Lemma add_packet_sampled (a : aggregator) (p : packet) (now : Q) :
  sampled a p now (fst (add_packet a p now)) (snd (add_packet a p now)).
Proof.
  unfold add_packet. fold (size_of p).
  destruct (_is_outgoing (local_ips a) (default ""%string (source_ip p)))
    as [out ips].
  destruct (Qle_bool rate_threshold (now - last_rate_calc a)) eqn:E1;
    [| apply too_early; auto].
  destruct (fits_float (bytes_since_last_calc a + size_of p)) eqn:Eb;
    cbn [negb].
  2: { apply rate_failed; auto. unfold rate_error. rewrite Eb. reflexivity. }
  destruct (fits_float (if out then total_upload a + size_of p
                        else total_upload a)) eqn:Eu; cbn [negb].
  2: { apply rate_failed; auto. unfold rate_error. cbn [fst total_upload].
       rewrite Eb, Eu. reflexivity. }
  destruct (Qeq_bool (now - start_time a) 0) eqn:E2.
  { apply rate_failed; auto. unfold rate_error. cbn [fst total_upload].
    rewrite Eb, Eu, E2. reflexivity. }
  destruct (fits_float (if out then total_download a
                        else total_download a + size_of p)) eqn:Ed; cbn [negb].
  2: { apply rate_failed; auto. unfold rate_error.
       cbn [fst total_upload total_download].
       rewrite Eb, Eu, E2, Ed. reflexivity. }
  eapply new_sample; auto; [| reflexivity].
  unfold rate_error. cbn [fst total_upload total_download].
  rewrite Eb, Eu, E2, Ed. reflexivity.
Qed.

Lemma add_packet_rings (a : aggregator) (p : packet) (now : Q) :
  let a' := fst (add_packet a p now) in
  recent_packets a'
    = Py.deque_append Config.MAX_RECENT_PACKETS (recent_packets a) p
  /\ app_packet_count a'
     = Py.dict_add (app_packet_count a)
         (default "Unknown"%string (app_name p)) 1
  /\ start_time a' = start_time a.
Proof.
  unfold add_packet.
  destruct (_is_outgoing (local_ips a) (default ""%string (source_ip p)))
    as [out ips].
  destruct (Qle_bool rate_threshold (now - last_rate_calc a));
    [destruct (fits_float _); cbn [negb];
     [destruct (fits_float _); cbn [negb];
      [destruct (Qeq_bool (now - start_time a) 0);
       [| destruct (fits_float _); cbn [negb]] |] |] |];
    repeat split; reflexivity.
Qed.

Lemma add_packets_snoc (a : aggregator) (ps : list (packet * Q)) p t :
  add_packets a (ps ++ [(p, t)]) = fst (add_packet (add_packets a ps) p t).
Proof. unfold add_packets. rewrite fold_left_app. reflexivity. Qed.

Lemma recent_ring (ps : list (packet * Q)) (a : aggregator) :
  (length (recent_packets a) <= Config.MAX_RECENT_PACKETS)%nat ->
  recent_packets (add_packets a ps)
  = Py.lastn Config.MAX_RECENT_PACKETS (recent_packets a ++ map fst ps).
Proof.
  induction ps as [| [p t] ps IH] using rev_ind; intros Ha.
  - simpl. rewrite app_nil_r. symmetry. apply PyFacts.lastn_all, Ha.
  - rewrite add_packets_snoc.
    destruct (add_packet_rings (add_packets a ps) p t) as (Hr & _).
    cbv zeta in Hr. rewrite Hr, (IH Ha).
    rewrite deque_append_lastn by (rewrite PyFacts.lastn_length; lia).
    rewrite PyFacts.lastn_app_lastn, map_app, app_assoc. reflexivity.
Qed.

(** X1.  On a fresh aggregator the ring of recent packets holds the last
    [MAX_RECENT_PACKETS] packets recorded, oldest first, and
    [get_recent_packets] with a positive limit returns the last [limit] of
    them, never more than the ring holds. *)
Theorem recent_packets_are_the_latest
    (t_rate t_start : Q) (ps : list (packet * Q)) (limit : Z) :
  0 < limit ->
  let a := add_packets (init t_rate t_start) ps in
  recent_packets a = Py.lastn Config.MAX_RECENT_PACKETS (map fst ps)
  /\ get_recent_packets a limit
     = Py.lastn (Nat.min (Z.to_nat limit) Config.MAX_RECENT_PACKETS)
         (map fst ps).
Proof.
  intros Hl. cbv zeta.
  pose proof (recent_ring ps (init t_rate t_start) (Nat.le_0_l _)) as Hr.
  change (recent_packets (init t_rate t_start)) with (@nil packet) in Hr.
  rewrite app_nil_l in Hr.
  split; [exact Hr |].
  unfold get_recent_packets. rewrite <- lastn_lastn, <- Hr.
  set (r := recent_packets _).
  destruct (Z.ltb_spec limit (Z.of_nat (length r))).
  - unfold Py.slice_from. destruct (Z.leb_spec 0 (- limit)); [lia |].
    rewrite Z.opp_involutive. reflexivity.
  - symmetry. apply PyFacts.lastn_all. lia.
Qed.

Definition numbered (n : Z) : packet * Q :=
  ({| timestamp := 0%Q; source_ip := Some "192.168.1.20"%string;
      dest_ip := Some "93.184.216.34"%string; protocol := Some "TCP"%string;
      source_port := Some n; dest_port := Some 443;
      packet_size := Some n; app_name := Some "curl"%string; pid := None;
      dest_hostname := None; category := Some "Other"%string |}, 0%Q).

Lemma recent_packets_are_the_latest_witness :
  0 < 2
  /\ map source_port
       (get_recent_packets
          (add_packets (init 0 0) [numbered 1; numbered 2; numbered 3]) 2)
     = [Some 2; Some 3].
Proof.
  assert (H : 0 < 2) by lia.
  split; [exact H |].
  rewrite (proj2 (recent_packets_are_the_latest 0 0
                    [numbered 1; numbered 2; numbered 3] 2 H)).
  reflexivity.
Defined.

Lemma nonpositive_limit_drops (a : aggregator) (limit : Z) :
  limit <= 0 ->
  get_recent_packets a limit = drop (Z.to_nat (- limit)) (recent_packets a).
Proof.
  intros Hl. unfold get_recent_packets.
  destruct (Z.ltb_spec limit (Z.of_nat (length (recent_packets a)))).
  - unfold Py.slice_from. destruct (Z.leb_spec 0 (- limit)); [| lia].
    reflexivity.
  - assert (limit = 0) as -> by lia.
    assert (length (recent_packets a) = 0%nat) as E by lia.
    destruct (recent_packets a); [reflexivity | discriminate].
Qed.

(** X2.  On a fresh aggregator, [get_recent_packets] with a limit of zero
    or below returns neither nothing nor the last [-limit] packets: it
    returns the ring without its [-limit] oldest packets.  That is the
    whole ring, up to [MAX_RECENT_PACKETS] packets, for a limit of 0, and
    the empty list exactly when [-limit] reaches the number of packets in
    the ring. *)
Theorem recent_packets_nonpositive_limit
    (t_rate t_start : Q) (ps : list (packet * Q)) (limit : Z) :
  limit <= 0 ->
  let a := add_packets (init t_rate t_start) ps in
  let ring := Py.lastn Config.MAX_RECENT_PACKETS (map fst ps) in
  get_recent_packets a limit = drop (Z.to_nat (- limit)) ring
  /\ length (get_recent_packets a limit)
     = (Nat.min (length ps) Config.MAX_RECENT_PACKETS
        - Z.to_nat (- limit))%nat
  /\ (limit = 0 -> get_recent_packets a limit = ring)
  /\ (get_recent_packets a limit = []
      <-> (Nat.min (length ps) Config.MAX_RECENT_PACKETS
           <= Z.to_nat (- limit))%nat).
Proof.
  intros Hl. cbv zeta.
  pose proof (recent_ring ps (init t_rate t_start) (Nat.le_0_l _)) as Hr.
  change (recent_packets (init t_rate t_start)) with (@nil packet) in Hr.
  rewrite app_nil_l in Hr.
  rewrite (nonpositive_limit_drops _ limit Hl), Hr.
  assert (Hlen : length (drop (Z.to_nat (- limit))
                           (Py.lastn Config.MAX_RECENT_PACKETS (map fst ps)))
                 = (Nat.min (length ps) Config.MAX_RECENT_PACKETS
                    - Z.to_nat (- limit))%nat).
  { rewrite length_drop, PyFacts.lastn_length, length_map. lia. }
  split; [reflexivity |]. split; [exact Hlen |]. split.
  - intros ->. reflexivity.
  - split.
    + intros E. rewrite E in Hlen. simpl in Hlen. lia.
    + intros H. apply length_zero_iff_nil. rewrite Hlen. lia.
Qed.

Lemma recent_packets_nonpositive_limit_witness :
  -1 <= 0
  /\ map source_port
       (get_recent_packets
          (add_packets (init 0 0) [numbered 1; numbered 2; numbered 3]) (-1))
     = [Some 2; Some 3]
  /\ length
       (get_recent_packets
          (add_packets (init 0 0) [numbered 1; numbered 2; numbered 3]) 0)
     = 3%nat.
Proof.
  assert (H : -1 <= 0) by lia.
  assert (H0 : 0 <= 0) by lia.
  split; [exact H |]. split.
  - rewrite (proj1 (recent_packets_nonpositive_limit 0 0
                      [numbered 1; numbered 2; numbered 3] (-1) H)).
    reflexivity.
  - rewrite (proj1 (proj2 (recent_packets_nonpositive_limit 0 0
                             [numbered 1; numbered 2; numbered 3] 0 H0))).
    reflexivity.
Defined.

Lemma sum_values_perm (d d' : Py.counter) :
  Permutation d d' -> Py.sum_values d = Py.sum_values d'.
Proof.
  unfold Py.sum_values.
  induction 1; simpl; lia.
Qed.

Lemma add_packet_totals_run (ps : list (packet * Q)) (a : aggregator) :
  Py.sum_values (category_bandwidth (add_packets a ps))
  = Py.sum_values (category_bandwidth a) + total_size ps.
Proof.
  revert a. induction ps as [| [p t] ps IH]; intros a.
  - simpl. lia.
  - destruct (add_packet_totals a p t) as (_ & _ & Hc). cbv zeta in Hc.
    unfold add_packets in *. cbn [fold_left fst snd total_size fold_right].
    rewrite IH, Hc. fold (total_size ps). lia.
Qed.

(** Bytes and packets recorded under one application name. *)
Definition bytes_for (name : string) (ps : list (packet * Q)) : Z :=
  fold_right
    (fun pt acc =>
       if String.eqb (default "Unknown"%string (app_name (fst pt))) name
       then size_of (fst pt) + acc else acc) 0 ps.

Definition packets_for (name : string) (ps : list (packet * Q)) : Z :=
  fold_right
    (fun pt acc =>
       if String.eqb (default "Unknown"%string (app_name (fst pt))) name
       then 1 + acc else acc) 0 ps.

Definition category_total (cat : string) (ps : list (packet * Q)) : Z :=
  fold_right
    (fun pt acc =>
       if String.eqb (default "Other"%string (category (fst pt))) cat
       then size_of (fst pt) + acc else acc) 0 ps.

Lemma per_key_totals (ps : list (packet * Q)) (a : aggregator) :
  let a' := add_packets a ps in
  (forall name, Py.dict_get (app_bandwidth a') name
                = Py.dict_get (app_bandwidth a) name + bytes_for name ps)
  /\ (forall name, Py.dict_get (app_packet_count a') name
                   = Py.dict_get (app_packet_count a) name
                     + packets_for name ps)
  /\ (forall cat, Py.dict_get (category_bandwidth a') cat
                  = Py.dict_get (category_bandwidth a) cat
                    + category_total cat ps)
  /\ (NoDup (DatabaseFacts.keys (app_bandwidth a)) ->
      NoDup (DatabaseFacts.keys (app_bandwidth a')))
  /\ (NoDup (DatabaseFacts.keys (category_bandwidth a)) ->
      NoDup (DatabaseFacts.keys (category_bandwidth a')))
  /\ Py.sum_values (app_packet_count a')
     = Py.sum_values (app_packet_count a) + Z.of_nat (length ps).
Proof.
  revert a. induction ps as [| [p t] ps IH]; intros a; cbv zeta.
  - simpl. repeat split; intros; auto; lia.
  - destruct (IH (fst (add_packet a p t))) as (H1 & H2 & H3 & H4 & H5 & H6).
    destruct (add_packet_counters a p t) as (_ & _ & Ha & Hc & _).
    destruct (add_packet_rings a p t) as (_ & Hn & _).
    cbv zeta in *. unfold add_packets in *.
    cbn [fold_left fst snd bytes_for packets_for category_total fold_right
         length].
    fold (bytes_for) (packets_for) (category_total).
    split; [| split; [| split; [| split; [| split]]]].
    + intros name. rewrite H1, Ha, DatabaseFacts.dict_get_add.
      destruct (String.eqb_spec (default "Unknown"%string (app_name p)) name)
        as [-> | Hne]; unfold bytes_for; lia.
    + intros name. rewrite H2, Hn, DatabaseFacts.dict_get_add.
      destruct (String.eqb_spec (default "Unknown"%string (app_name p)) name)
        as [-> | Hne]; unfold packets_for; lia.
    + intros cat. rewrite H3, Hc, DatabaseFacts.dict_get_add.
      destruct (String.eqb_spec (default "Other"%string (category p)) cat)
        as [-> | Hne]; unfold category_total; lia.
    + intros H. apply H4. rewrite Ha. apply DatabaseFacts.NoDup_dict_add, H.
    + intros H. apply H5. rewrite Hc. apply DatabaseFacts.NoDup_dict_add, H.
    + rewrite H6, Hn, sum_values_dict_add. lia.
Qed.

(** X3.  On a fresh aggregator, after any run of [add_packet] calls,
    [get_app_details] reports for every application the bytes and the
    number of packets recorded under its name (packets without ['app_name']
    count for "Unknown"), both 0 for a name never seen; the packet counts of
    all applications sum to the number of calls. *)
Theorem app_details_match_history
    (t_rate t_start : Q) (ps : list (packet * Q)) (name : string) :
  let a := add_packets (init t_rate t_start) ps in
  get_app_details a name = (name, bytes_for name ps, packets_for name ps)
  /\ Py.sum_values (app_packet_count a) = Z.of_nat (length ps)
  /\ total_packets a = Z.of_nat (length ps).
Proof.
  cbv zeta.
  destruct (per_key_totals ps (init t_rate t_start))
    as (H1 & H2 & _ & _ & _ & H6).
  destruct (add_packets_totals ps (init t_rate t_start)) as (_ & _ & H7).
  cbv zeta in *. unfold get_app_details. rewrite H1, H2, H6, H7.
  simpl. repeat split; lia.
Qed.

(** X4.  On a fresh aggregator, [get_top_apps] and
    [get_bandwidth_by_category] list each name once with exactly the bytes
    recorded under it, in decreasing order of bytes; with a limit
    [n >= 0] at most [n] applications are returned, and the category totals
    add up to all the bytes recorded. *)
Theorem top_apps_and_categories_match_history
    (t_rate t_start : Q) (ps : list (packet * Q)) (limit : Z) :
  let a := add_packets (init t_rate t_start) ps in
  (forall name total, In (name, total) (get_top_apps a limit) ->
                      total = bytes_for name ps)
  /\ (forall cat total, In (cat, total) (get_bandwidth_by_category a) ->
                        total = category_total cat ps)
  /\ StronglySorted DatabaseFacts.desc (get_bandwidth_by_category a)
  /\ NoDup (DatabaseFacts.keys (get_bandwidth_by_category a))
  /\ Py.sum_values (get_bandwidth_by_category a) = total_size ps
  /\ (0 <= limit ->
      StronglySorted DatabaseFacts.desc (get_top_apps a limit)
      /\ NoDup (DatabaseFacts.keys (get_top_apps a limit))
      /\ (length (get_top_apps a limit) <= Z.to_nat limit)%nat).
Proof.
  cbv zeta.
  destruct (per_key_totals ps (init t_rate t_start))
    as (H1 & _ & H3 & H4 & H5 & _).
  pose proof (add_packet_totals_run ps (init t_rate t_start)) as Hcat.
  cbv zeta in *.
  set (a := add_packets (init t_rate t_start) ps) in *.
  assert (Ha : NoDup (DatabaseFacts.keys (app_bandwidth a)))
    by (apply H4; constructor).
  assert (Hc : NoDup (DatabaseFacts.keys (category_bandwidth a)))
    by (apply H5; constructor).
  assert (Hcs : NoDup (DatabaseFacts.keys (Py.sorted_desc (category_bandwidth a)))).
  { unfold DatabaseFacts.keys.
    rewrite (DatabaseFacts.sorted_desc_perm (category_bandwidth a)). exact Hc. }
  assert (Has : NoDup (DatabaseFacts.keys (Py.sorted_desc (app_bandwidth a)))).
  { unfold DatabaseFacts.keys.
    rewrite (DatabaseFacts.sorted_desc_perm (app_bandwidth a)). exact Ha. }
  split; [| split; [| split; [| split; [| split]]]].
  - intros name total Hin. unfold get_top_apps, Py.slice_to in Hin.
    assert (Hin' : In (name, total) (app_bandwidth a)).
    { apply DatabaseFacts.In_sorted_desc.
      destruct (0 <=? limit); exact (DatabaseFacts.In_take _ _ _ Hin). }
    rewrite <- (DatabaseFacts.dict_get_In _ _ _ Ha Hin'), H1. reflexivity.
  - intros cat total Hin. unfold get_bandwidth_by_category in Hin.
    apply (proj1 (DatabaseFacts.In_sorted_desc _ _)) in Hin.
    rewrite <- (DatabaseFacts.dict_get_In _ _ _ Hc Hin), H3. reflexivity.
  - apply DatabaseFacts.sorted_desc_sorted.
  - exact Hcs.
  - unfold get_bandwidth_by_category.
    rewrite (sum_values_perm _ _ (DatabaseFacts.sorted_desc_perm _)).
    rewrite Hcat. reflexivity.
  - intros Hl. unfold get_top_apps, Py.slice_to.
    destruct (Z.leb_spec 0 limit); [| lia].
    split; [| split].
    + apply DatabaseFacts.take_sorted, DatabaseFacts.sorted_desc_sorted.
    + unfold DatabaseFacts.keys in *. rewrite <- List.firstn_map.
      apply DatabaseFacts.NoDup_take, Has.
    + rewrite length_take. lia.
Qed.

Lemma top_apps_and_categories_match_history_witness :
  0 <= 1
  /\ (length (get_top_apps
               (add_packets (init 0 0) [numbered 1; numbered 2; numbered 3]) 1)
      <= 1)%nat
  /\ get_top_apps
       (add_packets (init 0 0) [numbered 1; numbered 2; numbered 3]) 1
     = [("curl"%string, 6)].
Proof.
  assert (H : 0 <= 1) by lia.
  destruct (top_apps_and_categories_match_history 0 0
              [numbered 1; numbered 2; numbered 3] 1)
    as (_ & _ & _ & _ & _ & Hlim).
  split; [exact H |]. split; [exact (proj2 (proj2 (Hlim H))) | reflexivity].
Defined.

(** The test made by [_is_outgoing] on an address never seen before. *)
Definition prefix_local (ip : string) : bool :=
  Py.startswith ip "192.168." || Py.startswith ip "10."
  || Py.startswith ip "172.".

Definition all_prefixed (ips : gset string) : Prop :=
  forall ip, ip ∈ ips -> prefix_local ip = true.

Definition source_of (p : packet) : string := default ""%string (source_ip p).

Definition upload_of (ps : list (packet * Q)) : Z :=
  fold_right
    (fun pt acc =>
       if prefix_local (source_of (fst pt)) then size_of (fst pt) + acc
       else acc) 0 ps.

Definition download_of (ps : list (packet * Q)) : Z :=
  fold_right
    (fun pt acc =>
       if prefix_local (source_of (fst pt)) then acc
       else size_of (fst pt) + acc) 0 ps.

Lemma is_outgoing_prefixed (ips : gset string) (ip : string) :
  all_prefixed ips ->
  fst (_is_outgoing ips ip) = prefix_local ip
  /\ all_prefixed (snd (_is_outgoing ips ip)).
Proof.
  intros H. unfold _is_outgoing. fold (prefix_local ip).
  case_bool_decide as Hin; simpl.
  - split; [symmetry; apply H, Hin | exact H].
  - destruct (prefix_local ip) eqn:E; simpl; split; try reflexivity;
      try exact H.
    intros ip' Hip'. apply elem_of_union in Hip'.
    destruct Hip' as [Hip' | Hip']; [| apply H, Hip'].
    apply elem_of_singleton in Hip'. subst ip'. exact E.
Qed.

Lemma classification_run (ps : list (packet * Q)) (a : aggregator) :
  all_prefixed (local_ips a) ->
  let a' := add_packets a ps in
  total_upload a' = total_upload a + upload_of ps
  /\ total_download a' = total_download a + download_of ps
  /\ all_prefixed (local_ips a').
Proof.
  revert a. induction ps as [| [p t] ps IH]; intros a Ha; cbv zeta.
  - simpl. repeat split; try lia. exact Ha.
  - destruct (add_packet_counters a p t) as (Hu & Hd & _ & _ & _ & Hl).
    cbv zeta in Hu, Hd, Hl.
    destruct (is_outgoing_prefixed (local_ips a) (source_of p) Ha)
      as [Hout Hips].
    unfold source_of in Hout, Hips.
    rewrite Hout in Hu, Hd. rewrite <- Hl in Hips.
    destruct (IH _ Hips) as (H1 & H2 & H3). cbv zeta in H1, H2, H3.
    unfold add_packets in *.
    cbn [fold_left fst snd upload_of download_of fold_right].
    fold (upload_of ps) (download_of ps).
    rewrite H1, H2, Hu, Hd. unfold source_of.
    destruct (prefix_local (default ""%string (source_ip p)));
      repeat split; try lia; exact H3.
Qed.

(** X5.  On a fresh aggregator the direction of a packet depends on its own
    source address only, not on the packets recorded before it: the upload
    total is the sum of the sizes of the packets whose source starts with
    "192.168.", "10." or "172.", the download total is the sum of the
    others (a packet without source address among them), and the set of
    confirmed-local addresses never holds an address without such a
    prefix. *)
Theorem direction_depends_on_prefix_only
    (t_rate t_start : Q) (ps : list (packet * Q)) :
  let a := add_packets (init t_rate t_start) ps in
  total_upload a = upload_of ps
  /\ total_download a = download_of ps
  /\ (forall ip, ip ∈ local_ips a -> prefix_local ip = true)
  /\ (forall ip, fst (_is_outgoing (local_ips a) ip) = prefix_local ip).
Proof.
  cbv zeta.
  assert (H0 : all_prefixed (local_ips (init t_rate t_start))).
  { intros ip Hip. simpl in Hip. set_solver. }
  destruct (classification_run ps _ H0) as (H1 & H2 & H3). cbv zeta in *.
  change (total_upload (init t_rate t_start)) with 0 in H1.
  change (total_download (init t_rate t_start)) with 0 in H2.
  split; [lia |]. split; [lia |]. split; [exact H3 |].
  intros ip. apply is_outgoing_prefixed, H3.
Qed.

Lemma direction_depends_on_prefix_only_witness :
  "192.168.1.20"%string ∈ local_ips (add_packets (init 0 0) [numbered 7])
  /\ prefix_local "192.168.1.20" = true
  /\ total_upload (add_packets (init 0 0) [numbered 7]) = 7.
Proof.
  assert (Hin : "192.168.1.20"%string
                ∈ local_ips (add_packets (init 0 0) [numbered 7])).
  { apply elem_of_union_l, elem_of_singleton. reflexivity. }
  destruct (direction_depends_on_prefix_only 0 0 [numbered 7])
    as (Hup & _ & Hlocal & _).
  split; [exact Hin |]. split; [exact (Hlocal _ Hin) | exact Hup].
Defined.

(** The outcomes of the calls of a run, in order. *)
Fixpoint outcomes (a : aggregator) (ps : list (packet * Q))
  : list (Py.result exn unit) :=
  match ps with
  | [] => []
  | (p, t) :: rest =>
      snd (add_packet a p t) :: outcomes (fst (add_packet a p t)) rest
  end.

Lemma fits_float_bounds (n : Z) : 0 <= n < float_limit -> fits_float n = true.
Proof.
  intros H. unfold fits_float. apply Z.ltb_lt. rewrite Z.abs_eq; lia.
Qed.

Lemma float_limit_pos : 0 < float_limit.
Proof. reflexivity. Qed.

Lemma rate_threshold_pos : (0 < rate_threshold)%Q.
Proof. reflexivity. Qed.

(** X6.  [add_packet] raises [ZeroDivisionError] exactly when a rate sample
    is due (the time since the last sample reads at least 1.0 as a double,
    that is, the exact difference is at least 1 - 2^-54), the clock reads
    the start time, and the byte count and the upload total convert to a
    float ([OverflowError] comes first otherwise).  Whatever the call
    raises, it raises only when a sample is due; the packet is then already
    counted, no sample is added and the sampling clock is not moved.  The
    division by zero happens for a packet recorded at the clock reading of a
    [reset_stats] made when a sample was due. *)
Theorem add_packet_raises_iff (a : aggregator) (p : packet) (now : Q) :
  let a' := fst (add_packet a p now) in
  (snd (add_packet a p now) = Py.Raise ZeroDivisionError
   <-> (rate_threshold <= now - last_rate_calc a)%Q
       /\ (now == start_time a)%Q
       /\ fits_float (bytes_since_last_calc a + size_of p) = true
       /\ fits_float (total_upload a') = true)
  /\ (forall e,
        snd (add_packet a p now) = Py.Raise e ->
        (rate_threshold <= now - last_rate_calc a)%Q
        /\ total_packets a' = total_packets a + 1
        /\ bandwidth_history a' = bandwidth_history a
        /\ last_rate_calc a' = last_rate_calc a)
  /\ ((rate_threshold <= now - last_rate_calc a)%Q ->
      fits_float (size_of p) = true ->
      snd (add_packet (reset_stats a now) p now) = Py.Raise ZeroDivisionError
      /\ total_packets (fst (add_packet (reset_stats a now) p now)) = 1).
Proof.
  cbv zeta.
  assert (Hiff : forall a0,
             snd (add_packet a0 p now) = Py.Raise ZeroDivisionError
             <-> (rate_threshold <= now - last_rate_calc a0)%Q
                 /\ (now == start_time a0)%Q
                 /\ fits_float (bytes_since_last_calc a0 + size_of p) = true
                 /\ fits_float (total_upload (fst (add_packet a0 p now)))
                    = true).
  { intros a0. destruct (add_packet_sampled a0 p now) as
        [H1 _ _ _ | e H1 He _ _ _ | s H1 He _ _ _ _].
    - split; [discriminate |]. intros [H _].
      apply Qle_bool_iff in H. congruence.
    - apply Qle_bool_iff in H1. unfold rate_error in He.
      destruct (fits_float (bytes_since_last_calc a0 + size_of p));
        cbn [negb] in He.
      2: { injection He as <-.
           split; [discriminate | intros (_ & _ & H & _); discriminate]. }
      destruct (fits_float (total_upload (fst (add_packet a0 p now))));
        cbn [negb] in He.
      2: { injection He as <-.
           split; [discriminate | intros (_ & _ & _ & H); discriminate]. }
      destruct (Qeq_bool (now - start_time a0) 0) eqn:E2.
      + injection He as <-. apply Qeq_bool_iff in E2.
        split; [intros _ | reflexivity].
        split; [exact H1 |]. split; [lra | split; reflexivity].
      + destruct (fits_float (total_download (fst (add_packet a0 p now))));
          cbn [negb] in He; [discriminate |].
        injection He as <-. split; [discriminate |].
        intros (_ & Hz & _).
        assert (E : Qeq_bool (now - start_time a0) 0 = true)
          by (apply Qeq_bool_iff; lra).
        congruence.
    - split; [discriminate |]. intros (_ & Hz & Hb & Hu).
      unfold rate_error in He. rewrite Hb, Hu in He. cbn [negb] in He.
      assert (E : Qeq_bool (now - start_time a0) 0 = true)
        by (apply Qeq_bool_iff; lra).
      rewrite E in He. discriminate. }
  split; [apply Hiff |]. split.
  - intros e Hr.
    destruct (add_packet_counters a p now) as (_ & _ & _ & _ & Hn & _).
    destruct (add_packet_sampled a p now) as
        [_ _ _ _ | e' H1 _ Hh Hl _ | s _ _ _ _ _ _]; try discriminate.
    apply Qle_bool_iff in H1. auto.
  - intros H1 Hfit.
    destruct (add_packet_counters (reset_stats a now) p now)
      as (Hu & _ & _ & _ & Hn & _).
    cbv zeta in Hu, Hn.
    split; [| exact Hn].
    apply Hiff. cbn [reset_stats last_rate_calc start_time bytes_since_last_calc].
    split; [exact H1 |]. split; [reflexivity |].
    split; [rewrite Z.add_0_l; exact Hfit |].
    rewrite Hu. cbn [reset_stats total_upload].
    destruct (fst (_is_outgoing _ _)); [rewrite Z.add_0_l; exact Hfit |].
    apply fits_float_bounds. split; [lia | exact float_limit_pos].
Qed.

Lemma add_packet_raises_iff_witness :
  (rate_threshold <= 9 - 5)%Q
  /\ fits_float (size_of (from_ip "8.8.8.8" 64)) = true
  /\ snd (add_packet (reset_stats (init 5 5) 9) (from_ip "8.8.8.8" 64) 9)
     = Py.Raise ZeroDivisionError.
Proof.
  assert (H : (rate_threshold <= 9 - 5)%Q) by (vm_compute; discriminate).
  assert (Hfit : fits_float (size_of (from_ip "8.8.8.8" 64)) = true)
    by reflexivity.
  split; [exact H |]. split; [exact Hfit |].
  destruct (add_packet_raises_iff (init 5 5) (from_ip "8.8.8.8" 64) 9)
    as (_ & _ & Hreset).
  exact (proj1 (Hreset H Hfit)).
Defined.

(** The sizes are not negative and the bytes counted fit a float together
    with those still to come. *)
Definition within_float (a : aggregator) (ps : list (packet * Q)) : Prop :=
  Forall (fun pt => 0 <= size_of (fst pt)) ps
  /\ 0 <= bytes_since_last_calc a
  /\ 0 <= total_upload a
  /\ 0 <= total_download a
  /\ bytes_since_last_calc a + total_size ps < float_limit
  /\ total_upload a + total_download a + total_size ps < float_limit.

Lemma outcomes_safe (ps : list (packet * Q)) (a : aggregator) :
  (start_time a - last_rate_calc a < rate_threshold)%Q ->
  within_float a ps ->
  Forall (fun o => o = Py.Return tt) (outcomes a ps).
Proof.
  revert a. induction ps as [| [p t] ps IH]; intros a Ha Hw.
  - constructor.
  - cbn [outcomes]. destruct Hw as (Hsz & Hb & Hu & Hd & Hbl & Hul).
    inversion Hsz as [| ? ? Hp Hps]; subst. cbn [fst] in Hp.
    cbn [total_size fold_right fst] in Hbl, Hul. fold (total_size ps) in Hbl, Hul.
    assert (Hts : 0 <= total_size ps).
    { clear - Hps. induction Hps as [| x l Hx _ IHl]; simpl; [lia |].
      fold (total_size l). lia. }
    destruct (add_packet_rings a p t) as (_ & _ & Hs). cbv zeta in Hs.
    destruct (add_packet_counters a p t) as (Hup & Hdn & _). cbv zeta in Hup, Hdn.
    pose proof (add_packet_sampled a p t) as Hsam.
    remember (fst (add_packet a p t)) as a' eqn:Ea'.
    assert (Hu' : 0 <= total_upload a')
      by (rewrite Hup; destruct (fst (_is_outgoing _ _)); lia).
    assert (Hd' : 0 <= total_download a')
      by (rewrite Hdn; destruct (fst (_is_outgoing _ _)); lia).
    assert (Hsum : total_upload a' + total_download a'
                   = total_upload a + total_download a + size_of p)
      by (rewrite Hup, Hdn; destruct (fst (_is_outgoing _ _)); lia).
    assert (Hstep : snd (add_packet a p t) = Py.Return tt
                    /\ (start_time a' - last_rate_calc a' < rate_threshold)%Q
                    /\ 0 <= bytes_since_last_calc a'
                       <= bytes_since_last_calc a + size_of p).
    { rewrite Hs.
      destruct Hsam as [_ _ Hl Hbs | e H1 He _ _ _ | s H1 _ _ _ Hl Hbs].
      - rewrite Hl, Hbs. split; [reflexivity |]. split; [exact Ha | lia].
      - exfalso. apply Qle_bool_iff in H1. unfold rate_error in He.
        rewrite (fits_float_bounds (bytes_since_last_calc a + size_of p))
          in He by lia.
        rewrite (fits_float_bounds (total_upload a')) in He by lia.
        rewrite (fits_float_bounds (total_download a')) in He by lia.
        cbn [negb] in He.
        destruct (Qeq_bool (t - start_time a) 0) eqn:E2; [| discriminate].
        apply Qeq_bool_iff in E2. lra.
      - rewrite Hl, Hbs. apply Qle_bool_iff in H1.
        pose proof rate_threshold_pos as Hpos.
        split; [reflexivity |]. split; [lra | lia]. }
    destruct Hstep as (Ho & Hinv & Hb').
    constructor; [exact Ho |].
    apply IH; [exact Hinv |].
    unfold within_float. repeat split; try assumption; lia.
Qed.

(** X7.  When the two clock readings taken by the constructor differ by
    less than the sampling threshold (their difference reads below 1.0 as a
    double), the packet sizes are not negative and their sum converts to a
    float, no call of a run of [add_packet] on the new aggregator raises,
    whatever the clock readings passed to the calls. *)
Theorem fresh_aggregator_never_raises
    (t_rate t_start : Q) (ps : list (packet * Q)) :
  (t_start - t_rate < rate_threshold)%Q ->
  Forall (fun pt => 0 <= size_of (fst pt)) ps ->
  total_size ps < float_limit ->
  Forall (fun o => o = Py.Return tt) (outcomes (init t_rate t_start) ps).
Proof.
  intros H Hsz Hfit. apply outcomes_safe; [exact H |].
  unfold within_float. cbn [init bytes_since_last_calc total_upload total_download].
  assert (Hts : 0 <= total_size ps).
  { clear - Hsz. induction Hsz as [| x l Hx _ IHl]; simpl; [lia |].
    fold (total_size l). lia. }
  repeat split; try assumption; lia.
Qed.

Lemma fresh_aggregator_never_raises_witness :
  (0 - 0 < rate_threshold)%Q
  /\ Forall (fun pt => 0 <= size_of (fst pt))
       [(from_ip "8.8.8.8" 64, 0%Q); (from_ip "8.8.8.8" 64, 3%Q)]
  /\ total_size [(from_ip "8.8.8.8" 64, 0%Q); (from_ip "8.8.8.8" 64, 3%Q)]
     < float_limit
  /\ Forall (fun o => o = Py.Return tt)
       (outcomes (init 0 0)
          [(from_ip "8.8.8.8" 64, 0%Q); (from_ip "8.8.8.8" 64, 3%Q)]).
Proof.
  assert (H : (0 - 0 < rate_threshold)%Q) by reflexivity.
  assert (Hsz : Forall (fun pt => 0 <= size_of (fst pt))
                  [(from_ip "8.8.8.8" 64, 0%Q); (from_ip "8.8.8.8" 64, 3%Q)]).
  { repeat constructor; discriminate. }
  assert (Hfit : total_size
                   [(from_ip "8.8.8.8" 64, 0%Q); (from_ip "8.8.8.8" 64, 3%Q)]
                 < float_limit) by reflexivity.
  split; [exact H |]. split; [exact Hsz |]. split; [exact Hfit |].
  exact (fresh_aggregator_never_raises 0 0
           [(from_ip "8.8.8.8" 64, 0%Q); (from_ip "8.8.8.8" 64, 3%Q)]
           H Hsz Hfit).
Defined.

(** Consecutive samples were taken when a sample was due: the second stamp
    minus the first reads at least 1.0 as a double. *)
Fixpoint spaced (l : list sample) : Prop :=
  match l with
  | s1 :: rest =>
      match rest with
      | s2 :: _ =>
          (rate_threshold <= sample_timestamp s2 - sample_timestamp s1)%Q
      | [] => True
      end /\ spaced rest
  | [] => True
  end.

Lemma spaced_snoc (l : list sample) (s : sample) :
  spaced l ->
  (forall s0, last l = Some s0 ->
              (rate_threshold <= sample_timestamp s - sample_timestamp s0)%Q) ->
  spaced (l ++ [s]).
Proof.
  induction l as [| s1 l IH]; intros Hl Hlast; simpl.
  - auto.
  - destruct Hl as [H1 H2]. destruct l as [| s2 l].
    + simpl. split; [| auto]. apply Hlast. reflexivity.
    + split; [exact H1 |]. apply IH; [exact H2 |].
      intros s0 Hs0. apply Hlast. exact Hs0.
Qed.

Lemma spaced_tail (l : list sample) : spaced l -> spaced (tail l).
Proof. destruct l as [| s1 l]; simpl; [auto | intros [_ H]; exact H]. Qed.

Lemma last_tail {A} (l : list A) (x : A) :
  last (tail l) = Some x -> last l = Some x.
Proof.
  destruct l as [| y l]; simpl; [auto |].
  destruct l; [discriminate | auto].
Qed.

Lemma tail_length {A} (l : list A) : length (tail l) = (length l - 1)%nat.
Proof. destruct l; simpl; lia. Qed.

Definition history_ok (a : aggregator) : Prop :=
  (length (bandwidth_history a) <= 100)%nat
  /\ spaced (bandwidth_history a)
  /\ (forall s, last (bandwidth_history a) = Some s ->
                sample_timestamp s = last_rate_calc a).

Lemma add_packet_history (a : aggregator) (p : packet) (now : Q) :
  history_ok a ->
  history_ok (fst (add_packet a p now))
  /\ (length (bandwidth_history (fst (add_packet a p now)))
      <= S (length (bandwidth_history a)))%nat.
Proof.
  intros (Hlen & Hsp & Hlast). unfold history_ok.
  destruct (add_packet_sampled a p now) as
      [_ Hh Hl _ | e _ _ Hh Hl _ | s H1 _ Hs Hh Hl _]; rewrite ?Hh, ?Hl.
  - repeat split; auto.
  - repeat split; auto.
  - apply Qle_bool_iff in H1.
    assert (Hgap : forall s0, last (bandwidth_history a) = Some s0 ->
                     (rate_threshold
                      <= sample_timestamp s - sample_timestamp s0)%Q).
    { intros s0 Hs0. rewrite Hs, (Hlast s0 Hs0). exact H1. }
    unfold Py.deque_append.
    destruct (Nat.ltb_spec (length (bandwidth_history a)) 100).
    + repeat split.
      * rewrite length_app. simpl. lia.
      * apply spaced_snoc; assumption.
      * intros s0. rewrite last_snoc. intros [= <-]. exact Hs.
      * rewrite length_app. simpl. lia.
    + repeat split.
      * rewrite length_app, tail_length. simpl. lia.
      * apply spaced_snoc; [apply spaced_tail, Hsp |].
        intros s0 Hs0. apply Hgap, last_tail, Hs0.
      * intros s0. rewrite last_snoc. intros [= <-]. exact Hs.
      * rewrite length_app, tail_length. simpl. lia.
Qed.

Lemma history_run (ps : list (packet * Q)) (a : aggregator) :
  history_ok a ->
  history_ok (add_packets a ps)
  /\ (length (bandwidth_history (add_packets a ps))
      <= length (bandwidth_history a) + length ps)%nat.
Proof.
  revert a. induction ps as [| [p t] ps IH]; intros a Ha.
  - simpl. split; [exact Ha | lia].
  - destruct (add_packet_history a p t Ha) as [H1 H2].
    destruct (IH _ H1) as [H3 H4].
    unfold add_packets in *. cbn [fold_left fst snd length].
    split; [exact H3 | lia].
Qed.

(** X8.  The bandwidth history of an aggregator, fresh or reset, never
    holds more than 100 samples nor more samples than packets recorded, and
    each sample was taken when the time since the sample before it read at
    least 1.0 as a double (an exact difference of at least 1 - 2^-54
    seconds), whatever the clock readings and the outcomes of the calls. *)
Theorem bandwidth_history_bounded_and_spaced
    (a0 : aggregator) (t0 : Q) (ps : list (packet * Q)) :
  let a := add_packets (reset_stats a0 t0) ps in
  (length (get_bandwidth_history a) <= 100)%nat
  /\ (length (get_bandwidth_history a) <= length ps)%nat
  /\ spaced (get_bandwidth_history a)
  /\ (forall t_rate t_start,
        let b := add_packets (init t_rate t_start) ps in
        (length (get_bandwidth_history b) <= Nat.min 100 (length ps))%nat
        /\ spaced (get_bandwidth_history b)).
Proof.
  cbv zeta.
  assert (Hempty : forall a, bandwidth_history a = [] -> history_ok a).
  { intros a Ha. unfold history_ok. rewrite Ha. simpl.
    repeat split; [lia | discriminate]. }
  destruct (history_run ps (reset_stats a0 t0)
              (Hempty (reset_stats a0 t0) eq_refl))
    as ((H1 & H2 & _) & H3).
  unfold get_bandwidth_history. simpl in H3.
  repeat split; try assumption.
  - destruct (history_run ps (init t_rate t_start)
                (Hempty (init t_rate t_start) eq_refl))
      as ((H4 & _ & _) & H5).
    simpl in H5. lia.
  - destruct (history_run ps (init t_rate t_start)
                (Hempty (init t_rate t_start) eq_refl))
      as ((_ & H4 & _) & _).
    exact H4.
Qed.

End AggregatorMore.

(** ** What a reset keeps, and what that changes *)

Module ResetFacts.
Import DataAggregator AggregatorFacts AggregatorMore.

(** The aggregators the code can reach: a new one, then any calls of
    [add_packet], raising or not, and of [reset_stats]. *)
Inductive reachable : aggregator -> Prop :=
| reach_init (t_rate t_start : Q) : reachable (init t_rate t_start)
| reach_add_packet (a : aggregator) (p : packet) (now : Q) :
    reachable a -> reachable (fst (add_packet a p now))
| reach_reset_stats (a : aggregator) (now : Q) :
    reachable a -> reachable (reset_stats a now).

Lemma empty_prefixed : all_prefixed ∅.
Proof. intros ip Hip. set_solver. Qed.

(** The set of confirmed-local addresses only ever holds addresses that the
    prefix test accepts. *)
Lemma reachable_prefixed (a : aggregator) :
  reachable a -> all_prefixed (local_ips a).
Proof.
  induction 1 as [t_rate t_start | a p now _ IH | a now _ IH].
  - exact empty_prefixed.
  - destruct (add_packet_counters a p now) as (_ & _ & _ & _ & _ & Hl).
    cbv zeta in Hl. rewrite Hl. apply is_outgoing_prefixed, IH.
  - exact IH.
Qed.

(** C10, as the code has it.  [reset_stats] leaves the set of
    confirmed-local IPs and the rate-sampling clock as they were while it
    zeroes the counters and rings.  The set it keeps changes no
    classification: on an aggregator reached from a new one by calls of
    [add_packet] and [reset_stats], the set only holds addresses that the
    prefix test accepts, the answer of [_is_outgoing] after the reset is
    that of the prefix test, as with an empty set, and the next packet is
    counted as upload or download exactly as a new aggregator counts it. *)
Theorem reset_keeps_local_ips_without_effect
    (a : aggregator) (t0 t : Q) (p : packet) :
  reachable a ->
  let r := reset_stats a t0 in
  let a' := fst (add_packet r p t) in
  local_ips r = local_ips a
  /\ last_rate_calc r = last_rate_calc a
  /\ (total_upload r = 0 /\ total_download r = 0 /\ total_packets r = 0
      /\ bytes_since_last_calc r = 0 /\ current_rate r = 0%Q)
  /\ (recent_packets r = [] /\ bandwidth_history r = []
      /\ app_bandwidth r = [] /\ app_packet_count r = []
      /\ category_bandwidth r = [])
  /\ (forall ip, ip ∈ local_ips r -> prefix_local ip = true)
  /\ (forall ip,
        fst (_is_outgoing (local_ips r) ip) = prefix_local ip
        /\ fst (_is_outgoing ∅ ip) = prefix_local ip)
  /\ (forall t_rate t_start,
        let fresh := fst (add_packet (init t_rate t_start) p t) in
        total_upload a' = total_upload fresh
        /\ total_download a' = total_download fresh).
Proof.
  intros Hreach. cbv zeta.
  pose proof (reachable_prefixed a Hreach) as Hpre.
  assert (Hboth : forall ip,
             fst (_is_outgoing (local_ips (reset_stats a t0)) ip)
             = prefix_local ip
             /\ fst (_is_outgoing ∅ ip) = prefix_local ip).
  { intros ip. cbn [reset_stats local_ips]. split.
    - exact (proj1 (is_outgoing_prefixed (local_ips a) ip Hpre)).
    - exact (proj1 (is_outgoing_prefixed ∅ ip empty_prefixed)). }
  assert (Hsame : forall ip,
             fst (_is_outgoing (local_ips (reset_stats a t0)) ip)
             = fst (_is_outgoing ∅ ip)).
  { intros ip. destruct (Hboth ip) as [-> ->]. reflexivity. }
  split; [reflexivity |]. split; [reflexivity |].
  split; [repeat split |]. split; [repeat split |].
  split; [exact Hpre |]. split; [exact Hboth |].
  intros t_rate t_start.
  destruct (add_packet_counters (reset_stats a t0) p t) as (Hu & Hd & _).
  destruct (add_packet_counters (init t_rate t_start) p t) as (Hu' & Hd' & _).
  cbv zeta in Hu, Hd, Hu', Hd'.
  rewrite Hu, Hd, Hu', Hd', Hsame. split; reflexivity.
Qed.

(** An aggregator that has recorded one packet from 192.168.1.20. *)
Definition seen_local : aggregator :=
  fst (add_packet (init 5 5) (from_ip "192.168.1.20" 700) 5).

Lemma reset_keeps_local_ips_without_effect_witness :
  reachable seen_local
  /\ "192.168.1.20"%string ∈ local_ips (reset_stats seen_local 9)
  /\ total_upload
       (fst (add_packet (reset_stats seen_local 9)
               (from_ip "192.168.1.20" 64) 9)) = 64
  /\ total_download
       (fst (add_packet (reset_stats seen_local 9) (from_ip "8.8.8.8" 64) 9))
     = 64.
Proof.
  assert (Hreach : reachable seen_local)
    by (apply reach_add_packet, reach_init).
  split; [exact Hreach |]. split.
  { apply elem_of_union_l, elem_of_singleton. reflexivity. }
  split.
  - rewrite (proj1 (proj2 (proj2 (proj2 (proj2 (proj2 (proj2
               (reset_keeps_local_ips_without_effect seen_local 9 9
                  (from_ip "192.168.1.20" 64) Hreach)))))) 9%Q 9%Q)).
    reflexivity.
  - rewrite (proj2 (proj2 (proj2 (proj2 (proj2 (proj2 (proj2
               (reset_keeps_local_ips_without_effect seen_local 9 9
                  (from_ip "8.8.8.8" 64) Hreach)))))) 9%Q 9%Q)).
    reflexivity.
Defined.

(** C10 as stated fails: 192.168.1.20 was recorded as local before the
    reset and is still in the set after it, yet packets from that address
    and from 8.8.8.8 are classified after the reset as on an aggregator that
    has seen nothing. *)
Lemma retained_local_ip_changes_no_classification :
  let r := reset_stats seen_local 9 in
  "192.168.1.20"%string ∈ local_ips r
  /\ fst (_is_outgoing (local_ips r) "192.168.1.20")
     = fst (_is_outgoing ∅ "192.168.1.20")
  /\ fst (_is_outgoing (local_ips r) "8.8.8.8") = fst (_is_outgoing ∅ "8.8.8.8")
  /\ total_upload (fst (add_packet r (from_ip "192.168.1.20" 64) 9))
     = total_upload (fst (add_packet (init 9 9) (from_ip "192.168.1.20" 64) 9))
  /\ total_download (fst (add_packet r (from_ip "8.8.8.8" 64) 9))
     = total_download (fst (add_packet (init 9 9) (from_ip "8.8.8.8" 64) 9)).
Proof.
  cbv zeta. split.
  { apply elem_of_union_l, elem_of_singleton. reflexivity. }
  repeat split; vm_compute; reflexivity.
Qed.

End ResetFacts.

(** ** The name resolver's cache *)

Module ResolverMore.
Import DNSResolver.

Definition lru_keys (c : lru) : list string := map fst c.

(** The table holds each IP once and no more entries than its capacity. *)
Definition cache_ok (r : resolver) : Prop :=
  NoDup (lru_keys (cache r)) /\ (length (cache r) <= lru_maxsize r)%nat.

Lemma lru_find_none (c : lru) (ip : string) :
  lru_find c ip = None <-> ~ In ip (lru_keys c).
Proof.
  induction c as [| [k v] c IH]; simpl.
  - tauto.
  - destruct (String.eqb_spec k ip) as [-> | Hne].
    + split; [discriminate | intros H; exfalso; apply H; left; reflexivity].
    + rewrite IH. split; [intros H [Hk | Hin]; [congruence | auto] | tauto].
Qed.

Lemma lru_find_snoc (c : lru) (ip ip' : string) (v : option string) :
  lru_find (c ++ [(ip, v)]) ip'
  = match lru_find c ip' with
    | Some w => Some w
    | None => if String.eqb ip ip' then Some v else None
    end.
Proof.
  induction c as [| [k w] c IH]; simpl.
  - reflexivity.
  - destruct (String.eqb k ip'); [reflexivity | exact IH].
Qed.

Lemma lru_remove_keys (c : lru) (ip ip' : string) :
  In ip' (lru_keys (lru_remove c ip)) -> In ip' (lru_keys c).
Proof.
  induction c as [| [k v] c IH]; simpl; [tauto |].
  destruct (String.eqb k ip); simpl; tauto.
Qed.

Lemma lru_remove_NoDup (c : lru) (ip : string) :
  NoDup (lru_keys c) ->
  NoDup (lru_keys (lru_remove c ip)) /\ ~ In ip (lru_keys (lru_remove c ip)).
Proof.
  induction c as [| [k v] c IH]; simpl; intros H.
  - split; [constructor | tauto].
  - apply NoDup_cons in H. destruct H as [Hk Hc].
    rewrite list_elem_of_In in Hk.
    destruct (String.eqb_spec k ip) as [-> | Hne]; simpl.
    + split; assumption.
    + destruct (IH Hc) as [H1 H2]. split.
      * apply NoDup_cons. split; [| exact H1].
        rewrite list_elem_of_In. intros Hin. apply Hk.
        exact (lru_remove_keys _ _ _ Hin).
      * intros [Heq | Hin]; [congruence | auto].
Qed.


Lemma lru_remove_length (c : lru) (ip : string) :
  (length (lru_remove c ip) <= length c)%nat
  /\ (lru_find c ip <> None -> S (length (lru_remove c ip)) = length c).
Proof.
  induction c as [| [k v] c IH]; simpl.
  - split; [lia | congruence].
  - destruct (String.eqb k ip); simpl; [split; [lia | reflexivity] |].
    destruct IH as [H1 H2]. split; [lia |]. intros H. rewrite (H2 H).
    reflexivity.
Qed.

Lemma NoDup_snoc_keys (c : lru) (ip : string) (v : option string) :
  NoDup (lru_keys c) -> ~ In ip (lru_keys c) ->
  NoDup (lru_keys (c ++ [(ip, v)])).
Proof.
  intros Hc Hip. unfold lru_keys. rewrite map_app. simpl.
  apply NoDup_app. split; [exact Hc |]. split.
  - intros x Hx Hx'. apply list_elem_of_In in Hx.
    apply list_elem_of_singleton in Hx'. subst x. exact (Hip Hx).
  - apply NoDup_singleton.
Qed.

Lemma tail_keys (c : lru) (ip : string) :
  In ip (lru_keys (tail c)) -> In ip (lru_keys c).
Proof. destruct c; simpl; tauto. Qed.

Lemma tail_NoDup (c : lru) : NoDup (lru_keys c) -> NoDup (lru_keys (tail c)).
Proof.
  destruct c as [| kv c]; simpl; [auto |].
  intros H. apply NoDup_cons in H. tauto.
Qed.

Lemma lru_remove_snoc (c : lru) (ip : string) (v : option string) :
  ~ In ip (lru_keys c) -> lru_remove (c ++ [(ip, v)]) ip = c.
Proof.
  induction c as [| [k w] c IH]; simpl; intros Hc.
  - rewrite String.eqb_refl. reflexivity.
  - destruct (String.eqb_spec k ip) as [-> | Hne].
    + exfalso. apply Hc. left. reflexivity.
    + f_equal. apply IH. intros Hin. apply Hc. right. exact Hin.
Qed.

(** What the body returns; it is never an exception. *)
Definition body_value (answer : lookup) : option string :=
  match answer with
  | Py.Return hostname => Some hostname
  | Py.Raise _ => None
  end.

Lemma body_returns (answer : lookup) :
  resolve_ip_body answer = Py.Return (body_value answer).
Proof. destruct answer as [h | []]; reflexivity. Qed.

Lemma resolve_ip_hit (r : resolver) (ip : string) (answer : lookup)
    (v : option string) :
  lru_maxsize r <> 0%nat ->
  lru_find (cache r) ip = Some v ->
  resolve_ip r ip answer
  = ({| category_keywords := category_keywords r;
        timeout := timeout r; lru_maxsize := lru_maxsize r;
        cache := lru_remove (cache r) ip ++ [(ip, v)];
        hits := S (hits r); misses := misses r |}, Py.Return v).
Proof.
  intros Hsize Hf. unfold resolve_ip.
  destruct (lru_maxsize r); [congruence |]. rewrite Hf. reflexivity.
Qed.

Lemma resolve_ip_miss (r : resolver) (ip : string) (answer : lookup) :
  lru_maxsize r <> 0%nat ->
  lru_find (cache r) ip = None ->
  resolve_ip r ip answer
  = ({| category_keywords := category_keywords r;
        timeout := timeout r; lru_maxsize := lru_maxsize r;
        cache := (if (length (cache r) <? lru_maxsize r)%nat
                  then cache r else tail (cache r))
                 ++ [(ip, body_value answer)];
        hits := hits r; misses := S (misses r) |},
     Py.Return (body_value answer)).
Proof.
  intros Hsize Hf. unfold resolve_ip.
  destruct (lru_maxsize r) eqn:E; [congruence |].
  rewrite Hf, body_returns. reflexivity.
Qed.

(** After a call the IP is the most recent entry of the table, stored with
    the value returned. *)
Lemma resolve_ip_stores (r : resolver) (ip : string) (answer : lookup) :
  lru_maxsize r <> 0%nat ->
  NoDup (lru_keys (cache r)) ->
  exists v c,
    snd (resolve_ip r ip answer) = Py.Return v
    /\ cache (fst (resolve_ip r ip answer)) = c ++ [(ip, v)]
    /\ ~ In ip (lru_keys c)
    /\ NoDup (lru_keys c)
    /\ lru_maxsize (fst (resolve_ip r ip answer)) = lru_maxsize r.
Proof.
  intros Hsize Hnd.
  destruct (lru_find (cache r) ip) as [v |] eqn:Ef.
  - rewrite (resolve_ip_hit r ip answer v Hsize Ef).
    exists v, (lru_remove (cache r) ip). cbn [fst snd cache lru_maxsize].
    destruct (lru_remove_NoDup (cache r) ip Hnd). auto.
  - rewrite (resolve_ip_miss r ip answer Hsize Ef).
    eexists _, _. cbn [fst snd cache lru_maxsize].
    split; [reflexivity |]. split; [reflexivity |].
    apply lru_find_none in Ef.
    destruct (length (cache r) <? lru_maxsize r)%nat; [auto |].
    split; [| split; [apply tail_NoDup, Hnd | reflexivity]].
    intros Hin. apply Ef. exact (tail_keys _ _ Hin).
Qed.

(** X9.  Resolving the same IP twice in a row asks the operating system at
    most once: with a cache of capacity above zero, the second call is a
    hit that returns the result of the first, a failure ([None]) included,
    whatever the lookup would answer the second time. *)
Theorem second_resolve_is_a_hit
    (r : resolver) (ip : string) (first second : lookup) :
  lru_maxsize r <> 0%nat ->
  NoDup (lru_keys (cache r)) ->
  let r1 := fst (resolve_ip r ip first) in
  let r2 := fst (resolve_ip r1 ip second) in
  snd (resolve_ip r1 ip second) = snd (resolve_ip r ip first)
  /\ hits r2 = S (hits r1)
  /\ misses r2 = misses r1
  /\ cache r2 = cache r1.
Proof.
  intros Hsize Hnd. cbv zeta.
  destruct (resolve_ip_stores r ip first Hsize Hnd)
    as (v & c & Hv & Hc & Hnot & _ & Hm).
  set (r1 := fst (resolve_ip r ip first)) in *.
  assert (Ef : lru_find (cache r1) ip = Some v).
  { rewrite Hc, lru_find_snoc. apply lru_find_none in Hnot. rewrite Hnot.
    rewrite String.eqb_refl. reflexivity. }
  rewrite (resolve_ip_hit r1 ip second v ltac:(congruence) Ef), Hv.
  cbn [fst snd hits misses cache].
  rewrite Hc, (lru_remove_snoc c ip v Hnot). repeat split.
Qed.

Lemma second_resolve_is_a_hit_witness :
  lru_maxsize init <> 0%nat
  /\ snd (resolve_ip (fst (resolve_ip init "203.0.113.9" (Py.Raise herror)))
            "203.0.113.9" (Py.Return "host.example"%string))
     = Py.Return None.
Proof.
  assert (H : lru_maxsize init <> 0%nat) by discriminate.
  split; [exact H |].
  destruct (second_resolve_is_a_hit init "203.0.113.9" (Py.Raise herror)
              (Py.Return "host.example"%string) H (NoDup_nil_2))
    as (Hsame & _).
  rewrite Hsame. reflexivity.
Defined.

(** A run of lookups, each with the answer the operating system would
    give. *)
Definition resolve_all (r : resolver) (qs : list (string * lookup)) : resolver :=
  fold_left (fun r q => fst (resolve_ip r (fst q) (snd q))) qs r.

Lemma resolve_ip_keeps_ok (r : resolver) (ip : string) (answer : lookup) :
  cache_ok r ->
  let r' := fst (resolve_ip r ip answer) in
  cache_ok r'
  /\ lru_maxsize r' = lru_maxsize r
  /\ category_keywords r' = category_keywords r
  /\ (hits r' + misses r' = S (hits r + misses r))%nat.
Proof.
  intros [Hnd Hlen]. cbv zeta. unfold cache_ok.
  destruct (Nat.eq_dec (lru_maxsize r) 0%nat) as [E0 | Hsize].
  - unfold resolve_ip. rewrite E0, body_returns. cbn.
    rewrite E0 in Hlen. repeat split; auto; lia.
  - destruct (lru_find (cache r) ip) as [v |] eqn:Ef.
    + rewrite (resolve_ip_hit r ip answer v Hsize Ef).
      cbn [fst cache lru_maxsize category_keywords hits misses].
      destruct (lru_remove_NoDup (cache r) ip Hnd) as [H1 H2].
      destruct (lru_remove_length (cache r) ip) as [_ H3].
      repeat split; try lia.
      * apply NoDup_snoc_keys; assumption.
      * rewrite length_app. simpl.
        assert (S (length (lru_remove (cache r) ip)) = length (cache r))
          by (apply H3; congruence).
        lia.
    + rewrite (resolve_ip_miss r ip answer Hsize Ef).
      cbn [fst cache lru_maxsize category_keywords hits misses].
      apply lru_find_none in Ef.
      destruct (Nat.ltb_spec (length (cache r)) (lru_maxsize r)).
      * repeat split; try lia.
        -- apply NoDup_snoc_keys; assumption.
        -- rewrite length_app. simpl. lia.
      * repeat split; try lia.
        -- apply NoDup_snoc_keys; [apply tail_NoDup, Hnd |].
           intros Hin. apply Ef. exact (tail_keys _ _ Hin).
        -- rewrite length_app. simpl.
           destruct (cache r); simpl in *; lia.
Qed.

(** X10.  Starting from the empty cache of a new resolver, after any run of
    lookups the table holds each IP at most once and never more than
    [MAX_CACHED_DNS] entries, and hits plus misses count the calls made. *)
Theorem dns_cache_stays_bounded (qs : list (string * lookup)) :
  let r := resolve_all init qs in
  NoDup (lru_keys (cache r))
  /\ (length (cache r) <= Config.MAX_CACHED_DNS)%nat
  /\ ResolverCache.get_cache_info r
     = (hits r, misses r, length (cache r), Config.MAX_CACHED_DNS)
  /\ (hits r + misses r = length qs)%nat.
Proof.
  cbv zeta.
  assert (G : forall qs r0, cache_ok r0 ->
             cache_ok (resolve_all r0 qs)
             /\ lru_maxsize (resolve_all r0 qs) = lru_maxsize r0
             /\ (hits (resolve_all r0 qs) + misses (resolve_all r0 qs)
                 = hits r0 + misses r0 + length qs)%nat).
  { clear qs. induction qs as [| [ip ans] qs IH]; intros r0 H0.
    - simpl. split; [exact H0 | split; [reflexivity | lia]].
    - destruct (resolve_ip_keeps_ok r0 ip ans H0) as (H1 & H2 & _ & H3).
      cbv zeta in *. destruct (IH _ H1) as (H4 & H5 & H6).
      unfold resolve_all in *. cbn [fold_left fst snd length].
      split; [exact H4 | split; [congruence | lia]]. }
  assert (H0 : cache_ok init) by (split; [constructor | simpl; lia]).
  destruct (G qs init H0) as ((H1 & H2) & H3 & H4).
  change (lru_maxsize init) with Config.MAX_CACHED_DNS in *.
  unfold ResolverCache.get_cache_info. rewrite H3.
  repeat split; auto. simpl in H4. lia.
Qed.




(** X12.  [resolve_and_categorize] never raises; the category it returns
    is that of the host name it returns, hence "Other" or a category of the
    configured table; a failed lookup of an IP that is not cached gives
    [(None, "Other")]. *)
Theorem resolve_and_categorize_total
    (r : resolver) (ip : string) (answer : lookup) :
  (exists hostname,
      snd (resolve_and_categorize r ip answer)
      = Py.Return (hostname, categorize_domain r hostname)
      /\ (categorize_domain r hostname = "Other"%string
          \/ In (categorize_domain r hostname)
               (map fst (category_keywords r))))
  /\ (forall e, answer = Py.Raise e ->
                lru_find (cache r) ip = None ->
                snd (resolve_and_categorize r ip answer)
                = Py.Return (None, "Other"%string)).
Proof.
  assert (Hcat : forall h,
             categorize_domain r h = "Other"%string
             \/ In (categorize_domain r h) (map fst (category_keywords r))).
  { intros h. unfold categorize_domain.
    destruct (negb (Py.truthy_str h)); [left; reflexivity |].
    generalize (Py.lower (default ""%string h)) as hl. intros hl.
    induction (category_keywords r) as [| [c kws] t IH]; simpl.
    - left. reflexivity.
    - destruct (any_keyword hl kws); [right; left; reflexivity |].
      destruct IH as [IH | IH]; [left | right; right]; exact IH. }
  assert (Hret : exists v r',
             resolve_ip r ip answer = (r', Py.Return v)
             /\ category_keywords r' = category_keywords r
             /\ (lru_find (cache r) ip = None -> v = body_value answer)).
  { unfold resolve_ip. destruct (lru_maxsize r).
    - rewrite body_returns. eexists _, _. repeat split.
    - destruct (lru_find (cache r) ip).
      + eexists _, _. repeat split. discriminate.
      + rewrite body_returns. eexists _, _. repeat split. }
  destruct Hret as (v & r' & E & Hk & Hv).
  assert (Hsame : forall h, categorize_domain r' h = categorize_domain r h).
  { intros h. unfold categorize_domain. rewrite Hk. reflexivity. }
  unfold resolve_and_categorize. rewrite E. cbn [snd]. split.
  - exists v. rewrite Hsame. split; [reflexivity | apply Hcat].
  - intros e -> Hnone. rewrite (Hv Hnone). reflexivity.
Qed.

Lemma resolve_and_categorize_total_witness :
  snd (resolve_and_categorize init "203.0.113.9" (Py.Raise gaierror))
  = Py.Return (None, "Other"%string).
Proof.
  exact (proj2 (resolve_and_categorize_total init "203.0.113.9"
                  (Py.Raise gaierror)) gaierror eq_refl eq_refl).
Defined.

(** [resolve_ip] returns, and leaves the keyword table alone. *)
Lemma resolve_ip_returns (r : resolver) (ip : string) (answer : lookup) :
  exists v r',
    resolve_ip r ip answer = (r', Py.Return v)
    /\ category_keywords r' = category_keywords r.
Proof.
  unfold resolve_ip. destruct (lru_maxsize r).
  - rewrite body_returns. eexists _, _. split; reflexivity.
  - destruct (lru_find (cache r) ip).
    + eexists _, _. split; reflexivity.
    + rewrite body_returns. eexists _, _. split; reflexivity.
Qed.

Lemma resolve_and_categorize_returns
    (r : resolver) (ip : string) (answer : lookup) :
  exists hostname cat r',
    resolve_and_categorize r ip answer = (r', Py.Return (hostname, cat))
    /\ cat = categorize_domain r hostname.
Proof.
  destruct (resolve_ip_returns r ip answer) as (v & r' & E & Hk).
  unfold resolve_and_categorize. rewrite E.
  exists v, (categorize_domain r' v), r'. split; [reflexivity |].
  unfold categorize_domain. rewrite Hk. reflexivity.
Qed.

End ResolverMore.

(** ** The connection table, the refresh cadence and application names *)

Module MapperMore.
Import ProcessMapper.

Lemma key_eqb_spec (a b : key) : key_eqb a b = true <-> a = b.
Proof.
  destruct a as [[lp rip] rp], b as [[lp' rip'] rp']. unfold key_eqb.
  rewrite !andb_true_iff, !Z.eqb_eq, String.eqb_eq.
  split; [intros [[-> ->] ->]; reflexivity | intros [= -> -> ->]; auto].
Qed.

Lemma key_eqb_refl (a : key) : key_eqb a a = true.
Proof. apply key_eqb_spec. reflexivity. Qed.

Lemma key_eqb_neq (a b : key) : a <> b -> key_eqb a b = false.
Proof.
  intros H. destruct (key_eqb a b) eqn:E; [| reflexivity].
  apply key_eqb_spec in E. contradiction.
Qed.

Lemma table_get_set (t : connection_table) (k k' : key) (v : Z * string) :
  table_get (table_set t k v) k'
  = if key_eqb k k' then Some v else table_get t k'.
Proof.
  induction t as [| [j w] t IH]; simpl.
  - destruct (key_eqb k k'); reflexivity.
  - destruct (key_eqb j k) eqn:Ejk; simpl.
    + apply key_eqb_spec in Ejk. subst j.
      destruct (key_eqb k k'); reflexivity.
    + rewrite IH. destruct (key_eqb k k') eqn:Ekk'; [| reflexivity].
      apply key_eqb_spec in Ekk'. subst k'. rewrite Ejk. reflexivity.
Qed.

Lemma table_set_keys (t : connection_table) (k k' : key) (v : Z * string) :
  In k' (map fst (table_set t k v)) <-> k' = k \/ In k' (map fst t).
Proof.
  induction t as [| [j w] t IH]; simpl.
  - intuition.
  - destruct (key_eqb j k) eqn:E; simpl.
    + apply key_eqb_spec in E. subst j. intuition.
    + rewrite IH. intuition.
Qed.

Lemma table_set_NoDup (t : connection_table) (k : key) (v : Z * string) :
  NoDup (map fst t) -> NoDup (map fst (table_set t k v)).
Proof.
  induction t as [| [j w] t IH]; simpl; intros H.
  - apply NoDup_singleton.
  - apply NoDup_cons in H. destruct H as [Hj Ht].
    rewrite list_elem_of_In in Hj.
    destruct (key_eqb j k) eqn:E; simpl.
    + apply NoDup_cons. rewrite list_elem_of_In. auto.
    + apply NoDup_cons. rewrite list_elem_of_In. split; [| apply IH, Ht].
      intros Hin. apply table_set_keys in Hin.
      destruct Hin as [-> | Hin]; [| auto].
      rewrite key_eqb_refl in E. discriminate.
Qed.

Lemma table_set_In (t : connection_table) (k : key) (v : Z * string)
    (e : key * (Z * string)) :
  In e (table_set t k v) -> e = (k, v) \/ In e t.
Proof.
  induction t as [| [j w] t IH]; simpl.
  - intuition.
  - destruct (key_eqb j k) eqn:E; simpl.
    + apply key_eqb_spec in E. subst j. intuition.
    + intuition.
Qed.

Lemma table_get_In (t : connection_table) (k : key) (v : Z * string) :
  NoDup (map fst t) -> table_get t k = Some v <-> In (k, v) t.
Proof.
  induction t as [| [j w] t IH]; simpl; intros Hnd.
  - split; [discriminate | tauto].
  - apply NoDup_cons in Hnd. destruct Hnd as [Hj Ht].
    rewrite list_elem_of_In in Hj.
    destruct (key_eqb j k) eqn:E.
    + apply key_eqb_spec in E. subst j. split.
      * intros [= ->]. left. reflexivity.
      * intros [[= ->] | Hin]; [reflexivity |].
        exfalso. apply Hj. change k with (fst (k, v)).
        apply in_map, Hin.
    + rewrite (IH Ht). split; [tauto |].
      intros [[= -> ->] | Hin]; [| exact Hin].
      rewrite key_eqb_refl in E. discriminate.
Qed.

(** An entry of the table as [_refresh_connections] builds it for [os]. *)
Definition entry_ok (os : os_view) (e : key * (Z * string)) : Prop :=
  let '((local_port, remote_ip, _), (p, name)) := e in
  local_port <> 0 /\ remote_ip <> EmptyString /\ p <> 0
  /\ process_name_of os p = ProcessName name.

Lemma refresh_loop_ok (os : os_view) (conns : list conn) :
  forall t,
    NoDup (map fst t) -> Forall (entry_ok os) t ->
    NoDup (map fst (refresh_loop (process_name_of os) conns t))
    /\ Forall (entry_ok os) (refresh_loop (process_name_of os) conns t).
Proof.
  induction conns as [| c conns IH]; intros t Hnd Hok; simpl; [auto |].
  destruct (raddr c) as [[remote_ip remote_port] |]; [| auto].
  destruct (laddr c) as [[lip lp] |]; simpl; [| auto].
  destruct (Z.eqb_spec lp 0); simpl; [auto |].
  destruct remote_ip as [| ch rest]; simpl; [auto |].
  destruct (conn_pid c) as [p |]; simpl; [| auto].
  destruct (Z.eqb_spec p 0); simpl; [auto |].
  destruct (process_name_of os p) as [name | | |] eqn:En; auto.
  apply IH; [apply table_set_NoDup, Hnd |].
  apply List.Forall_forall. intros e He. apply table_set_In in He.
  destruct He as [-> | He].
  - simpl. repeat split; auto; discriminate.
  - rewrite List.Forall_forall in Hok. apply Hok, He.
Qed.

(** X13.  The table built by [_refresh_connections] holds one entry per
    (local port, remote IP, remote port), each with a non-zero local port, a
    non-empty remote IP, a non-zero pid and the name the system reports for
    that pid; looking up a key returns exactly the entry stored under it;
    and the table is empty when the connection list cannot be read. *)
Theorem refreshed_table_well_formed (os : os_view) :
  let t := _refresh_connections os in
  NoDup (map fst t)
  /\ Forall (entry_ok os) t
  /\ (forall k v, table_get t k = Some v <-> In (k, v) t)
  /\ (net_connections os = None -> t = []).
Proof.
  cbv zeta.
  assert (H : NoDup (map fst (_refresh_connections os))
              /\ Forall (entry_ok os) (_refresh_connections os)).
  { unfold _refresh_connections. destruct (net_connections os).
    - apply refresh_loop_ok; constructor.
    - split; constructor. }
  destruct H as [Hnd Hok]. split; [exact Hnd |]. split; [exact Hok |]. split.
  - intros k v. apply table_get_In, Hnd.
  - intros Hn. unfold _refresh_connections. rewrite Hn. reflexivity.
Qed.

Lemma refreshed_table_well_formed_witness :
  net_connections MapperFacts.no_access = None
  /\ _refresh_connections MapperFacts.no_access = []
  /\ table_get (_refresh_connections MapperFacts.two_sockets)
       (5353, "192.0.2.10"%string, 0)
     = Some (4242, "Google Chrome"%string).
Proof.
  split; [reflexivity |]. split.
  - exact (proj2 (proj2 (proj2
             (refreshed_table_well_formed MapperFacts.no_access))) eq_refl).
  - apply (proj1 (proj2 (proj2
             (refreshed_table_well_formed MapperFacts.two_sockets)))).
    right. left. reflexivity.
Defined.

Lemma lsof_try_some (run : run_outcome) (p : Z) (name : string) :
  lsof_try run = Py.Return (Some (p, name)) ->
  p <> 0 /\ name <> EmptyString.
Proof.
  unfold lsof_try. destruct run as [rc out | | | nm]; try discriminate.
  destruct ((rc =? 0) && Py.truthy_str (Some out)); [| discriminate].
  destruct (parse_lsof (split_lines (strip out)) None) as [[pd pn] | e];
    [| discriminate].
  destruct (Py.truthy_int pd && Py.truthy_str pn) eqn:T; [| discriminate].
  apply andb_true_iff in T. destruct T as [T1 T2].
  destruct pd as [pd |]; [| discriminate].
  destruct pn as [[| ch pn] |]; try discriminate.
  intros [= <- <-]. simpl in T1. split; [| discriminate].
  intros ->. discriminate.
Qed.

(** The shapes that the docstring of [find_process_by_port] allows. *)
Definition resolved_or_nothing (res : option Z * option string) : Prop :=
  match res with
  | (Some _, Some _) | (None, None) => True
  | _ => False
  end.

(** X14.  Whenever [find_process_by_port] returns, it returns a pid together
    with a name or [(None, None)], never one without the other; a pair
    taken from the output of [lsof] has a non-zero pid and a non-empty
    name. *)
Theorem find_process_returns_pair_or_nothing
    (m : mapper) (os1 os2 : os_view) (run : run_outcome)
    (local_port : Z) (remote_ip : option string) (remote_port : option Z) :
  (forall res,
      snd (find_process_by_port m os1 os2 run local_port remote_ip remote_port)
      = Py.Return res ->
      resolved_or_nothing res)
  /\ (forall p name,
        _find_process_with_lsof run = Py.Return (Some p, Some name) ->
        p <> 0 /\ name <> EmptyString).
Proof.
  assert (Hlsof : forall res, _find_process_with_lsof run = Py.Return res ->
             resolved_or_nothing res
             /\ (forall p name, res = (Some p, Some name) ->
                                p <> 0 /\ name <> EmptyString)).
  { intros res. unfold _find_process_with_lsof.
    destruct (lsof_try run) as [[[p n] |] | e] eqn:E.
    - intros [= <-]. split; [exact I |].
      intros p' name' [= <- <-]. exact (lsof_try_some _ _ _ E).
    - intros [= <-]. split; [exact I | discriminate].
    - destruct e; try discriminate;
        intros [= <-]; (split; [exact I | discriminate]). }
  split.
  - intros res. unfold find_process_by_port. cbn [snd].
    set (by_port := match scan_local_port _ _ with
                    | Some v => _ | None => _ end).
    assert (Hby : by_port = Py.Return res -> resolved_or_nothing res).
    { unfold by_port. destruct (scan_local_port _ _).
      - intros [= <-]. exact I.
      - intros H. apply Hlsof, H. }
    destruct (Py.truthy_str remote_ip && Py.truthy_int remote_port);
      [| exact Hby].
    destruct (table_get _ _); [| exact Hby].
    intros [= <-]. exact I.
  - intros p name H. destruct (Hlsof _ H) as [_ H2]. apply H2. reflexivity.
Qed.

Lemma find_process_returns_pair_or_nothing_witness :
  snd (find_process_by_port init MapperFacts.no_access MapperFacts.no_access
         (Completed 0 MapperFacts.lsof_output) 51234 None None)
  = Py.Return (Some 77, Some "nc"%string)
  /\ resolved_or_nothing (Some 77, Some "nc"%string)
  /\ 77 <> 0.
Proof.
  destruct (find_process_returns_pair_or_nothing init MapperFacts.no_access
              MapperFacts.no_access (Completed 0 MapperFacts.lsof_output)
              51234 None None) as [H1 H2].
  split; [reflexivity |]. split.
  - apply H1. reflexivity.
  - exact (proj1 (H2 77 "nc"%string eq_refl)).
Defined.

(** A run of calls: each with the two views of the connection table it may
    read; the arguments and the answer do not affect the cache. *)
Definition calls (m : mapper) (views : list (os_view * os_view)) : mapper :=
  fold_left (fun m v => refreshed m (fst v) (snd v)) views m.

(** X15.  The cache is read again from the system only on every
    [_refresh_interval]-th call or when it is empty: while the cache is
    not empty and the counter stays below the interval, calls leave the
    cache as it is, whatever the connection table has become; the call on
    which the counter reaches the interval refreshes the cache and resets
    the counter. *)
Theorem cache_refreshed_every_interval
    (m : mapper) (views : list (os_view * os_view)) (os1 os2 : os_view) :
  connection_cache m <> [] ->
  0 <= _refresh_counter m ->
  _refresh_counter m + Z.of_nat (length views) + 1 = _refresh_interval m ->
  let m' := calls m views in
  connection_cache m' = connection_cache m
  /\ _refresh_counter m' = _refresh_counter m + Z.of_nat (length views)
  /\ _refresh_counter (refreshed m' os1 os2) = 0
  /\ connection_cache (refreshed m' os1 os2)
     = (if is_empty (_refresh_connections os1) then _refresh_connections os2
        else _refresh_connections os1).
Proof.
  intros Hne H0 Hk. cbv zeta.
  assert (G : forall views m0,
             connection_cache m0 <> [] ->
             _refresh_counter m0 + Z.of_nat (length views)
               < _refresh_interval m0 ->
             connection_cache (calls m0 views) = connection_cache m0
             /\ _refresh_counter (calls m0 views)
                = _refresh_counter m0 + Z.of_nat (length views)
             /\ _refresh_interval (calls m0 views) = _refresh_interval m0).
  { clear. induction views as [| [v1 v2] views IH]; intros m0 Hne Hlt.
    - simpl. repeat split; try reflexivity; lia.
    - unfold calls in *. cbn [fold_left fst snd length] in *.
      assert (Hstep : refreshed m0 v1 v2
                      = {| connection_cache := connection_cache m0;
                           _refresh_counter := _refresh_counter m0 + 1;
                           _refresh_interval := _refresh_interval m0 |}).
      { unfold refreshed.
        destruct (Z.leb_spec (_refresh_interval m0) (_refresh_counter m0 + 1));
          [lia |].
        cbn [connection_cache].
        destruct (connection_cache m0); [congruence | reflexivity]. }
      rewrite Hstep.
      destruct (IH {| connection_cache := connection_cache m0;
                      _refresh_counter := _refresh_counter m0 + 1;
                      _refresh_interval := _refresh_interval m0 |})
        as (H1 & H2 & H3); cbn [connection_cache _refresh_counter
                                _refresh_interval]; [assumption | lia |].
      rewrite H1, H2, H3.
      cbn [connection_cache _refresh_counter _refresh_interval].
      repeat split; try reflexivity; lia. }
  destruct (G views m Hne ltac:(lia)) as (H1 & H2 & H3).
  split; [exact H1 |]. split; [exact H2 |].
  unfold refreshed. rewrite H2, H3.
  destruct (Z.leb_spec (_refresh_interval m)
              (_refresh_counter m + Z.of_nat (length views) + 1)); [| lia].
  cbn [connection_cache _refresh_counter].
  destruct (_refresh_connections os1); split; reflexivity.
Qed.

Lemma cache_refreshed_every_interval_witness :
  connection_cache MapperFacts.shared_port <> []
  /\ connection_cache
       (calls MapperFacts.shared_port
          (repeat (MapperFacts.no_access, MapperFacts.no_access) 8))
     = connection_cache MapperFacts.shared_port
  /\ connection_cache
       (calls MapperFacts.shared_port
          (repeat (MapperFacts.no_access, MapperFacts.no_access) 9))
     = [].
Proof.
  assert (Hne : connection_cache MapperFacts.shared_port <> [])
    by discriminate.
  destruct (cache_refreshed_every_interval MapperFacts.shared_port
              (repeat (MapperFacts.no_access, MapperFacts.no_access) 8)
              MapperFacts.no_access MapperFacts.no_access
              Hne ltac:(simpl; lia) eq_refl) as (H1 & _).
  split; [exact Hne |]. split; [exact H1 | reflexivity].
Defined.

Import AppNames.

Fixpoint has_space (s : string) : bool :=
  match s with
  | EmptyString => false
  | String c s' => is_space c || has_space s'
  end.

Lemma re_sub_no_space (s : string) : has_space s = false -> re_sub s 0 = s.
Proof.
  induction s as [| c s IH]; simpl; [reflexivity |].
  intros H. apply orb_false_iff in H. destruct H as [Hc Hs].
  unfold match_len. simpl. rewrite Hc, (IH Hs). reflexivity.
Qed.

Lemma rstrip_no_space (s : string) : has_space s = false -> rstrip s = s.
Proof.
  induction s as [| c s IH]; simpl; [reflexivity |].
  intros H. apply orb_false_iff in H. destruct H as [Hc Hs].
  rewrite (IH Hs), Hc. destruct s; reflexivity.
Qed.

Lemma strip_no_space (s : string) : has_space s = false -> strip s = s.
Proof.
  intros H. unfold strip.
  assert (lstrip s = s) as ->.
  { destruct s as [| c s]; simpl in *; [reflexivity |].
    apply orb_false_iff in H. destruct H as [-> _]. reflexivity. }
  apply rstrip_no_space, H.
Qed.

Lemma mapping_get_value (t : list (string * string)) (k v : string) :
  mapping_get t k = Some v -> In v (map snd t).
Proof.
  induction t as [| [key value] t IH]; simpl; [discriminate |].
  destruct (String.eqb key k); [intros [= ->]; left; reflexivity |].
  intros H. right. exact (IH H).
Qed.

Lemma partial_match_value (t : list (string * string)) (l v : string) :
  partial_match t l = Some v -> In v (map snd t).
Proof.
  induction t as [| [key value] t IH]; simpl; [discriminate |].
  destruct (Py.contains l (Py.lower key)); [intros [= ->]; left; reflexivity |].
  intros H. right. exact (IH H).
Qed.

Lemma mapped_values_not_empty (v : string) :
  In v (map snd name_mappings) -> v <> EmptyString.
Proof.
  intros H ->. revert H. simpl. intuition discriminate.
Qed.

(** No key of the rows [t] occurs, lowered, in the lowered name. *)
Definition no_key (t : list (string * string)) (lowered : string) : Prop :=
  forall key value, In (key, value) t ->
                    ~ ResolverFacts.occurs (Py.lower key) lowered.

Lemma no_key_none (t : list (string * string)) (lowered : string) :
  no_key t lowered <-> partial_match t lowered = None.
Proof.
  induction t as [| [key value] t IH]; simpl.
  - split; [reflexivity | intros _ ? ? []].
  - destruct (Py.contains lowered (Py.lower key)) eqn:E.
    + split; [| discriminate]. intros H. exfalso.
      apply (H key value (or_introl eq_refl)).
      apply ResolverFacts.contains_spec, E.
    + rewrite <- IH. split.
      * intros H k v Hin. apply (H k v). right. exact Hin.
      * intros H k v [[= -> ->] | Hin]; [| exact (H k v Hin)].
        intros Ho. apply ResolverFacts.contains_spec in Ho. congruence.
Qed.

Lemma partial_match_app (before rest : list (string * string)) (l : string) :
  partial_match before l = None ->
  partial_match (before ++ rest) l = partial_match rest l.
Proof.
  induction before as [| [k v] before IH]; simpl; [reflexivity |].
  destruct (Py.contains l (Py.lower k)); [discriminate | exact IH].
Qed.

(** X16.  [get_app_name_from_process_name] never returns an empty name: it
    gives "Unknown" for a missing or empty process name; for a name that is
    no key of the table, the value of the first key, in table order, that
    occurs in it without regard to case; and a name without whitespace in
    which no key occurs is passed through unchanged. *)
Theorem app_name_never_empty :
  (forall process_name,
      get_app_name_from_process_name process_name <> EmptyString)
  /\ get_app_name_from_process_name None = "Unknown"%string
  /\ get_app_name_from_process_name (Some EmptyString) = "Unknown"%string
  /\ (forall name before key value after,
        name <> EmptyString ->
        mapping_get name_mappings name = None ->
        name_mappings = before ++ (key, value) :: after ->
        no_key before (Py.lower name) ->
        ResolverFacts.occurs (Py.lower key) (Py.lower name) ->
        get_app_name_from_process_name (Some name) = value)
  /\ (forall name,
        name <> EmptyString ->
        mapping_get name_mappings name = None ->
        no_key name_mappings (Py.lower name) ->
        has_space name = false ->
        get_app_name_from_process_name (Some name) = name).
Proof.
  split; [| split; [reflexivity | split; [reflexivity | split]]].
  - intros [[| c name] |]; try discriminate.
    unfold get_app_name_from_process_name.
    change (negb (Py.truthy_str (Some (String c name)))) with false.
    change (default ""%string (Some (String c name))) with (String c name).
    cbv iota.
    destruct (mapping_get name_mappings (String c name)) as [v |] eqn:E1.
    { apply mapped_values_not_empty, (mapping_get_value _ _ _ E1). }
    destruct (partial_match name_mappings (Py.lower (String c name)))
      as [v |] eqn:E2.
    { apply mapped_values_not_empty, (partial_match_value _ _ _ E2). }
    destruct (strip (re_sub (String c name) 0)); discriminate.
  - intros name before key value after Hne Hget Htab Hbefore Hocc.
    unfold get_app_name_from_process_name.
    destruct name as [| c name]; [congruence |].
    change (negb (Py.truthy_str (Some (String c name)))) with false.
    change (default ""%string (Some (String c name))) with (String c name).
    cbv iota. rewrite Hget.
    assert (E : partial_match name_mappings (Py.lower (String c name))
                = Some value).
    { rewrite Htab, partial_match_app by (apply no_key_none, Hbefore).
      cbn [partial_match].
      apply ResolverFacts.contains_spec in Hocc. rewrite Hocc. reflexivity. }
    rewrite E. reflexivity.
  - intros name Hne Hget Hno Hsp.
    unfold get_app_name_from_process_name.
    destruct name as [| c name]; [congruence |].
    change (negb (Py.truthy_str (Some (String c name)))) with false.
    change (default ""%string (Some (String c name))) with (String c name).
    cbv iota. rewrite Hget.
    apply no_key_none in Hno. rewrite Hno.
    rewrite (re_sub_no_space _ Hsp), (strip_no_space _ Hsp). reflexivity.
Qed.

Lemma app_name_never_empty_witness :
  get_app_name_from_process_name (Some "Google Chrome Helper (Renderer)"%string)
    = "Chrome"%string
  /\ get_app_name_from_process_name (Some "Xcode"%string) = "VS Code"%string
  /\ get_app_name_from_process_name (Some "mDNSResponder"%string)
     = "mDNSResponder"%string.
Proof.
  destruct app_name_never_empty as (_ & _ & _ & Hpartial & Hpass).
  split; [| split].
  - apply (Hpartial "Google Chrome Helper (Renderer)"%string []
             "Google Chrome"%string "Chrome"%string (tail name_mappings)).
    + discriminate.
    + reflexivity.
    + reflexivity.
    + intros ? ? [].
    + exists EmptyString, " helper (renderer)"%string. reflexivity.
  - apply (Hpartial "Xcode"%string (firstn 7 name_mappings)
             "Code"%string "VS Code"%string (skipn 8 name_mappings)).
    + discriminate.
    + reflexivity.
    + reflexivity.
    + apply no_key_none. vm_compute. reflexivity.
    + exists "x"%string, EmptyString. reflexivity.
  - apply Hpass.
    + discriminate.
    + reflexivity.
    + apply no_key_none. vm_compute. reflexivity.
    + reflexivity.
Defined.

(** The example of the docstring, and the removal of helper suffixes. *)
Example helper_suffix_removed :
  get_app_name_from_process_name (Some "Acme  Renderer Tool GPU"%string)
  = "Acme Tool"%string.
Proof. reflexivity. Qed.

(** Helper forms of the two facts above, for the pipeline. *)
Lemma find_process_shape
    (m : mapper) (os1 os2 : os_view) (run : run_outcome)
    (local_port : Z) (remote_ip : option string) (remote_port : option Z) :
  (forall res,
      snd (find_process_by_port m os1 os2 run local_port remote_ip remote_port)
      = Py.Return res ->
      resolved_or_nothing res).
Proof.
  intros res. unfold find_process_by_port. cbn [snd].
  set (by_port := match scan_local_port _ _ with
                  | Some v => _ | None => _ end).
  assert (Hby : by_port = Py.Return res -> resolved_or_nothing res).
  { unfold by_port. destruct (scan_local_port _ _).
    - intros [= <-]. exact I.
    - unfold _find_process_with_lsof.
      destruct (lsof_try run) as [[[p n] |] | e].
      + intros [= <-]. exact I.
      + intros [= <-]. exact I.
      + destruct e; try discriminate; intros [= <-]; exact I. }
  destruct (Py.truthy_str remote_ip && Py.truthy_int remote_port);
    [| exact Hby].
  destruct (table_get _ _); [| exact Hby].
  intros [= <-]. exact I.
Qed.

Lemma app_name_not_empty (process_name : option string) :
  get_app_name_from_process_name process_name <> EmptyString.
Proof.
  destruct process_name as [[| c name] |]; try discriminate.
  unfold get_app_name_from_process_name.
  change (negb (Py.truthy_str (Some (String c name)))) with false.
  change (default ""%string (Some (String c name))) with (String c name).
  cbv iota.
  destruct (mapping_get name_mappings (String c name)) as [v |] eqn:E1.
  { apply mapped_values_not_empty, (mapping_get_value _ _ _ E1). }
  destruct (partial_match name_mappings (Py.lower (String c name)))
    as [v |] eqn:E2.
  { apply mapped_values_not_empty, (partial_match_value _ _ _ E2). }
  destruct (strip (re_sub (String c name) 0)); discriminate.
Qed.

(** The decimal numeral of [n], as [lsof] prints a pid. *)
Definition decimal (n : nat) : string :=
  NilEmpty.string_of_uint (Nat.to_uint n).

Fixpoint no_newline (s : string) : bool :=
  match s with
  | EmptyString => true
  | String c s' => negb (Ascii.eqb c "010"%char) && no_newline s'
  end.

Lemma parse_digits_numeral (d : Decimal.uint) :
  forall acc b,
    d <> Decimal.Nil \/ b = true ->
    parse_digits (NilEmpty.string_of_uint d) (Z.of_nat acc) b
    = Some (Z.of_nat (Nat.of_uint_acc d acc)).
Proof.
  induction d; intros acc b Hb;
    try (cbn [NilEmpty.string_of_uint parse_digits Nat.of_uint_acc];
         change (digit_value _) with (Some (Z.of_nat 0))
         || change (digit_value _) with (Some (Z.of_nat 1))
         || change (digit_value _) with (Some (Z.of_nat 2))
         || change (digit_value _) with (Some (Z.of_nat 3))
         || change (digit_value _) with (Some (Z.of_nat 4))
         || change (digit_value _) with (Some (Z.of_nat 5))
         || change (digit_value _) with (Some (Z.of_nat 6))
         || change (digit_value _) with (Some (Z.of_nat 7))
         || change (digit_value _) with (Some (Z.of_nat 8))
         || change (digit_value _) with (Some (Z.of_nat 9));
         cbv iota;
         match goal with
         | |- parse_digits _ (10 * Z.of_nat acc + Z.of_nat ?k) true
              = Some (Z.of_nat (Nat.of_uint_acc d ?a)) =>
             replace (10 * Z.of_nat acc + Z.of_nat k) with (Z.of_nat a)
               by (rewrite Nat.tail_mul_spec; lia);
             apply IHd; right; reflexivity
         end).
  simpl. destruct Hb as [Hb | ->]; [congruence | reflexivity].
Qed.

Lemma numeral_chars (d : Decimal.uint) :
  has_space (NilEmpty.string_of_uint d) = false
  /\ no_newline (NilEmpty.string_of_uint d) = true.
Proof.
  induction d; simpl; try (split; reflexivity);
    destruct IHd as [H1 H2]; rewrite ?H1, ?H2; split; reflexivity.
Qed.

Lemma to_uint_not_nil (n : nat) : Nat.to_uint n <> Decimal.Nil.
Proof.
  intros H. pose proof (Unsigned.of_to n) as E. rewrite H in E.
  destruct n; [| discriminate E].
  revert H. vm_compute. discriminate.
Qed.

Lemma int_of_decimal (n : nat) : int_of_string (decimal n) = Some (Z.of_nat n).
Proof.
  unfold int_of_string, decimal.
  rewrite (strip_no_space _ (proj1 (numeral_chars (Nat.to_uint n)))).
  pose proof (parse_digits_numeral (Nat.to_uint n) 0 false
                (or_introl (to_uint_not_nil n))) as H.
  change (Nat.of_uint_acc (Nat.to_uint n) 0) with (Nat.of_uint (Nat.to_uint n))
    in H.
  rewrite Unsigned.of_to in H. change (Z.of_nat 0) with 0 in H.
  destruct (Nat.to_uint n); simpl in *; exact H.
Qed.

Lemma rstrip_app (a b : string) :
  rstrip b <> EmptyString -> rstrip (a +:+ b) = a +:+ rstrip b.
Proof.
  intros Hb. induction a as [| c a IH].
  - reflexivity.
  - rewrite !ResolverFacts.append_cons. cbn [rstrip]. rewrite IH.
    destruct (a +:+ rstrip b) eqn:E; [| reflexivity].
    destruct a; [| rewrite ResolverFacts.append_cons in E; discriminate].
    rewrite ResolverFacts.append_nil in E. congruence.
Qed.

Lemma rstrip_keeps_head (c : ascii) (s : string) :
  is_space c = false -> exists t, rstrip (String c s) = String c t.
Proof.
  intros Hc. cbn [rstrip]. destruct (rstrip s); [| eexists; reflexivity].
  rewrite Hc. eexists. reflexivity.
Qed.

Lemma append_assoc (a b c : string) : (a +:+ b) +:+ c = a +:+ (b +:+ c).
Proof.
  induction a as [| x a IH]; [reflexivity |].
  rewrite !ResolverFacts.append_cons, IH. reflexivity.
Qed.

Lemma append_nil_r (a : string) : a +:+ EmptyString = a.
Proof.
  induction a as [| x a IH]; [reflexivity |].
  rewrite ResolverFacts.append_cons, IH. reflexivity.
Qed.

Lemma startswith_head (c d : ascii) (s : string) :
  Py.startswith (String c s) (String d EmptyString) = Ascii.eqb c d.
Proof.
  unfold Py.startswith. cbn [String.prefix].
  destruct (ascii_dec d c) as [-> | Hne].
  - rewrite Ascii.eqb_refl. destruct s; reflexivity.
  - symmetry. apply Ascii.eqb_neq. congruence.
Qed.

Lemma split_line (s : string) :
  forall cur t,
    no_newline s = true ->
    split_lines_from cur (s +:+ String "010"%char t)
    = (cur +:+ s) :: split_lines_from EmptyString t.
Proof.
  induction s as [| c s IH]; intros cur t Hs.
  - rewrite ResolverFacts.append_nil. cbn [split_lines_from].
    change (Ascii.eqb "010" "010") with true. cbv iota.
    f_equal. symmetry. apply append_nil_r.
  - cbn [no_newline] in Hs. apply andb_true_iff in Hs. destruct Hs as [Hc Hs].
    apply negb_true_iff in Hc.
    rewrite ResolverFacts.append_cons. cbn [split_lines_from]. rewrite Hc.
    rewrite (IH _ _ Hs), append_assoc. reflexivity.
Qed.

(** X30.  Reading the answer of [lsof]: when the command exits with status
    0 and prints a line "p" followed by the decimal numeral of a positive
    pid, then a line "c" followed by a non-empty command name, then at least
    one more line that does not start with whitespace,
    [_find_process_with_lsof] returns exactly that pid and that name,
    spaces inside the name included. *)
Theorem lsof_answer_is_read_back
    (n : nat) (name : string) (ch : ascii) (rest : string) :
  (0 < n)%nat ->
  name <> EmptyString ->
  no_newline name = true ->
  is_space ch = false ->
  _find_process_with_lsof
    (Completed 0
       ("p" +:+ decimal n +:+ MapperFacts.nl +:+ "c" +:+ name
        +:+ MapperFacts.nl +:+ String ch rest))
  = Py.Return (Some (Z.of_nat n), Some name).
Proof.
  intros Hn Hname Hnl Hch.
  unfold _find_process_with_lsof, lsof_try.
  set (out := ("p" +:+ decimal n +:+ MapperFacts.nl +:+ "c" +:+ name
               +:+ MapperFacts.nl +:+ String ch rest)%string).
  assert (Hout : Py.truthy_str (Some out) = true) by reflexivity.
  change (0 =? 0) with true. rewrite Hout. cbn [andb].
  destruct (rstrip_keeps_head ch rest Hch) as [t Ht].
  assert (Hstrip : strip out
                   = ("p" +:+ decimal n) +:+ String "010"%char
                       (("c" +:+ name) +:+ String "010"%char (String ch t))).
  { unfold strip. change (lstrip out) with out. unfold out, MapperFacts.nl.
    rewrite <- Ht.
    replace ("p" +:+ decimal n +:+ String "010" "" +:+ "c" +:+ name
             +:+ String "010" "" +:+ String ch rest)%string
      with ((("p" +:+ decimal n) +:+ String "010"%char
               (("c" +:+ name) +:+ String "010"%char EmptyString))
            +:+ String ch rest)%string.
    - rewrite rstrip_app by (rewrite Ht; discriminate).
      rewrite !append_assoc, !ResolverFacts.append_cons,
        !ResolverFacts.append_nil, !append_assoc, !ResolverFacts.append_cons,
        !ResolverFacts.append_nil.
      reflexivity.
    - rewrite !append_assoc, !ResolverFacts.append_cons,
        !ResolverFacts.append_nil, !append_assoc, !ResolverFacts.append_cons,
        !ResolverFacts.append_nil.
      reflexivity. }
  rewrite Hstrip. unfold split_lines.
  assert (Hp : no_newline ("p" +:+ decimal n) = true).
  { rewrite ResolverFacts.append_cons, ResolverFacts.append_nil.
    cbn [no_newline]. unfold decimal.
    rewrite (proj2 (numeral_chars (Nat.to_uint n))). reflexivity. }
  assert (Hc : no_newline ("c" +:+ name) = true).
  { rewrite ResolverFacts.append_cons, ResolverFacts.append_nil.
    cbn [no_newline]. rewrite Hnl. reflexivity. }
  rewrite (split_line _ _ _ Hp), (split_line _ _ _ Hc).
  rewrite !ResolverFacts.append_nil.
  rewrite !ResolverFacts.append_cons, !ResolverFacts.append_nil.
  cbn [parse_lsof]. rewrite !startswith_head.
  change (Ascii.eqb "p" "p") with true. change (Ascii.eqb "c" "p") with false.
  change (Ascii.eqb "c" "c") with true.
  cbv iota. cbn [drop_first]. rewrite int_of_decimal.
  cbn [Py.truthy_int].
  destruct (Z.eqb_spec (Z.of_nat n) 0) as [E | E]; [lia |].
  destruct name as [| c0 name]; [congruence |]. reflexivity.
Qed.

Lemma lsof_answer_is_read_back_witness :
  (0 < 4242)%nat
  /\ "Google Chrome"%string <> EmptyString
  /\ no_newline "Google Chrome" = true
  /\ is_space "f" = false
  /\ _find_process_with_lsof
       (Completed 0
          ("p" +:+ decimal 4242 +:+ MapperFacts.nl +:+ "c" +:+ "Google Chrome"
           +:+ MapperFacts.nl +:+ "f12"))
     = Py.Return (Some 4242, Some "Google Chrome"%string).
Proof.
  assert (H : (0 < 4242)%nat) by lia.
  assert (Hname : "Google Chrome"%string <> EmptyString) by discriminate.
  split; [exact H |]. split; [exact Hname |].
  split; [reflexivity |]. split; [reflexivity |].
  exact (lsof_answer_is_read_back 4242 "Google Chrome" "f" "12" H
           Hname eq_refl eq_refl).
Defined.

End MapperMore.

(** ** The store: writes, retention and range queries *)

Module StoreFacts.
Import NetworkDatabase StoreQueries.

Definition sizes (ps : list packet) : Z :=
  fold_right (fun p acc => default 0 (packet_size p) + acc) 0 ps.

Definition total_of (rows : list row) : Z :=
  fold_right (fun r acc => row_packet_size r + acc) 0 rows.

Lemma total_of_app (a b : list row) : total_of (a ++ b) = total_of a + total_of b.
Proof. induction a as [| r a IH]; simpl; lia. Qed.

(** Ids counted up from [i]. *)
Fixpoint ids_from (i : Z) (n : nat) : list Z :=
  match n with
  | O => []
  | S n' => i :: ids_from (i + 1) n'
  end.

Lemma to_rows_facts (ps : list packet) :
  forall i rs,
    to_rows i ps = Some rs ->
    map row_id rs = ids_from i (length ps)
    /\ total_of rs = sizes ps
    /\ length rs = length ps
    /\ map row_app_name rs
       = map (fun p => Some (default "Unknown"%string (app_name p))) ps.
Proof.
  induction ps as [| p ps IH]; intros i rs; simpl.
  - intros [= <-]. repeat split.
  - destruct (to_row i p) as [r |] eqn:Er; [| discriminate].
    destruct (to_rows (i + 1) ps) as [rs' |] eqn:E; [| discriminate].
    intros [= <-]. destruct (IH _ _ E) as (H1 & H2 & H3 & H4).
    unfold to_row in Er.
    destruct (source_ip p), (dest_ip p), (protocol p); try discriminate.
    injection Er as <-. simpl. rewrite H1, H2, H3, H4. repeat split.
Qed.


(** What a successful [insert_batch] leaves in the table. *)
Lemma insert_batch_returns
    (d : database) (data_list : list packet) (io_ok : bool) (d' : database) :
  insert_batch d data_list io_ok = Py.Return d' ->
  exists rs,
    connections d' = connections d ++ rs
    /\ map row_id rs = ids_from (next_id d) (length rs)
    /\ next_id d' = next_id d + Z.of_nat (length rs)
    /\ (data_list <> [] -> length rs = length data_list)
    /\ get_connection_count d'
       = get_connection_count d + Z.of_nat (length data_list)
    /\ get_total_bandwidth d' = get_total_bandwidth d + sizes data_list.
Proof.
  unfold insert_batch.
  destruct data_list as [| p ps].
  - intros [= <-]. exists []. rewrite app_nil_r. simpl.
    unfold get_connection_count. repeat split; try lia; congruence.
  - destruct io_ok; [| discriminate].
    destruct (to_rows (next_id d) (p :: ps)) as [rs |] eqn:E;
      [| discriminate].
    intros [= <-]. exists rs.
    destruct (to_rows_facts _ _ _ E) as (H1 & H2 & H3 & _).
    unfold get_connection_count, get_total_bandwidth.
    cbn [connections next_id].
    fold (total_of (connections d ++ rs)) (total_of (connections d)).
    rewrite total_of_app, length_app, H2.
    split; [reflexivity |]. split; [rewrite H1, H3; reflexivity |].
    split; [reflexivity |]. split; [intros _; exact H3 |].
    split; lia.
Qed.




Definition sample_packet (name : option string) (size : Z) (t : Q) : packet :=
  {| timestamp := t; source_ip := Some "192.168.1.20"%string;
     dest_ip := Some "93.184.216.34"%string; protocol := Some "TCP"%string;
     source_port := Some 51234; dest_port := Some 443;
     packet_size := Some size; app_name := name; pid := None;
     dest_hostname := None; category := None |}.



(** Ids are below the next free id and increase along the table. *)
Definition ids_ok (d : database) : Prop :=
  StronglySorted Z.lt (map row_id (connections d))
  /\ Forall (fun i => i < next_id d) (map row_id (connections d)).

Lemma ids_from_sorted (n : nat) :
  forall i, StronglySorted Z.lt (ids_from i n)
            /\ Forall (fun j => i <= j < i + Z.of_nat n) (ids_from i n).
Proof.
  induction n as [| n IH]; intros i; simpl.
  - split; constructor.
  - destruct (IH (i + 1)) as [H1 H2]. split.
    + constructor; [exact H1 |].
      eapply List.Forall_impl; [| exact H2]. simpl. intros; lia.
    + constructor; [lia |].
      eapply List.Forall_impl; [| exact H2]. simpl. intros; lia.
Qed.

Lemma sorted_app (a b : list Z) (bound : Z) :
  StronglySorted Z.lt a -> Forall (fun i => i < bound) a ->
  StronglySorted Z.lt b -> Forall (fun j => bound <= j) b ->
  StronglySorted Z.lt (a ++ b).
Proof.
  induction a as [| x a IH]; simpl; intros Ha Hb Hs Hge; [exact Hs |].
  inversion Ha as [| ? ? Ha' Hx]; subst.
  inversion Hb as [| ? ? Hxb Hb']; subst.
  constructor; [apply IH; assumption |].
  apply Forall_app. split; [exact Hx |].
  eapply List.Forall_impl; [| exact Hge]. simpl. intros; lia.
Qed.

Lemma filter_ids_ok (f : row -> bool) (rows : list row) (bound : Z) :
  StronglySorted Z.lt (map row_id rows) ->
  Forall (fun i => i < bound) (map row_id rows) ->
  StronglySorted Z.lt (map row_id (List.filter f rows))
  /\ Forall (fun i => i < bound) (map row_id (List.filter f rows)).
Proof.
  induction rows as [| r rows IH]; simpl; intros Hs Hb; [auto |].
  inversion Hs as [| ? ? Hs' Hr]; subst.
  inversion Hb as [| ? ? Hrb Hb']; subst.
  destruct (IH Hs' Hb') as [H1 H2].
  destruct (f r); simpl; [| auto].
  split; [| constructor; assumption].
  constructor; [exact H1 |].
  rewrite List.Forall_forall in *. intros i Hi. apply Hr.
  apply in_map_iff in Hi. destruct Hi as (r' & <- & Hr').
  apply in_map. apply filter_In in Hr'. tauto.
Qed.

(** X18.  Row ids identify rows for good: starting from the empty store,
    whatever batches and single records are inserted (successfully or not)
    and whatever retention sweeps are made, the ids of the stored rows are
    strictly increasing in insertion order, hence distinct, and all below
    the next id to be assigned; a sweep never makes an id available
    again. *)
Theorem row_ids_stay_unique (d : database) :
  ids_ok d ->
  (forall data_list io_ok d',
      insert_batch d data_list io_ok = Py.Return d' -> ids_ok d')
  /\ (forall data io_ok d',
        insert_connection d data io_ok = Py.Return d' ->
        ids_ok d' /\ insert_batch d [data] io_ok = Py.Return d')
  /\ (forall days now,
        ids_ok (fst (cleanup_old_data d days now))
        /\ next_id (fst (cleanup_old_data d days now)) = next_id d)
  /\ ids_ok empty.
Proof.
  intros [Hs Hb].
  assert (Hbatch : forall data_list io_ok d',
             insert_batch d data_list io_ok = Py.Return d' -> ids_ok d').
  { intros data_list io_ok d' H.
    destruct (insert_batch_returns d data_list io_ok d' H)
      as (rs & Hc & Hid & Hn & _).
    unfold ids_ok. rewrite Hc, Hn, map_app, Hid.
    destruct (ids_from_sorted (length rs) (next_id d)) as [H1 H2]. split.
    - apply (sorted_app _ _ (next_id d)); auto.
      eapply List.Forall_impl; [| exact H2]. simpl. intros; lia.
    - apply Forall_app. split.
      + eapply List.Forall_impl; [| exact Hb]. simpl. intros; lia.
      + eapply List.Forall_impl; [| exact H2]. simpl. intros; lia. }
  split; [exact Hbatch |]. split; [| split].
  - intros data io_ok d' H.
    assert (E : insert_batch d [data] io_ok = Py.Return d').
    { revert H. unfold insert_connection, insert_batch. simpl.
      destruct io_ok; [| discriminate].
      destruct (to_row (next_id d) data); [| discriminate].
      intros [= <-]. reflexivity. }
    split; [exact (Hbatch _ _ _ E) | exact E].
  - intros days now. unfold cleanup_old_data, ids_ok. cbn [fst connections next_id].
    split; [| reflexivity]. apply filter_ids_ok; assumption.
  - split; constructor.
Qed.

Lemma row_ids_stay_unique_witness :
  ids_ok empty
  /\ (exists d',
        insert_batch empty [sample_packet None 10 1; sample_packet None 20 2]
          true = Py.Return d'
        /\ ids_ok d').
Proof.
  assert (H : ids_ok empty) by (split; constructor).
  split; [exact H |].
  eexists. split; [reflexivity |].
  exact (proj1 (row_ids_stay_unique empty H)
           [sample_packet None 10 1; sample_packet None 20 2] true _ eq_refl).
Defined.

Definition newer (a b : row) : Prop := (row_timestamp b <= row_timestamp a)%Q.

Lemma insert_by_time_perm (r : row) (l : list row) :
  Permutation (insert_by_time r l) (r :: l).
Proof.
  induction l as [| y l IH]; simpl; [reflexivity |].
  destruct (Qle_bool (row_timestamp y) (row_timestamp r)); [reflexivity |].
  rewrite IH. apply perm_swap.
Qed.

Lemma newest_first_perm (l : list row) : Permutation (newest_first l) l.
Proof.
  induction l as [| r l IH]; simpl; [reflexivity |].
  rewrite insert_by_time_perm, IH. reflexivity.
Qed.

Lemma insert_by_time_sorted (r : row) (l : list row) :
  StronglySorted newer l -> StronglySorted newer (insert_by_time r l).
Proof.
  induction l as [| y l IH]; intros Hs; simpl.
  - repeat constructor.
  - inversion Hs as [| ? ? Hl Hy]; subst.
    destruct (Qle_bool (row_timestamp y) (row_timestamp r)) eqn:E.
    + apply Qle_bool_iff in E. constructor; [exact Hs |].
      constructor; [exact E |].
      eapply List.Forall_impl; [| exact Hy].
      unfold newer. intros x Hx. eapply Qle_trans; eassumption.
    + assert (Hlt : (row_timestamp r < row_timestamp y)%Q).
      { apply Qnot_le_lt. intros H. apply Qle_bool_iff in H. congruence. }
      constructor; [apply IH, Hl |].
      apply List.Forall_forall. intros x Hx.
      apply (Permutation_in _ (insert_by_time_perm r l)) in Hx.
      destruct Hx as [<- | Hx]; [unfold newer; apply Qlt_le_weak, Hlt |].
      rewrite List.Forall_forall in Hy. apply Hy, Hx.
Qed.

Lemma newest_first_sorted (l : list row) : StronglySorted newer (newest_first l).
Proof.
  induction l as [| r l IH]; simpl; [constructor |].
  apply insert_by_time_sorted, IH.
Qed.

Lemma filter_lengths {A} (f : A -> bool) (l : list A) :
  (length (List.filter f l) + length (List.filter (fun x => negb (f x)) l)
   = length l)%nat.
Proof. induction l as [| x l IH]; simpl; [| destruct (f x); simpl]; lia. Qed.

(** X19.  A retention sweep deletes exactly the rows stamped before the
    cut-off [now - days * 86400] and reports their number: the rows left
    are those at or after the cut-off, deleted and remaining rows add up to
    the rows there were, and repeating the sweep deletes nothing.  When
    every row is older than the cut-off the table is emptied. *)
Theorem cleanup_deletes_rows_before_cutoff (d : database) (days : Z) (now : Q) :
  let cutoff := (now - inject_Z (days * 24 * 60 * 60))%Q in
  let d' := fst (cleanup_old_data d days now) in
  let deleted := snd (cleanup_old_data d days now) in
  (forall r, In r (connections d')
             <-> In r (connections d) /\ (cutoff <= row_timestamp r)%Q)
  /\ deleted + get_connection_count d' = get_connection_count d
  /\ 0 <= deleted
  /\ cleanup_old_data d' days now = (d', 0)
  /\ (Forall (fun r => (row_timestamp r < cutoff)%Q) (connections d) ->
      connections d' = [] /\ deleted = get_connection_count d).
Proof.
  cbv zeta. unfold cleanup_old_data, get_connection_count.
  cbn [fst snd connections next_id].
  set (cutoff := (now - inject_Z (days * 24 * 60 * 60))%Q).
  assert (Hkeep : forall r, negb (older_than cutoff r) = true
                            <-> (cutoff <= row_timestamp r)%Q).
  { intros r. unfold older_than. rewrite negb_involutive. apply Qle_bool_iff. }
  split; [| split; [| split; [| split]]].
  - intros r. rewrite filter_In, Hkeep. reflexivity.
  - pose proof (filter_lengths (older_than cutoff) (connections d)). lia.
  - lia.
  - f_equal.
    + f_equal. induction (connections d) as [| r rows IH]; simpl; [reflexivity |].
      destruct (negb (older_than cutoff r)) eqn:E; simpl; [| exact IH].
      rewrite E, IH. reflexivity.
    + induction (connections d) as [| r rows IH]; simpl; [reflexivity |].
      destruct (older_than cutoff r) eqn:E; simpl; [exact IH |].
      rewrite E. exact IH.
  - intros Hall.
    assert (E : forall rows,
               Forall (fun r => (row_timestamp r < cutoff)%Q) rows ->
               List.filter (fun r => negb (older_than cutoff r)) rows = []
               /\ List.filter (older_than cutoff) rows = rows).
    { induction rows as [| r rows IH]; simpl; intros H; [auto |].
      inversion H as [| ? ? Hr Hrows]; subst.
      destruct (IH Hrows) as [H1 H2].
      assert (Eo : older_than cutoff r = true).
      { unfold older_than. apply negb_true_iff.
        destruct (Qle_bool cutoff (row_timestamp r)) eqn:Eq; [| reflexivity].
        apply Qle_bool_iff in Eq. exfalso. apply (Qlt_not_le _ _ Hr Eq). }
      rewrite Eo. simpl. rewrite H1, H2. auto. }
    destruct (E _ Hall) as [H1 H2]. rewrite H1, H2. auto.
Qed.

Definition three_rows : database :=
  match insert_batch empty
          [ sample_packet (Some "curl"%string) 10 100;
            sample_packet None 20 200;
            sample_packet (Some "curl"%string) 30 300 ] true with
  | Py.Return d => d
  | Py.Raise _ => empty
  end.

Lemma cleanup_deletes_rows_before_cutoff_witness :
  Forall (fun r => (row_timestamp r < 1000 - inject_Z (0 * 24 * 60 * 60))%Q)
    (connections three_rows)
  /\ snd (cleanup_old_data three_rows 0 1000) = 3
  /\ connections (fst (cleanup_old_data three_rows 0 1000)) = [].
Proof.
  assert (H : Forall (fun r => (row_timestamp r
                                < 1000 - inject_Z (0 * 24 * 60 * 60))%Q)
                (connections three_rows)).
  { repeat constructor. }
  destruct (cleanup_deletes_rows_before_cutoff three_rows 0 1000)
    as (_ & _ & _ & _ & Hall).
  destruct (Hall H) as [H1 H2].
  split; [exact H |]. split; [rewrite H2; reflexivity | exact H1].
Defined.

(** X20.  [get_connections_by_timerange] returns exactly the stored rows
    whose timestamp lies between the two bounds, both included, newest
    first; an interval whose end is before its start selects nothing. *)
Theorem timerange_is_inclusive (d : database) (start_time end_time : Q) :
  let res := get_connections_by_timerange d start_time end_time in
  (forall r, In r res
             <-> In r (connections d)
                 /\ (start_time <= row_timestamp r)%Q
                 /\ (row_timestamp r <= end_time)%Q)
  /\ StronglySorted newer res
  /\ (length res <= length (connections d))%nat
  /\ ((end_time < start_time)%Q -> res = []).
Proof.
  cbv zeta. unfold get_connections_by_timerange.
  set (sel := List.filter (in_range start_time end_time) (connections d)).
  assert (Hsel : forall r, In r sel
                           <-> In r (connections d)
                               /\ (start_time <= row_timestamp r)%Q
                               /\ (row_timestamp r <= end_time)%Q).
  { intros r. unfold sel, in_range.
    rewrite filter_In, andb_true_iff, !Qle_bool_iff. reflexivity. }
  split; [| split; [| split]].
  - intros r. rewrite <- Hsel. split; apply Permutation_in;
      [| symmetry]; apply newest_first_perm.
  - apply newest_first_sorted.
  - rewrite (Permutation_length (newest_first_perm sel)).
    unfold sel. apply List.filter_length_le.
  - intros Hlt. destruct sel as [| r rows] eqn:E; [reflexivity |].
    exfalso. destruct (proj1 (Hsel r) (or_introl eq_refl)) as (_ & H1 & H2).
    apply (Qlt_not_le _ _ Hlt). eapply Qle_trans; eassumption.
Qed.

Lemma timerange_is_inclusive_witness :
  (100 < 300)%Q
  /\ map row_packet_size (get_connections_by_timerange three_rows 200 300)
     = [30; 20]
  /\ get_connections_by_timerange three_rows 300 100 = [].
Proof.
  assert (H : (100 < 300)%Q) by reflexivity.
  split; [exact H |]. split; [reflexivity |].
  exact (proj2 (proj2 (proj2 (timerange_is_inclusive three_rows 300 100))) H).
Defined.

(** X21.  [get_recent_connections] returns stored rows, newest first, at
    most [limit] of them for a limit [n >= 0], and none of the rows left
    out is newer than a row returned. *)
Theorem recent_connections_are_the_newest (d : database) (limit : Z) :
  let res := get_recent_connections d limit in
  StronglySorted newer res
  /\ (exists rest,
        Permutation (connections d) (res ++ rest)
        /\ Forall (fun r => Forall (fun r' => newer r r') rest) res)
  /\ (0 <= limit -> (length res <= Z.to_nat limit)%nat)
  /\ (limit < 0 \/ get_connection_count d <= limit ->
      Permutation res (connections d)).
Proof.
  cbv zeta. unfold get_recent_connections, sql_limit, get_connection_count.
  pose proof (newest_first_sorted (connections d)) as Hs.
  pose proof (newest_first_perm (connections d)) as Hp.
  set (l := newest_first (connections d)) in *.
  assert (Hsplit : forall n,
             Forall (fun r => Forall (fun r' => newer r r') (drop n l))
               (take n l)).
  { clearbody l. clear Hp. intros n. revert n.
    induction l as [| x l IH]; intros [| n]; simpl; try constructor.
    - inversion Hs as [| ? ? _ Hx]; subst. apply Forall_drop, Hx.
    - inversion Hs; subst. apply IH. assumption. }
  destruct (Z.ltb_spec limit 0).
  - split; [exact Hs |]. split; [| split; [lia | intros _; exact Hp]].
    exists []. rewrite app_nil_r. split; [symmetry; exact Hp |].
    apply List.Forall_forall. intros; constructor.
  - split; [apply DatabaseFacts.take_sorted, Hs |].
    split; [| split].
    + exists (drop (Z.to_nat limit) l). rewrite take_drop.
      split; [symmetry; exact Hp | apply Hsplit].
    + intros _. rewrite length_take. lia.
    + intros [Hl | Hl]; [lia |].
      rewrite take_ge; [exact Hp |].
      rewrite (Permutation_length Hp). lia.
Qed.

Lemma recent_connections_are_the_newest_witness :
  0 <= 2
  /\ map row_packet_size (get_recent_connections three_rows 2) = [30; 20]
  /\ (length (get_recent_connections three_rows 2) <= 2)%nat.
Proof.
  assert (H : 0 <= 2) by lia.
  split; [exact H |]. split; [reflexivity |].
  exact (proj1 (proj2 (proj2 (recent_connections_are_the_newest three_rows 2)))
           H).
Defined.












End StoreFacts.

(** ** Enrichment and the worker's passes *)

Module PipelineFacts.
Import Enrichment NetworkMonitor.

(** The destination needs no lookup: it is missing or in a local range. *)
Definition local_destination (p : packet) : bool :=
  negb (Py.truthy_str (dest_ip p)
        && negb (DNSResolver.is_local_ip (default ""%string (dest_ip p)))).

(** The seven fields set by the sniffer agree. *)
Definition same_capture (p e : packet) : Prop :=
  timestamp e = timestamp p /\ source_ip e = source_ip p
  /\ dest_ip e = dest_ip p /\ protocol e = protocol p
  /\ source_port e = source_port p /\ dest_port e = dest_port p
  /\ packet_size e = packet_size p.

Lemma enrich_destination_spec (r : DNSResolver.resolver) (enriched : packet)
    (look : DNSResolver.lookup) :
  exists hostname cat r',
    enrich_destination r enriched look
    = (r', Py.Return (set_destination enriched hostname cat))
    /\ (local_destination enriched = true ->
        hostname = Some "Local Network"%string /\ cat = "Local"%string
        /\ r' = r)
    /\ (local_destination enriched = false ->
        DNSResolver.resolve_and_categorize r
          (default ""%string (dest_ip enriched)) look
        = (r', Py.Return (hostname, cat))
        /\ cat = DNSResolver.categorize_domain r hostname).
Proof.
  unfold enrich_destination, local_destination.
  destruct (Py.truthy_str (dest_ip enriched)
            && negb (DNSResolver.is_local_ip
                       (default ""%string (dest_ip enriched)))).
  - destruct (ResolverMore.resolve_and_categorize_returns r
                (default ""%string (dest_ip enriched)) look)
      as (h & cat & r' & E & Hc).
    rewrite E. exists h, cat, r'.
    split; [reflexivity |]. split; [discriminate | auto].
  - eexists _, _, _. split; [reflexivity |].
    split; [auto | discriminate].
Qed.

(** X23.  [_enrich_packet] raises only when [lsof] cannot be started.  When
    it returns, the seven fields written by the sniffer are unchanged and a
    category is always set.  For a packet with a non-zero source port the
    application name is set and not empty, with a pid or else "Unknown"
    without pid; for a packet whose source port is 0 or missing neither the
    application nor the pid is set and the connection table is not
    consulted. *)
Theorem enrich_sets_application (c : components) (p : packet) (w : world) :
  ((forall nm, run w <> ProcessMapper.OSError nm) ->
   exists e, snd (_enrich_packet c p w) = Py.Return e)
  /\ (forall e,
        snd (_enrich_packet c p w) = Py.Return e ->
        same_capture p e
        /\ (exists cat, category e = Some cat)
        /\ (Py.truthy_int (source_port p) = true ->
            (exists name, app_name e = Some name /\ name <> EmptyString)
            /\ ((exists i, pid e = Some i)
                \/ (app_name e = Some "Unknown"%string /\ pid e = None)))
        /\ (Py.truthy_int (source_port p) = false ->
            app_name e = app_name p /\ pid e = pid p
            /\ mapper (fst (_enrich_packet c p w)) = mapper c)).
Proof.
  assert (Hdest : forall m enriched,
             exists h cat r',
               (let '(r', res) := enrich_destination (resolver c) enriched
                                    (answer w) in
                ({| mapper := m; resolver := r' |}, res))
               = ({| mapper := m; resolver := r' |},
                  Py.Return (set_destination enriched h cat))).
  { intros m enriched.
    destruct (enrich_destination_spec (resolver c) enriched (answer w))
      as (h & cat & r' & E & _).
    exists h, cat, r'. rewrite E. reflexivity. }
  unfold _enrich_packet.
  destruct (Py.truthy_int (source_port p)) eqn:Eport.
  - destruct (ProcessMapper.find_process_by_port (mapper c) (os1 w) (os2 w)
                (run w) (default 0 (source_port p)) (dest_ip p) (dest_port p))
      as [m' [[ppid pname] | e0]] eqn:Efind.
    + pose proof (MapperMore.find_process_shape (mapper c) (os1 w)
                  (os2 w) (run w) (default 0 (source_port p)) (dest_ip p)
                  (dest_port p) (ppid, pname)) as Hshape.
      rewrite Efind in Hshape. specialize (Hshape eq_refl).
      destruct (Py.truthy_str pname) eqn:Ename.
      * destruct (Hdest m' (set_process p
                    (Some (AppNames.get_app_name_from_process_name pname))
                    ppid)) as (h & cat & r' & E).
        rewrite E. cbn [fst snd]. split; [intros _; eexists; reflexivity |].
        intros e [= <-]. cbn.
        split; [repeat split |]. split; [eexists; reflexivity |].
        split; [| discriminate]. intros _. split.
        -- eexists. split; [reflexivity |].
           apply MapperMore.app_name_not_empty.
        -- left. destruct ppid as [i |], pname as [n |]; simpl in *;
             try contradiction; try discriminate. eexists. reflexivity.
      * destruct (Hdest m' (set_process p (Some "Unknown"%string) None))
          as (h & cat & r' & E).
        rewrite E. cbn [fst snd]. split; [intros _; eexists; reflexivity |].
        intros e [= <-]. cbn.
        split; [repeat split |]. split; [eexists; reflexivity |].
        split; [| discriminate]. intros _. split.
        -- eexists. split; [reflexivity | discriminate].
        -- right. split; reflexivity.
    + cbn [fst snd]. split; [| discriminate].
      intros Hrun. exfalso.
      destruct (MapperFacts.lsof_returns (run w) Hrun) as [v Hv].
      revert Efind. unfold ProcessMapper.find_process_by_port.
      intros [= _ H]. revert H.
      destruct (Py.truthy_str (dest_ip p) && Py.truthy_int (dest_port p)).
      * destruct (ProcessMapper.table_get _ _); [discriminate |].
        destruct (ProcessMapper.scan_local_port _ _); [discriminate |].
        rewrite Hv. discriminate.
      * destruct (ProcessMapper.scan_local_port _ _); [discriminate |].
        rewrite Hv. discriminate.
  - destruct (Hdest (mapper c) p) as (h & cat & r' & E).
    rewrite E. cbn [fst snd]. split; [intros _; eexists; reflexivity |].
    intros e [= <-]. cbn.
    split; [repeat split |]. split; [eexists; reflexivity |].
    split; [discriminate |]. intros _. repeat split.
Qed.

Definition quiet_world : world :=
  {| os1 := MapperFacts.no_access; os2 := MapperFacts.no_access;
     run := ProcessMapper.TimeoutExpired;
     answer := Py.Raise DNSResolver.timeout_error |}.

Definition fresh_components : components :=
  {| mapper := ProcessMapper.init; resolver := DNSResolver.init |}.

Definition captured (sport : Z) (dst : string) (size : Z) : packet :=
  {| timestamp := 0%Q; source_ip := Some "192.168.1.20"%string;
     dest_ip := Some dst; protocol := Some "TCP"%string;
     source_port := Some sport; dest_port := Some 443;
     packet_size := Some size; app_name := None; pid := None;
     dest_hostname := None; category := None |}.

Lemma enrich_sets_application_witness :
  (exists e, snd (_enrich_packet fresh_components
                    (captured 51234 "93.184.216.34" 60) quiet_world)
             = Py.Return e)
  /\ Py.truthy_int (source_port (captured 0 "93.184.216.34" 60)) = false
  /\ (exists e,
        snd (_enrich_packet fresh_components (captured 0 "93.184.216.34" 60)
               quiet_world) = Py.Return e
        /\ app_name e = None).
Proof.
  split; [| split; [reflexivity |]].
  - apply (proj1 (enrich_sets_application fresh_components
                    (captured 51234 "93.184.216.34" 60) quiet_world)).
    intros nm. discriminate.
  - eexists. split; [reflexivity |].
    destruct (proj2 (enrich_sets_application fresh_components
                       (captured 0 "93.184.216.34" 60) quiet_world) _ eq_refl)
      as (_ & _ & _ & H).
    exact (proj1 (H eq_refl)).
Defined.

(** The shape of a returning [_enrich_packet]: the destination step
    applied to the packet, with or without the process fields. *)
Lemma enrich_packet_returns (c : components) (p : packet) (w : world) (e : packet) :
  snd (_enrich_packet c p w) = Py.Return e ->
  exists m' enriched,
    dest_ip enriched = dest_ip p
    /\ fst (_enrich_packet c p w)
       = {| mapper := m';
            resolver := fst (enrich_destination (resolver c) enriched
                               (answer w)) |}
    /\ snd (enrich_destination (resolver c) enriched (answer w)) = Py.Return e.
Proof.
  unfold _enrich_packet.
  destruct (Py.truthy_int (source_port p)).
  - destruct (ProcessMapper.find_process_by_port _ _ _ _ _ _ _)
      as [m' [[ppid pname] | e0]]; [| discriminate].
    destruct (Py.truthy_str pname).
    + destruct (enrich_destination (resolver c) (set_process p _ ppid)
                  (answer w)) as [r' res] eqn:E.
      cbn [fst snd]. intros ->. eexists m', _.
      split; [| rewrite E; split; reflexivity]. reflexivity.
    + destruct (enrich_destination (resolver c) (set_process p _ None)
                  (answer w)) as [r' res] eqn:E.
      cbn [fst snd]. intros ->. eexists m', _.
      split; [| rewrite E; split; reflexivity]. reflexivity.
  - destruct (enrich_destination (resolver c) p (answer w)) as [r' res] eqn:E.
    cbn [fst snd]. intros ->. eexists (mapper c), p.
    split; [| rewrite E; split; reflexivity]. reflexivity.
Qed.

(** X24.  Reverse lookups are spent on routable destinations only: when the
    destination address is missing or in a local range, [_enrich_packet]
    sets the host name "Local Network" and the category "Local" and leaves
    the resolver and its cache untouched; otherwise host name and category
    are those of [resolve_and_categorize] for the destination, the category
    being the one of the host name found. *)
Theorem local_destination_skips_lookup
    (c : components) (p : packet) (w : world) (e : packet) :
  snd (_enrich_packet c p w) = Py.Return e ->
  (local_destination p = true ->
   dest_hostname e = Some "Local Network"%string
   /\ category e = Some "Local"%string
   /\ resolver (fst (_enrich_packet c p w)) = resolver c)
  /\ (local_destination p = false ->
      exists ip,
        dest_ip p = Some ip
        /\ DNSResolver.is_local_ip ip = false
        /\ DNSResolver.resolve_and_categorize (resolver c) ip (answer w)
           = (resolver (fst (_enrich_packet c p w)),
              Py.Return (dest_hostname e,
                         DNSResolver.categorize_domain (resolver c)
                           (dest_hostname e)))
        /\ category e
           = Some (DNSResolver.categorize_domain (resolver c)
                     (dest_hostname e))).
Proof.
  intros He.
  destruct (enrich_packet_returns c p w e He) as (m' & enriched & Hd & Hf & Hs).
  destruct (enrich_destination_spec (resolver c) enriched (answer w))
    as (h & cat & r' & E & Hloc & Hrem).
  rewrite E in Hf, Hs. cbn [fst snd] in Hf, Hs. injection Hs as <-.
  rewrite Hf. cbn [resolver dest_hostname category set_destination].
  assert (Hsame : local_destination enriched = local_destination p)
    by (unfold local_destination; rewrite Hd; reflexivity).
  rewrite Hsame in Hloc, Hrem. split.
  - intros Hl. destruct (Hloc Hl) as (-> & -> & ->). repeat split.
  - intros Hl. destruct (Hrem Hl) as [Hr ->]. rewrite Hd in Hr.
    unfold local_destination in Hl. apply negb_false_iff in Hl.
    apply andb_true_iff in Hl. destruct Hl as [Ht Hn].
    apply negb_true_iff in Hn.
    destruct (dest_ip p) as [ip |]; [| discriminate].
    exists ip. repeat split; assumption.
Qed.

Lemma local_destination_skips_lookup_witness :
  local_destination (captured 51234 "192.168.1.5" 100) = true
  /\ (exists e,
        snd (_enrich_packet fresh_components (captured 51234 "192.168.1.5" 100)
               quiet_world) = Py.Return e
        /\ category e = Some "Local"%string
        /\ dest_hostname e = Some "Local Network"%string).
Proof.
  split; [reflexivity |]. eexists. split; [reflexivity |].
  destruct (local_destination_skips_lookup fresh_components
              (captured 51234 "192.168.1.5" 100) quiet_world _ eq_refl)
    as [H _].
  destruct (H eq_refl) as (Hh & Hc & _).
  split; [exact Hc | exact Hh].
Defined.

(** A run of passes of the worker, each on a packet taken from the queue. *)
Definition run_passes (st : monitor * components)
    (items : list (packet * world * Q * bool)) : monitor * components :=
  fold_left
    (fun st it =>
       let '(p, w, now, io_ok) := it in worker_pass st (Some p) w now io_ok)
    items st.

(** The local ports of the packets of a run. *)
Definition asked_ports (items : list (packet * world * Q * bool)) : list Z :=
  map (fun it => default 0 (source_port (fst (fst (fst it))))) items.

(** The connections listed by the system, when they can be read, hold no
    socket on one of the [ports]. *)
Definition lists_none_of (ports : list Z) (os : ProcessMapper.os_view) : Prop :=
  match ProcessMapper.net_connections os with
  | None => True
  | Some conns =>
      Forall (fun c => forall lp,
                option_map snd (ProcessMapper.laddr c) = Some lp ->
                ~ In lp ports) conns
  end.

(** No entry of the table is on one of the [ports]. *)
Definition off_ports (ports : list Z) (t : ProcessMapper.connection_table)
  : Prop :=
  Forall (fun e => ~ In (MapperFacts.local_port_of e) ports) t.

(** A packet of a run for which no process can be found, sent to a local
    destination: the system lists no socket on a source port of the run,
    and [lsof] finds nothing. *)
Definition unresolved_local (ports : list Z) (it : packet * world * Q * bool)
  : Prop :=
  let '(p, w, _, _) := it in
  Py.truthy_int (source_port p) = true
  /\ local_destination p = true
  /\ lists_none_of ports (os1 w)
  /\ lists_none_of ports (os2 w)
  /\ ProcessMapper._find_process_with_lsof (run w) = Py.Return (None, None).

Definition item_sizes (items : list (packet * world * Q * bool)) : Z :=
  fold_right (fun it acc => AggregatorFacts.size_of (fst (fst (fst it))) + acc)
    0 items.

Lemma loop_body_aggregator (m : monitor) (e : packet) (now : Q) (io_ok : bool) :
  aggregator (loop_body m (Packet (Some e) now io_ok))
  = fst (DataAggregator.add_packet (aggregator m) e now).
Proof.
  unfold loop_body.
  destruct (DataAggregator.add_packet (aggregator m) e now) as [a [[] | x]];
    cbv beta iota zeta; [| reflexivity].
  destruct (Config.BATCH_INSERT_SIZE <=? length (batch_buffer m ++ [e]))%nat;
    [| reflexivity].
  destruct (NetworkDatabase.insert_batch _ _ _); reflexivity.
Qed.

Lemma table_set_off_ports (ports : list Z) (t : ProcessMapper.connection_table)
    (k : ProcessMapper.key) (v : Z * string) :
  off_ports ports t -> ~ In (fst (fst k)) ports ->
  off_ports ports (ProcessMapper.table_set t k v).
Proof.
  unfold off_ports. intros Ht Hk.
  induction t as [| [k' v'] t IH]; simpl.
  - constructor; [exact Hk | constructor].
  - inversion Ht as [| ? ? Hk' Ht']; subst.
    destruct (ProcessMapper.key_eqb k' k); constructor; auto.
Qed.

Lemma refresh_loop_off_ports (ports : list Z)
    (name_of : Z -> ProcessMapper.process_lookup)
    (conns : list ProcessMapper.conn) :
  Forall (fun c => forall lp,
            option_map snd (ProcessMapper.laddr c) = Some lp ->
            ~ In lp ports) conns ->
  forall t, off_ports ports t ->
            off_ports ports (ProcessMapper.refresh_loop name_of conns t).
Proof.
  induction 1 as [| c conns Hc _ IH]; intros t Ht;
    cbn [ProcessMapper.refresh_loop]; [exact Ht |].
  destruct (ProcessMapper.raddr c) as [[remote_ip remote_port] |];
    [| apply IH, Ht].
  cbv zeta.
  destruct (option_map snd (ProcessMapper.laddr c)) as [lp |] eqn:El;
    [| apply IH, Ht].
  match goal with |- context [if ?b then _ else _] => destruct b end;
    [| apply IH, Ht].
  destruct (name_of _); try (apply IH, Ht); [| exact Ht].
  apply IH, table_set_off_ports; [exact Ht |]. apply Hc. reflexivity.
Qed.

Lemma refresh_off_ports (ports : list Z) (os : ProcessMapper.os_view) :
  lists_none_of ports os ->
  off_ports ports (ProcessMapper._refresh_connections os).
Proof.
  unfold lists_none_of, ProcessMapper._refresh_connections.
  destruct (ProcessMapper.net_connections os) as [conns |];
    [| intros _; constructor].
  intros H. apply refresh_loop_off_ports; [exact H | constructor].
Qed.

Lemma refreshed_off_ports (ports : list Z) (m : ProcessMapper.mapper)
    (os1 os2 : ProcessMapper.os_view) :
  off_ports ports (ProcessMapper.connection_cache m) ->
  lists_none_of ports os1 -> lists_none_of ports os2 ->
  off_ports ports
    (ProcessMapper.connection_cache (ProcessMapper.refreshed m os1 os2)).
Proof.
  intros Hm H1 H2. unfold ProcessMapper.refreshed.
  pose proof (refresh_off_ports ports os1 H1) as R1.
  pose proof (refresh_off_ports ports os2 H2) as R2.
  destruct (ProcessMapper._refresh_interval m
            <=? ProcessMapper._refresh_counter m + 1);
    cbn [ProcessMapper.connection_cache];
    destruct (ProcessMapper.is_empty _);
    cbn [ProcessMapper.connection_cache]; assumption.
Qed.

Lemma off_ports_scan (ports : list Z) (t : ProcessMapper.connection_table)
    (lp : Z) :
  off_ports ports t -> In lp ports -> ProcessMapper.scan_local_port t lp = None.
Proof.
  unfold off_ports. intros Ht Hin.
  induction Ht as [| [[[l rip] rp] v] t He _ IH]; simpl; [reflexivity |].
  destruct (Z.eqb_spec l lp) as [-> | Hne]; [| exact IH].
  exfalso. apply He. exact Hin.
Qed.

Lemma unresolved_local_enriched (ports : list Z) (c : components) (p : packet)
    (w : world) (now : Q) (io_ok : bool) :
  off_ports ports (ProcessMapper.connection_cache (mapper c)) ->
  In (default 0 (source_port p)) ports ->
  unresolved_local ports (p, w, now, io_ok) ->
  exists m',
    _enrich_packet c p w
    = ({| mapper := m'; resolver := resolver c |},
       Py.Return (set_destination (set_process p (Some "Unknown"%string) None)
                    (Some "Local Network"%string) "Local"%string))
    /\ off_ports ports (ProcessMapper.connection_cache m').
Proof.
  intros Hc Hin (Hport & Hloc & H1 & H2 & Hlsof).
  unfold _enrich_packet. rewrite Hport.
  pose proof (refreshed_off_ports ports (mapper c) (os1 w) (os2 w) Hc H1 H2)
    as Hoff.
  pose proof (off_ports_scan ports _ _ Hoff Hin) as Hscan.
  unfold ProcessMapper.find_process_by_port. rewrite Hscan, Hlsof.
  assert (Hif : (if Py.truthy_str (dest_ip p) && Py.truthy_int (dest_port p)
                 then
                   match
                     ProcessMapper.table_get
                       (ProcessMapper.connection_cache
                          (ProcessMapper.refreshed (mapper c) (os1 w) (os2 w)))
                       (default 0 (source_port p),
                        default ""%string (dest_ip p),
                        default 0 (dest_port p))
                   with
                   | Some v => Py.Return (Some (fst v), Some (snd v))
                   | None => @Py.Return ProcessMapper.exn _
                               (@None Z, @None string)
                   end
                 else Py.Return (None, None)) = Py.Return (None, None)).
  { destruct (_ && _); [| reflexivity].
    destruct (ProcessMapper.table_get _ _) as [v |] eqn:E; [| reflexivity].
    exfalso. exact (MapperFacts.exact_hit_is_scan_hit _ _ _ _ _ E Hscan). }
  rewrite Hif. cbn [Py.truthy_str].
  unfold enrich_destination. unfold local_destination in Hloc.
  apply negb_true_iff in Hloc. cbn [dest_ip set_process]. rewrite Hloc.
  eexists. split; [reflexivity | exact Hoff].
Qed.

Lemma unknown_local_counters (e : packet) (now : Q) (a : DataAggregator.aggregator)
    (x y : Z) :
  app_name e = Some "Unknown"%string -> category e = Some "Local"%string ->
  (DataAggregator.app_bandwidth a = [] /\ x = 0
   \/ DataAggregator.app_bandwidth a = [("Unknown"%string, x)]) ->
  (DataAggregator.category_bandwidth a = [] /\ y = 0
   \/ DataAggregator.category_bandwidth a = [("Local"%string, y)]) ->
  let a' := fst (DataAggregator.add_packet a e now) in
  DataAggregator.app_bandwidth a'
  = [("Unknown"%string, x + AggregatorFacts.size_of e)]
  /\ DataAggregator.category_bandwidth a'
     = [("Local"%string, y + AggregatorFacts.size_of e)].
Proof.
  intros Hn Hc Ha Hb. cbv zeta.
  destruct (AggregatorFacts.add_packet_counters a e now)
    as (_ & _ & H1 & H2 & _).
  cbv zeta in H1, H2. rewrite H1, H2, Hn, Hc.
  destruct Ha as [[-> ->] | ->], Hb as [[-> ->] | ->]; split; reflexivity.
Qed.

(** X25.  End to end: when no process can be found for any packet handled
    by the worker (whenever the connection table can be read it lists no
    socket on a source port of the run, and [lsof] finds nothing) and every
    packet goes to a local destination, then, on a fresh aggregator and with
    a new process mapper, all the bytes are recorded under the application
    "Unknown" and the category "Local": [get_top_apps(1)] is
    [("Unknown", S)] and [get_bandwidth_by_category()] is [("Local", S)] for
    the sum [S] of the packet sizes, and no reverse lookup was made. *)
Theorem unresolved_local_traffic_is_unknown_local
    (m : monitor) (t_rate t_start : Q)
    (items : list (packet * world * Q * bool)) :
  items <> [] ->
  Forall (unresolved_local (asked_ports items)) items ->
  aggregator m = DataAggregator.init t_rate t_start ->
  let st := run_passes (m, fresh_components) items in
  let a := aggregator (fst st) in
  DataAggregator.get_top_apps a 1 = [("Unknown"%string, item_sizes items)]
  /\ DataAggregator.get_bandwidth_by_category a
     = [("Local"%string, item_sizes items)]
  /\ DataAggregator.total_upload a + DataAggregator.total_download a
     = item_sizes items
  /\ resolver (snd st) = DNSResolver.init.
Proof.
  intros Hne Hall Hinit. cbv zeta.
  assert (G : forall ports items m0 c0 x y,
             incl (asked_ports items) ports ->
             Forall (unresolved_local ports) items ->
             off_ports ports (ProcessMapper.connection_cache (mapper c0)) ->
             (DataAggregator.app_bandwidth (aggregator m0) = [] /\ x = 0
              \/ DataAggregator.app_bandwidth (aggregator m0)
                 = [("Unknown"%string, x)]) ->
             (DataAggregator.category_bandwidth (aggregator m0) = [] /\ y = 0
              \/ DataAggregator.category_bandwidth (aggregator m0)
                 = [("Local"%string, y)]) ->
             let st := run_passes (m0, c0) items in
             (items <> [] ->
              DataAggregator.app_bandwidth (aggregator (fst st))
              = [("Unknown"%string, x + item_sizes items)]
              /\ DataAggregator.category_bandwidth (aggregator (fst st))
                 = [("Local"%string, y + item_sizes items)])
             /\ DataAggregator.total_upload (aggregator (fst st))
                + DataAggregator.total_download (aggregator (fst st))
                = DataAggregator.total_upload (aggregator m0)
                  + DataAggregator.total_download (aggregator m0)
                  + item_sizes items
             /\ resolver (snd st) = resolver c0).
  { clear. intros ports.
    induction items as [| [[[p w] now] io_ok] items IH];
      intros m0 c0 x y Hports Hall Hc Ha Hb; cbv zeta.
    - simpl. split; [congruence |]. split; [lia | reflexivity].
    - inversion Hall as [| ? ? Hit Hrest]; subst.
      assert (Hin : In (default 0 (source_port p)) ports)
        by (apply Hports; left; reflexivity).
      assert (Hports' : incl (asked_ports items) ports)
        by (intros z Hz; apply Hports; right; exact Hz).
      destruct (unresolved_local_enriched ports c0 p w now io_ok Hc Hin Hit)
        as (m' & E & Hm').
      set (e := set_destination (set_process p (Some "Unknown"%string) None)
                  (Some "Local Network"%string) "Local"%string) in *.
      set (m1 := loop_body m0 (Packet (Some e) now io_ok)).
      assert (Hpass : run_passes (m0, c0) ((p, w, now, io_ok) :: items)
                      = run_passes
                          (m1, {| mapper := m'; resolver := resolver c0 |})
                          items).
      { unfold run_passes. cbn [fold_left]. unfold worker_pass at 2.
        cbn [fst snd]. rewrite E. reflexivity. }
      rewrite Hpass.
      assert (Hagg : aggregator m1
                     = fst (DataAggregator.add_packet (aggregator m0) e now))
        by apply loop_body_aggregator.
      clearbody m1.
      destruct (unknown_local_counters e now (aggregator m0) x y
                  eq_refl eq_refl Ha Hb) as [Ha1 Hb1].
      cbv zeta in Ha1, Hb1. rewrite <- Hagg in Ha1, Hb1.
      destruct (AggregatorFacts.add_packet_totals (aggregator m0) e now)
        as (Ht & _). cbv zeta in Ht. rewrite <- Hagg in Ht.
      destruct (IH m1 {| mapper := m'; resolver := resolver c0 |}
                  (x + AggregatorFacts.size_of e)
                  (y + AggregatorFacts.size_of e) Hports' Hrest Hm'
                  (or_intror Ha1) (or_intror Hb1)) as (H1 & H2 & H3).
      cbv zeta in H1, H2, H3.
      assert (Hsize : AggregatorFacts.size_of e = AggregatorFacts.size_of p)
        by reflexivity.
      cbn [item_sizes fold_right fst]. fold (item_sizes items).
      split; [| split].
      + intros _. destruct items as [| it items'].
        * unfold run_passes. cbn [fold_left fst item_sizes fold_right].
          rewrite Ha1, Hb1, Hsize. split; do 2 f_equal; lia.
        * destruct (H1 ltac:(discriminate)) as [H4 H5].
          rewrite H4, H5, Hsize. split; do 2 f_equal; lia.
      + rewrite H2, Ht, Hsize. lia.
      + rewrite H3. reflexivity. }
  destruct (G (asked_ports items) items m fresh_components 0 0
              (incl_refl _) Hall (Forall_nil_2 _))
    as (H1 & H2 & H3); try (left; rewrite Hinit; split; reflexivity).
  cbv zeta in H1, H2, H3. destruct (H1 Hne) as [Ha Hb].
  unfold DataAggregator.get_top_apps, DataAggregator.get_bandwidth_by_category.
  rewrite Ha, Hb, H2, H3, Hinit. simpl. repeat split.
Qed.

Definition idle : monitor :=
  {| is_running := true; aggregator := DataAggregator.init 0 0;
     db := NetworkDatabase.empty; batch_buffer := [] |}.

(** The connection table can be read and lists one socket, on local port
    5353. *)
Definition one_socket : ProcessMapper.os_view :=
  {| ProcessMapper.net_connections :=
       Some [ {| ProcessMapper.laddr := Some ("192.168.1.20"%string, 5353);
                 ProcessMapper.raddr := Some ("224.0.0.251"%string, 5353);
                 ProcessMapper.conn_pid := Some 311 |} ];
     ProcessMapper.process_name_of :=
       fun p => if p =? 311 then ProcessMapper.ProcessName "mDNSResponder"
                else ProcessMapper.NoSuchProcess |}.

(** The table is readable; [lsof] exits with status 1, having found
    nothing. *)
Definition busy_world : world :=
  {| os1 := one_socket; os2 := one_socket;
     run := ProcessMapper.Completed 1 EmptyString;
     answer := Py.Raise DNSResolver.timeout_error |}.

Definition three_local : list (packet * world * Q * bool) :=
  [ (captured 50001 "192.168.1.5" 100, quiet_world, 0%Q, true);
    (captured 50002 "192.168.1.5" 200, busy_world, 0%Q, true);
    (captured 50003 "192.168.1.5" 300, busy_world, 0%Q, true) ].

Lemma unresolved_local_traffic_is_unknown_local_witness :
  three_local <> []
  /\ Forall (unresolved_local (asked_ports three_local)) three_local
  /\ DataAggregator.get_top_apps
       (aggregator (fst (run_passes (idle, fresh_components) three_local))) 1
     = [("Unknown"%string, 600)]
  /\ DataAggregator.total_upload
       (aggregator (fst (run_passes (idle, fresh_components) three_local)))
     = 600.
Proof.
  assert (Hne : three_local <> []) by discriminate.
  assert (Hall : Forall (unresolved_local (asked_ports three_local))
                   three_local).
  { assert (Hbusy : lists_none_of (asked_ports three_local) one_socket).
    { repeat constructor; intros lp [= <-]; simpl; intuition discriminate. }
    unfold three_local.
    repeat (apply List.Forall_cons; [repeat split; try exact Hbusy |]).
    apply List.Forall_nil. }
  destruct (unresolved_local_traffic_is_unknown_local idle 0 0 three_local
              Hne Hall eq_refl) as (Htop & _).
  split; [exact Hne |]. split; [exact Hall |].
  split; [exact Htop | reflexivity].
Defined.

(** X26.  The worker's loop drops no record, whatever writes fail: after
    any run of passes, the records that were buffered or reached the buffer
    are, in arrival order, the rows written since the start followed by the
    records still in the buffer; a batch whose write failed stays buffered
    and is written again with the next batch. *)
Theorem worker_loop_loses_no_record (m : monitor) (events : list loop_event) :
  let m' := fold_left loop_body events m in
  exists flushed rs,
    batch_buffer m ++ MonitorFacts.reached (aggregator m) events
    = flushed ++ batch_buffer m'
    /\ NetworkDatabase.to_rows (NetworkDatabase.next_id (db m)) flushed
       = Some rs
    /\ NetworkDatabase.connections (db m')
       = NetworkDatabase.connections (db m) ++ rs.
Proof.
  cbv zeta.
  destruct (MonitorFacts.loop_ledger (db m) events (batch_buffer m) m
              (MonitorFacts.ledger_start (db m) (batch_buffer m)))
    as (flushed & rs & H1 & H2 & H3 & _).
  exists flushed, rs. auto.
Qed.

Definition write_ok (ev : loop_event) : bool :=
  match ev with
  | QueueEmpty => true
  | Packet _ _ io_ok => io_ok
  end.

Definition write_fails (ev : loop_event) : bool :=
  match ev with
  | QueueEmpty => true
  | Packet _ _ io_ok => negb io_ok
  end.

(** X27.  While SQLite accepts the writes, the batch buffer stays below
    [BATCH_INSERT_SIZE] records after every pass.  While every write fails,
    nothing is written and the buffer keeps every record that reaches it,
    growing without bound. *)
Theorem batch_buffer_bounded_unless_writes_fail
    (m : monitor) (events : list loop_event) :
  let m' := fold_left loop_body events m in
  let new := MonitorFacts.reached (aggregator m) events in
  ((length (batch_buffer m) < Config.BATCH_INSERT_SIZE)%nat ->
   forallb MonitorFacts.storable (batch_buffer m ++ new) = true ->
   forallb write_ok events = true ->
   (length (batch_buffer m') < Config.BATCH_INSERT_SIZE)%nat)
  /\ (forallb write_fails events = true ->
      batch_buffer m' = batch_buffer m ++ new /\ db m' = db m).
Proof.
  cbv zeta. split.
  - revert m. induction events as [| ev events IH]; intros m Hlen Hst Hio.
    + exact Hlen.
    + cbn [fold_left]. cbn [forallb] in Hio. apply andb_true_iff in Hio.
      destruct Hio as [Hev Hio].
      destruct (MonitorFacts.loop_body_ledger (db m) (batch_buffer m) m ev
                  (MonitorFacts.ledger_start _ _)) as [_ Hsplit].
      rewrite (Hsplit events), app_assoc, forallb_app in Hst.
      apply andb_true_iff in Hst. destruct Hst as [Hst1 Hst2].
      assert (Hstep :
        (length (batch_buffer (loop_body m ev)) < Config.BATCH_INSERT_SIZE)%nat
        /\ forallb MonitorFacts.storable (batch_buffer (loop_body m ev))
           = true).
      { rewrite forallb_app in Hst1. apply andb_true_iff in Hst1.
        destruct Hst1 as [Hb Hnew].
        destruct ev as [| [p |] now io_ok]; unfold loop_body;
          try (split; assumption).
        cbn [MonitorFacts.reached] in Hnew. simpl in Hev. subst io_ok.
        destruct (DataAggregator.add_packet (aggregator m) p now)
          as [a [[] | e]]; cbv beta iota zeta;
          cbn [with_buffer batch_buffer]; [| split; assumption].
        assert (Hall : forallb MonitorFacts.storable (batch_buffer m ++ [p])
                       = true)
          by (rewrite forallb_app, Hb; exact Hnew).
        destruct (Nat.leb_spec Config.BATCH_INSERT_SIZE
                    (length (batch_buffer m ++ [p]))).
        - destruct (MonitorFacts.to_rows_storable _
                      (NetworkDatabase.next_id (db m)) Hall) as [rs Hrs].
          unfold NetworkDatabase.insert_batch. rewrite Hrs.
          destruct (batch_buffer m ++ [p]) eqn:E;
            cbn [with_buffer batch_buffer]; split; try reflexivity;
            unfold Config.BATCH_INSERT_SIZE; simpl; lia.
        - cbn [with_buffer batch_buffer]. split; assumption. }
      destruct Hstep as [Hlen' Hst'].
      apply IH; [exact Hlen' | | exact Hio].
      rewrite forallb_app, Hst'. exact Hst2.
  - revert m. induction events as [| ev events IH]; intros m Hio.
    + simpl. rewrite app_nil_r. split; reflexivity.
    + cbn [fold_left]. cbn [forallb] in Hio. apply andb_true_iff in Hio.
      destruct Hio as [Hev Hio].
      destruct (MonitorFacts.loop_body_ledger (db m) (batch_buffer m) m ev
                  (MonitorFacts.ledger_start _ _)) as [_ Hsplit].
      rewrite (Hsplit events), app_assoc.
      assert (Hstep :
        batch_buffer (loop_body m ev)
        = batch_buffer m ++ MonitorFacts.reached (aggregator m) [ev]
        /\ db (loop_body m ev) = db m).
      { destruct ev as [| [p |] now io_ok]; unfold loop_body;
          cbn [MonitorFacts.reached];
          try (rewrite app_nil_r; split; reflexivity).
        simpl in Hev. apply negb_true_iff in Hev. subst io_ok.
        destruct (DataAggregator.add_packet (aggregator m) p now)
          as [a [[] | e]]; cbv beta iota zeta;
          cbn [with_buffer batch_buffer db];
          [| rewrite app_nil_r; split; reflexivity].
        destruct (Config.BATCH_INSERT_SIZE <=? length (batch_buffer m ++ [p]))%nat;
          [| split; reflexivity].
        unfold NetworkDatabase.insert_batch.
        destruct (batch_buffer m ++ [p]) eqn:E; [| split; reflexivity].
        destruct (batch_buffer m); discriminate. }
      destruct Hstep as [Hb Hd]. destruct (IH (loop_body m ev) Hio) as [H1 H2].
      rewrite H1, H2, Hb, Hd. split; reflexivity.
Qed.

Definition twelve_failed_writes : list loop_event :=
  map (fun n => Packet (Some (captured (50000 + Z.of_nat n) "192.168.1.5" 100))
                  0%Q false) (seq 1 12).

Definition twelve_writes : list loop_event :=
  map (fun n => Packet (Some (captured (50000 + Z.of_nat n) "192.168.1.5" 100))
                  0%Q true) (seq 1 12).

Lemma batch_buffer_bounded_unless_writes_fail_witness :
  forallb write_fails twelve_failed_writes = true
  /\ length (batch_buffer (fold_left loop_body twelve_failed_writes idle))
     = 12%nat
  /\ db (fold_left loop_body twelve_failed_writes idle) = NetworkDatabase.empty
  /\ forallb write_ok twelve_writes = true
  /\ (length (batch_buffer (fold_left loop_body twelve_writes idle))
      < Config.BATCH_INSERT_SIZE)%nat.
Proof.
  assert (H : forallb write_fails twelve_failed_writes = true) by reflexivity.
  assert (Hok : forallb write_ok twelve_writes = true) by reflexivity.
  destruct (batch_buffer_bounded_unless_writes_fail idle twelve_failed_writes)
    as [_ Hfail].
  destruct (Hfail H) as [Hb Hd].
  split; [exact H |]. split; [rewrite Hb; reflexivity |].
  split; [exact Hd |]. split; [exact Hok |].
  apply (proj1 (batch_buffer_bounded_unless_writes_fail idle twelve_writes)).
  - unfold idle, batch_buffer, Config.BATCH_INSERT_SIZE, length. lia.
  - reflexivity.
  - exact Hok.
Defined.

Lemma flush_is_running (m : monitor) (io_ok : bool) :
  is_running (flush m io_ok) = is_running m.
Proof.
  unfold flush. destruct (batch_buffer m); [reflexivity |].
  destruct (NetworkDatabase.insert_batch _ _ _); reflexivity.
Qed.

(** X28.  [stop] leaves the monitor stopped and is idempotent: a second
    call, whatever the worker does meanwhile, changes nothing, and [stop]
    on a monitor that is not running neither joins nor flushes. *)
Theorem stop_is_idempotent (m : monitor) (j j' : join_outcome) :
  is_running (stop m j) = false
  /\ stop (stop m j) j' = stop m j
  /\ (is_running m = false -> stop m j = m).
Proof.
  assert (H : is_running (stop m j) = false).
  { unfold stop. destruct (is_running m) eqn:E; cbn [negb]; [| exact E].
    destruct j as [in_flight io_ok |]; [| reflexivity].
    unfold packet_processor_worker.
    rewrite flush_is_running, MonitorFacts.loop_is_running. reflexivity. }
  split; [exact H |]. split.
  - unfold stop at 1. rewrite H. reflexivity.
  - intros E. unfold stop. rewrite E. reflexivity.
Qed.

Lemma stop_is_idempotent_witness :
  is_running (stop idle JoinTimedOut) = false
  /\ stop (stop idle JoinTimedOut) (Joined [] true) = stop idle JoinTimedOut.
Proof.
  assert (H : is_running (stop idle JoinTimedOut) = false).
  { exact (proj1 (stop_is_idempotent idle JoinTimedOut JoinTimedOut)). }
  split; [exact H |].
  exact (proj2 (proj2 (stop_is_idempotent (stop idle JoinTimedOut)
                         (Joined [] true) JoinTimedOut)) H).
Defined.

End PipelineFacts.

(** ** The sniffer's hand-off *)

Module SnifferMore.
Import PacketSniffer.

Definition handle_all (s : sniffer) (frames : list (frame * Q)) : sniffer :=
  fold_left (fun s fn => _packet_handler s (fst fn) (snd fn)) frames s.

(** [n] calls of [get_packet_nowait]: the packets obtained, in order, up to
    the first call that finds the queue empty. *)
Fixpoint drain (n : nat) (s : sniffer) : list packet * sniffer :=
  match n with
  | O => ([], s)
  | S n' =>
      match get_packet_nowait s with
      | (Some p, s') => let '(ps, s'') := drain n' s' in (p :: ps, s'')
      | (None, s') => ([], s')
      end
  end.

Lemma callback_run (frames : list (frame * Q)) :
  forall s : sniffer,
    has_callback s = true ->
    packet_queue (handle_all s frames) = packet_queue s
    /\ callback_calls (handle_all s frames)
       = callback_calls s ++ CaptureQueue.built frames.
Proof.
  induction frames as [| [f now] frames IH]; intros s Hs.
  - simpl. rewrite app_nil_r. split; reflexivity.
  - unfold handle_all in *. cbn [fold_left fst snd CaptureQueue.built].
    unfold _packet_handler at 2 4.
    destruct (ip_layer f) as [[src dst] |]; [| apply IH, Hs].
    destruct (l4 f); rewrite ?Hs; try (apply IH, Hs);
      match goal with
      | |- context [fold_left _ frames ?s1] =>
          destruct (IH s1 eq_refl) as [H1 H2]; rewrite H1, H2;
          cbn [packet_queue callback_calls]; rewrite <- app_assoc;
          split; reflexivity
      end.
Qed.

Lemma drain_all (q : list packet) :
  forall s, packet_queue s = q ->
            fst (drain (length q) s) = q
            /\ packet_queue (snd (drain (length q) s)) = []
            /\ fst (get_packet_nowait (snd (drain (length q) s))) = None.
Proof.
  induction q as [| p q IH]; intros s Hq.
  - simpl. unfold get_packet_nowait. rewrite Hq. repeat split; auto.
  - set (s1 := {| has_callback := has_callback s;
                  callback_calls := callback_calls s;
                  maxsize := maxsize s; packet_queue := q |}).
    assert (E : get_packet_nowait s = (Some p, s1))
      by (unfold get_packet_nowait; rewrite Hq; reflexivity).
    cbn [length drain]. rewrite E.
    destruct (IH s1 eq_refl) as (H1 & H2 & H3).
    destruct (drain (length q) s1) as [ps s2]. cbn [fst snd] in *.
    rewrite H1. repeat split; assumption.
Qed.

(** X29.  Without overflow no packet is lost or reordered on its way out
    of the sniffer.  With a callback, every packet built from the frames is
    passed to the callback, in arrival order, and the queue is not used.
    Without callback, when the packets built fit into the empty queue, the
    consumer's calls of [get_packet_nowait] return exactly these packets in
    arrival order, and the next call finds the queue empty. *)
Theorem packets_delivered_in_order_without_overflow
    (s : sniffer) (frames : list (frame * Q)) :
  (has_callback s = true ->
   packet_queue (handle_all s frames) = packet_queue s
   /\ callback_calls (handle_all s frames)
      = callback_calls s ++ CaptureQueue.built frames)
  /\ (has_callback s = false ->
      packet_queue s = [] ->
      0 < maxsize s ->
      Z.of_nat (length (CaptureQueue.built frames)) <= maxsize s ->
      let n := length (CaptureQueue.built frames) in
      fst (drain n (handle_all s frames)) = CaptureQueue.built frames
      /\ fst (get_packet_nowait (snd (drain n (handle_all s frames)))) = None).
Proof.
  split; [apply callback_run |].
  intros Hcb Hq Hpos Hfit. cbv zeta.
  destruct (CaptureQueue.handler_run_pushes frames s Hcb) as [Hrun _].
  cbv zeta in Hrun. fold (handle_all s frames) in Hrun.
  assert (HC : maxsize s = Z.of_nat (Z.to_nat (maxsize s))) by lia.
  rewrite HC, Hq in Hrun.
  rewrite (CaptureQueue.push_all_lastn (Z.to_nat (maxsize s)) ltac:(lia)
             (CaptureQueue.built frames) [] ltac:(simpl; lia)) in Hrun.
  rewrite app_nil_l, PyFacts.lastn_all in Hrun by lia.
  destruct (drain_all (CaptureQueue.built frames) (handle_all s frames) Hrun)
    as (H1 & _ & H3).
  split; assumption.
Qed.

Definition frame_from (sport : Z) : frame * Q :=
  ({| ip_layer := Some ("192.168.1.20"%string, "93.184.216.34"%string);
      l4 := UDP sport 53; frame_len := 80 |}, 0%Q).

Definition with_callback : sniffer :=
  {| has_callback := true; callback_calls := []; maxsize := 2;
     packet_queue := [] |}.

Definition without_callback : sniffer :=
  {| has_callback := false; callback_calls := []; maxsize := 2;
     packet_queue := [] |}.

Lemma packets_delivered_in_order_without_overflow_witness :
  map source_port
    (callback_calls
       (handle_all with_callback [frame_from 1; frame_from 2; frame_from 3]))
    = [Some 1; Some 2; Some 3]
  /\ map source_port
       (fst (drain 2 (handle_all without_callback [frame_from 1; frame_from 2])))
     = [Some 1; Some 2].
Proof.
  split.
  - destruct (proj1 (packets_delivered_in_order_without_overflow with_callback
                       [frame_from 1; frame_from 2; frame_from 3]) eq_refl)
      as [_ H].
    rewrite H. reflexivity.
  - destruct (proj2 (packets_delivered_in_order_without_overflow
                       without_callback [frame_from 1; frame_from 2])
                eq_refl eq_refl ltac:(simpl; lia) ltac:(simpl; lia))
      as [H _].
    cbv zeta in H. simpl length in H. rewrite H. reflexivity.
Defined.

End SnifferMore.
